(** * lenta_parser: a shallow embedding of the two harvesting pipelines

    The repository holds two pipelines over the same remote catalogue:
    - [main.py]: an offset-paginated collector ([LentaAPI.get_products])
      that formats every raw item inline ([LentaAPI._extract_brand]) and
      hands the records to [CSVWriter.write_products];
    - [oop_test.py]: a single listing request followed by one detail
      request per item ([ProductParser.parse_product]) run on a thread pool
      ([process_products_parallel]) and written by [DataSaver.save_products].

    Beside the pipelines the file embeds the entry points that drive or
    accompany them ([main] of oop_test.py with [LentaAPI.get_products] and
    [timer_decorator]; [main] of store_fetcher.py), over a state of their
    own that extends the pipelines' world, and the JSON handler and the
    singleton of logger.py.

    Python values decoded from JSON are embedded as the inductive [value];
    exceptions as the [Raise] branch of [result]; the logger and the HTTP
    session as an explicit [world] threaded through the monad [M]. *)

From Stdlib Require Import String Ascii DecimalString.
From Stdlib Require Import List ZArith NArith Bool Lia Permutation.
From Stdlib Require Import Floats.SpecFloat Floats.PrimFloat Floats.FloatOps.
Import ListNotations.

Set Implicit Arguments.
Set Warnings "-register-all,-inexact-float".
Open Scope Z_scope.

(** ** Python strings *)

(** A Python [str] is a sequence of Unicode code points; [len] counts code
    points, not bytes, which matters for the Cyrillic product names. *)
Definition codepoint := N.
Definition str := list codepoint.

(** Decoding of a UTF-8 byte sequence, used to write string literals of the
    source ([pystr "brand"]). [need] is the number of continuation bytes
    still expected and [acc] the bits read so far. *)
Fixpoint utf8_decode (bs : list N) (need : nat) (acc : N) : str :=
  match bs with
  | [] => []
  | b :: rest =>
      if (b <? 128)%N then b :: utf8_decode rest 0 0%N
      else if (b <? 192)%N then
        let acc' := (acc * 64 + (b - 128))%N in
        match need with
        | 1%nat => acc' :: utf8_decode rest 0 0%N
        | S n => utf8_decode rest n acc'
        | O => utf8_decode rest 0 0%N
        end
      else if (b <? 224)%N then utf8_decode rest 1 (b - 192)%N
      else if (b <? 240)%N then utf8_decode rest 2 (b - 224)%N
      else utf8_decode rest 3 (b - 240)%N
  end.

Definition pystr (s : string) : str :=
  utf8_decode (map N_of_ascii (list_ascii_of_string s)) 0 0%N.
Arguments pystr : simpl never.

(** [str(z)] for an [int]. *)
Definition str_of_Z (z : Z) : str :=
  pystr (NilZero.string_of_int (Z.to_int z)).

Fixpoint str_eqb (s t : str) : bool :=
  match s, t with
  | [], [] => true
  | c :: s', d :: t' => (c =? d)%N && str_eqb s' t'
  | _, _ => false
  end.

(** The tables of the Unicode character database that [str.split] and
    [str.isupper] consult (CPython's [Py_UNICODE_ISSPACE] and friends),
    and [str.lower].
    They are data of the interpreter, not of this repository, so the
    development is parametric in them. *)
Class UnicodeData := {
  Py_UNICODE_ISSPACE : codepoint -> bool;
  Py_UNICODE_ISUPPER : codepoint -> bool;
  Py_UNICODE_ISLOWER : codepoint -> bool;
  Py_UNICODE_ISTITLE : codepoint -> bool;
  py_lower : str -> str
}.

Definition in_range (lo hi c : N) : bool := ((lo <=? c) && (c <=? hi))%N.

(** The database restricted to Basic Latin, Latin-1 Supplement and the
    Cyrillic block up to U+045F: enough to run the examples. *)
Definition latin_cyrillic : UnicodeData := {|
  Py_UNICODE_ISSPACE c :=
    in_range 9 13 c || in_range 28 32 c || (c =? 133)%N || (c =? 160)%N;
  Py_UNICODE_ISUPPER c :=
    in_range 65 90 c || (in_range 192 222 c && negb (c =? 215)%N)
    || in_range 1024 1071 c;
  Py_UNICODE_ISLOWER c :=
    in_range 97 122 c || (c =? 170)%N || (c =? 181)%N || (c =? 186)%N
    || (in_range 223 255 c && negb (c =? 247)%N) || in_range 1072 1119 c;
  Py_UNICODE_ISTITLE c := false;
  py_lower :=
    map (fun c =>
           if in_range 65 90 c || (in_range 192 222 c && negb (c =? 215)%N)
              || in_range 1040 1071 c
           then (c + 32)%N
           else if in_range 1024 1039 c then (c + 80)%N else c)
|}.

Section Str.
Context {U : UnicodeData}.

(** [s.split()]: the maximal runs of non-whitespace characters, in order.
    [cur] holds the current token, reversed. *)
Fixpoint split_from (s : str) (cur : str) : list str :=
  match s with
  | [] => match cur with [] => [] | _ => [rev cur] end
  | c :: rest =>
      if Py_UNICODE_ISSPACE c then
        match cur with
        | [] => split_from rest []
        | _ => rev cur :: split_from rest []
        end
      else split_from rest (c :: cur)
  end.

Definition str_split (s : str) : list str := split_from s [].

(** [s.isupper()]: no lower-case or title-case character and at least one
    upper-case one (CPython's [unicode_isupper_impl], with its shortcut for
    strings of length one). *)
Fixpoint isupper_from (cased : bool) (s : str) : bool :=
  match s with
  | [] => cased
  | c :: rest =>
      if Py_UNICODE_ISLOWER c || Py_UNICODE_ISTITLE c then false
      else isupper_from (cased || Py_UNICODE_ISUPPER c) rest
  end.

Definition str_isupper (s : str) : bool :=
  match s with
  | [c] => Py_UNICODE_ISUPPER c
  | _ => isupper_from false s
  end.

End Str.

(** [sep.join(parts)] *)
Fixpoint str_join (sep : str) (parts : list str) : str :=
  match parts with
  | [] => []
  | [p] => p
  | p :: rest => p ++ sep ++ str_join sep rest
  end.

(** ** Python floats *)

(** A [float] is an IEEE 754 binary64 number. *)
Definition pyfloat := spec_float.
Definition float_div : pyfloat -> pyfloat -> pyfloat := SFdiv 53 1024.

Definition float_of_Z (z : Z) : pyfloat :=
  match z with
  | Z0 => S754_zero false
  | Zpos p => S754_finite false p 0
  | Zneg p => S754_finite true p 0
  end.

Definition float_is_zero (f : pyfloat) : bool :=
  match f with S754_zero _ => true | _ => false end.

(** ** Python values and exceptions *)


Inductive value : Type :=
| VNone
| VBool (b : bool)
| VInt (z : Z)
| VFloat (f : pyfloat)
| VStr (s : str)
| VList (l : list value)
| VDict (d : list (str * value)).

Definition dict := list (str * value).

Inductive exn : Type :=
| KeyError (k : str)
| AttributeError
| TypeError
| ValueError
| OverflowError
| ClientError.

Inductive result (A : Type) : Type :=
| Ok (a : A)
| Raise (e : exn).
Arguments Ok {A} a.
Arguments Raise {A} e.

Definition rbind {A B} (r : result A) (k : A -> result B) : result B :=
  match r with
  | Ok a => k a
  | Raise e => Raise e
  end.

Declare Scope result_scope.
Delimit Scope result_scope with res.
Notation "x <- r ;; k" := (rbind r (fun x => k))
  (at level 61, r at next level, right associativity) : result_scope.

(** [d.get(k)] on the entries of a dict; a dict holds a key once, so the
    first entry with the key is the entry. *)
Fixpoint dict_get (d : dict) (k : str) : option value :=
  match d with
  | [] => None
  | (k', v) :: rest => if str_eqb k' k then Some v else dict_get rest k
  end.

(** [obj.get(k, default)]: only a dict has the method. *)
Definition py_get (obj : value) (k : str) (default : value) : result value :=
  match obj with
  | VDict d =>
      Ok (match dict_get d k with Some v => v | None => default end)
  | _ => Raise AttributeError
  end.

(** [obj[k]] with a string key: [KeyError] on a dict without the key, and
    [TypeError] on everything else JSON can decode to. *)
Definition py_getitem (obj : value) (k : str) : result value :=
  match obj with
  | VDict d =>
      match dict_get d k with
      | Some v => Ok v
      | None => Raise (KeyError k)
      end
  | _ => Raise TypeError
  end.

(** [v == s] for a string [s]: among decoded JSON values only an equal
    string compares equal to a string. *)
Definition eq_str (v : value) (s : str) : bool :=
  match v with
  | VStr t => str_eqb t s
  | _ => false
  end.

(** Truth value of an object ([bool(v)]). *)
Definition truthy (v : value) : bool :=
  match v with
  | VNone => false
  | VBool b => b
  | VInt z => negb (z =? 0)
  | VFloat f => negb (float_is_zero f)
  | VStr s => match s with [] => false | _ => true end
  | VList l => match l with [] => false | _ => true end
  | VDict d => match d with [] => false | _ => true end
  end.

(** The elements a [for] loop draws from an object: the elements of a
    list, the keys of a dict, the characters of a string. *)
Definition py_iter (v : value) : result (list value) :=
  match v with
  | VList l => Ok l
  | VDict d => Ok (map (fun kv => VStr (fst kv)) d)
  | VStr s => Ok (map (fun c => VStr [c]) s)
  | _ => Raise TypeError
  end.

(** [x / y] (true division) for the operand types JSON decodes to. An
    [int / int] quotient is correctly rounded to binary64; it raises
    [OverflowError] when it does not fit. *)
Definition py_truediv (x : value) (y : Z) : result value :=
  let int_div (a : Z) :=
    match float_div (float_of_Z a) (float_of_Z y) with
    | S754_infinity _ => Raise OverflowError
    | f => Ok (VFloat f)
    end in
  match x with
  | VInt a => int_div a
  | VBool b => int_div (if b then 1 else 0)
  | VFloat f => Ok (VFloat (float_div f (float_of_Z y)))
  | _ => Raise TypeError
  end.

(** [xs[:n]] *)
Definition slice_to {A} (xs : list A) (n : Z) : list A :=
  if 0 <=? n then firstn (Z.to_nat n) xs
  else firstn (length xs - Z.to_nat (- n)) xs.

Definition len {A} (xs : list A) : Z := Z.of_nat (length xs).
Arguments len : simpl never.

(** ** config.py *)

Module config.

Definition REQUIRED_COLUMNS : list str :=
  [pystr "id"; pystr "name"; pystr "regular_price"; pystr "promo_price";
   pystr "brand"].
Definition BRAND_ATTRIBUTE_ALIAS : str := pystr "brand".
Definition BRAND_ATTRIBUTE_NAME : str := pystr "Бренд".
Definition MIN_BRAND_LENGTH : Z := 1.
Definition PRODUCTS_PER_STORE : Z := 100.
Definition CATEGORY_BY_CITY : list (str * Z) :=
  [(pystr "Москва", 2); (pystr "Санкт-Петербург", 2)].
Definition CITIES : list (str * Z) :=
  [(pystr "Москва", 1); (pystr "Санкт-Петербург", 3)].
Definition STORE_IDS : list (str * Z) :=
  [(pystr "Москва", 104); (pystr "Санкт-Петербург", 3135)].

End config.

(** [table[k]] on one of the configuration dicts. *)
Fixpoint config_getitem (table : list (str * Z)) (k : str) : result Z :=
  match table with
  | [] => Raise (KeyError k)
  | (k', v) :: rest => if str_eqb k' k then Ok v else config_getitem rest k
  end.

(** ** The world outside the interpreter *)

(** One request body of the listing endpoint. The sort order, the
    out-of-stock flag and the region filter are constants or copies of
    [regionId] and are left out. *)
Record payload : Type := {
  categoryId : Z;
  limit : Z;
  offset : Z;
  regionId : value;
  pickupStoreId : value
}.

(** What one [session.post] amounts to: the call raises, or a response
    arrives with a status and with what [response.json()] evaluates to. *)
Inductive response : Type :=
| PostRaises (e : exn)
| Http (status : Z) (json : result value).

(** The remote endpoint: its answer to the [n]-th request of a run. *)
Definition server := nat -> payload -> response.

Inductive level : Type := INFO | ERROR.

(** The log lines of [main.py] and [oop_test.py], one constructor per call
    of the logger, carrying the values its f-string interpolates. *)
Inductive message : Type :=
| WritingStarts (count : Z) (filename : str)
| RowsWritten (count : Z) (filename : str)
| Saved (count : Z) (filename : str)
| StoreCreated (title : str)
| NoStoreInfo (city : str)
| FetchingProducts (store_id title : value) (city : str)
| Requesting (current_limit count : Z)
| StatusError (status : Z) (store_id : value)
| NoMoreProducts
| Received (count : Z)
| TotalCollected (count : Z)
| TotalFormatted (count : Z)
| CityFailed (city : str) (e : exn)
| MissingProductId
| DetailsFailed (product_id : value) (e : exn)
| ParseFailed (e : exn)
| ParallelStarts (count workers : Z)
| Progress (completed total : Z)
| ParallelDone (count : Z)
| CsvSaved (filename : str)
| CsvFailed (e : exn).

(** A written file: its rows, each a list of cells; a cell is the Python
    value handed to the CSV layer, before it is rendered as text. *)
Definition csv_file := list (list value).

Record world : Type := {
  log : list (level * message);
  requests : list payload;
  detail_requests : list value;
  files : list (str * csv_file)
}.

Definition empty_world : world :=
  {| log := []; requests := []; detail_requests := []; files := [] |}.

Definition set_log (w : world) (l : list (level * message)) : world :=
  {| log := l; requests := requests w;
     detail_requests := detail_requests w; files := files w |}.
Definition set_requests (w : world) (r : list payload) : world :=
  {| log := log w; requests := r;
     detail_requests := detail_requests w; files := files w |}.
Definition set_detail_requests (w : world) (r : list value) : world :=
  {| log := log w; requests := requests w;
     detail_requests := r; files := files w |}.
Definition set_files (w : world) (f : list (str * csv_file)) : world :=
  {| log := log w; requests := requests w;
     detail_requests := detail_requests w; files := f |}.

(** ** The monad of effectful code: exceptions over a threaded world *)

(** How a run of effectful code ends. [OutOfFuel] is not an outcome of
    Python: it marks a run of the model that was cut short, which no
    handler catches; [get_products_total] shows that no run is cut
    short. *)
Inductive run (A : Type) : Type :=
| Returns (a : A)
| Raises (e : exn)
| OutOfFuel.
Arguments Returns {A} a.
Arguments Raises {A} e.
Arguments OutOfFuel {A}.

Definition M (A : Type) : Type := world -> run A * world.

Definition ret {A} (a : A) : M A := fun w => (Returns a, w).

Definition bind {A B} (m : M A) (k : A -> M B) : M B :=
  fun w =>
    match m w with
    | (Returns a, w') => k a w'
    | (Raises e, w') => (Raises e, w')
    | (OutOfFuel, w') => (OutOfFuel, w')
    end.

Definition lift {A} (r : result A) : M A :=
  fun w =>
    match r with
    | Ok a => (Returns a, w)
    | Raise e => (Raises e, w)
    end.

Definition raise {A} (e : exn) : M A := fun w => (Raises e, w).

Definition out_of_fuel {A} : M A := fun w => (OutOfFuel, w).

(** [try: body except Exception as e: handler(e)] *)
Definition try_except {A} (body : M A) (handler : exn -> M A) : M A :=
  fun w =>
    match body w with
    | (Raises e, w') => handler e w'
    | other => other
    end.

Declare Scope monad_scope.
Delimit Scope monad_scope with M.
Notation "x <- m ;; k" := (bind m (fun x => k))
  (at level 61, m at next level, right associativity) : monad_scope.
Notation "m ;; k" := (bind m (fun _ => k))
  (at level 61, right associativity) : monad_scope.

Definition logger (l : level) (m : message) : M unit :=
  fun w => (Returns tt, set_log w (log w ++ [(l, m)])).

(** [session.post(url, json=payload)]: the request is recorded and the
    server's answer to it is returned. *)
Definition session_post (srv : server) (p : payload) : M response :=
  fun w =>
    (Returns (srv (List.length (requests w)) p),
     set_requests w (requests w ++ [p])).

(** The detail endpoint: what [session.get(...)], [raise_for_status()] and
    [response.json()] evaluate to together for the [n]-th detail request
    of a run: the decoded document, or the exception one of them raised. *)
Definition detail_server := nat -> value -> result value.

Definition session_get (srv : detail_server) (product_id : value) : M value :=
  fun w =>
    lift (srv (List.length (detail_requests w)) product_id)
      (set_detail_requests w (detail_requests w ++ [product_id])).

Fixpoint files_set (fs : list (str * csv_file)) (name : str) (c : csv_file)
  : list (str * csv_file) :=
  match fs with
  | [] => [(name, c)]
  | (n, c') :: rest =>
      if str_eqb n name then (n, c) :: rest else (n, c') :: files_set rest name c
  end.

Fixpoint files_get (fs : list (str * csv_file)) (name : str) : option csv_file :=
  match fs with
  | [] => None
  | (n, c) :: rest => if str_eqb n name then Some c else files_get rest name
  end.

(** [open(filename, "w")] on a name that can be opened: the file exists
    from now on and is empty. The world holds no directories and no
    permissions, so a run in which [open] raises has no counterpart. *)
Definition file_create (name : str) : M unit :=
  fun w => (Returns tt, set_files w (files_set (files w) name [])).

(** One more row at the end of an open file. *)
Definition file_append (name : str) (row : list value) : M unit :=
  fun w =>
    (Returns tt,
     set_files w
       (files_set (files w) name
          (match files_get (files w) name with
           | Some rows => rows ++ [row]
           | None => [row]
           end))).

(** * main.py: the inline pipeline *)

Module main.
Import config.

Section Code.
Context {U : UnicodeData}.

(** ** class LentaAPI *)

Record LentaAPI : Type := {
  city : str;
  session : server
}.

(** The attribute loop of [_extract_brand]: [Some v] when the loop returns
    [v] from the function, [None] when it runs to its end. *)
Fixpoint brand_from_attributes (attrs : list value) : result (option value) :=
  match attrs with
  | [] => Ok None
  | attr :: rest =>
      (alias <- py_get attr (pystr "alias") VNone ;;
       if eq_str alias BRAND_ATTRIBUTE_ALIAS then
         v <- py_get attr (pystr "value") (VStr []) ;; Ok (Some v)
       else
         name <- py_get attr (pystr "name") VNone ;;
         if eq_str name BRAND_ATTRIBUTE_NAME then
           v <- py_get attr (pystr "value") (VStr []) ;; Ok (Some v)
         else brand_from_attributes rest)%res
  end.

(** The inner [while] of the name scan; [following] is [name_parts[j:]],
    so its head is [name_parts[j]] and it is empty when
    [j = len(name_parts)]. *)
Fixpoint brand_while (following : list str) (brand_parts : list str)
  : list str :=
  match following with
  | [] => brand_parts
  | part :: following' =>
      if str_isupper part && (MIN_BRAND_LENGTH <? len part)
      then brand_while following' (brand_parts ++ [part])
      else brand_parts
  end.

(** The [for i, part in enumerate(name_parts)] loop, which ends at its
    [break]; the argument is [name_parts[i:]]. *)
Fixpoint brand_for (name_parts : list str) (brand_parts : list str)
  : list str :=
  match name_parts with
  | [] => brand_parts
  | part :: following =>
      if str_isupper part && (MIN_BRAND_LENGTH <? len part)
      then brand_while following (brand_parts ++ [part])
      else brand_for following brand_parts
  end.

(** [name.split()] on whatever [item.get("name", "")] returned. *)
Definition py_split (v : value) : result (list str) :=
  match v with
  | VStr s => Ok (str_split s)
  | _ => Raise AttributeError
  end.

Definition _extract_brand (item : value) : result value :=
  (attributes <- py_get item (pystr "attributes") (VList []) ;;
   attrs <- py_iter attributes ;;
   found <- brand_from_attributes attrs ;;
   match found with
   | Some v => Ok v
   | None =>
       name <- py_get item (pystr "name") (VStr []) ;;
       name_parts <- py_split name ;;
       Ok (VStr (str_join (pystr " ") (brand_for name_parts [])))
   end)%res.

Definition get_store (self : LentaAPI) : M value :=
  (store_id <- lift (config_getitem STORE_IDS (city self)) ;;
   region_id <- lift (config_getitem CITIES (city self)) ;;
   let title := pystr "Магазин Лента " ++ city self ++ pystr " (ID: "
                ++ str_of_Z store_id ++ pystr ")" in
   let store := VDict [(pystr "id", VInt store_id);
                       (pystr "regionId", VInt region_id);
                       (pystr "title", VStr title)] in
   logger INFO (StoreCreated title) ;;
   ret store)%M.

(** [len(items)] for what [data.get("items", [])] may be. *)
Definition py_len (v : value) : result Z :=
  match v with
  | VList l => Ok (len l)
  | VStr s => Ok (len s)
  | VDict d => Ok (len d)
  | _ => Raise TypeError
  end.

(** The elements that [collected.extend(items[:n])] appends. A dict cannot
    be sliced ([TypeError]; [KeyError] from Python 3.12 on). *)
Definition py_slice_to (v : value) (n : Z) : result (list value) :=
  match v with
  | VList l => Ok (slice_to l n)
  | VStr s => Ok (map (fun c => VStr [c]) (slice_to s n))
  | _ => Raise TypeError
  end.

(** The variables of the pagination loop. *)
Record loop_state : Type := {
  collected : list value;
  cursor : Z
}.

(** How one run of the loop body ends: at the bottom of the body, at a
    [break], or at the [return []]. *)
Inductive control : Type :=
| Next (st : loop_state)
| Break (st : loop_state)
| Return (v : list value).

Definition loop_body (self : LentaAPI) (store : value) (category_id : Z)
  (total_needed : Z) (st : loop_state) : M control :=
  (let current_limit :=
     Z.min PRODUCTS_PER_STORE (total_needed - len (collected st)) in
   logger INFO (Requesting current_limit (len (collected st))) ;;
   region <- lift (py_getitem store (pystr "regionId")) ;;
   store_id <- lift (py_getitem store (pystr "id")) ;;
   let request := {| categoryId := category_id;
                     limit := current_limit;
                     offset := cursor st;
                     regionId := region;
                     pickupStoreId := store_id |} in
   answer <- session_post (session self) request ;;
   match answer with
   | PostRaises e => raise e
   | Http status json =>
       if negb (status =? 200) then
         store_id <- lift (py_getitem store (pystr "id")) ;;
         logger ERROR (StatusError status store_id) ;;
         ret (Return [])
       else
         data <- lift json ;;
         items <- lift (py_get data (pystr "items") (VList [])) ;;
         if negb (truthy items) then
           logger INFO NoMoreProducts ;;
           ret (Break st)
         else
           count <- lift (py_len items) ;;
           logger INFO (Received count) ;;
           let remaining := total_needed - len (collected st) in
           items_to_add <- lift (py_slice_to items remaining) ;;
           let collected' := collected st ++ items_to_add in
           if total_needed <=? len collected' then
             ret (Break {| collected := collected'; cursor := cursor st |})
           else
             ret (Next {| collected := collected';
                          cursor := cursor st + count |})
   end)%M.

(** How the loop ends: past its condition or a [break], or at the
    [return []]. *)
Inductive loop_exit : Type :=
| Finished (st : loop_state)
| Returned (v : list value).

(** [while len(collected) < total_needed: ...], at most [fuel] times. *)
Fixpoint while_loop (fuel : nat) (self : LentaAPI) (store : value)
  (category_id : Z) (total_needed : Z) (st : loop_state) : M loop_exit :=
  if len (collected st) <? total_needed then
    match fuel with
    | O => out_of_fuel
    | S fuel' =>
        (c <- loop_body self store category_id total_needed st ;;
         match c with
         | Next st' =>
             while_loop fuel' self store category_id total_needed st'
         | Break st' => ret (Finished st')
         | Return v => ret (Returned v)
         end)%M
    end
  else ret (Finished st).

(** One entry of [formatted_products]. *)
Definition format_product (item : value) : result value :=
  (id <- py_getitem item (pystr "id") ;;
   name <- py_get item (pystr "name") (VStr []) ;;
   prices <- py_getitem item (pystr "prices") ;;
   price_regular <- py_getitem prices (pystr "priceRegular") ;;
   regular_price <- py_truediv price_regular 100 ;;
   prices <- py_getitem item (pystr "prices") ;;
   price <- py_getitem prices (pystr "price") ;;
   promo_price <- py_truediv price 100 ;;
   brand <- _extract_brand item ;;
   Ok (VDict [(pystr "id", id);
              (pystr "name", name);
              (pystr "regular_price", regular_price);
              (pystr "promo_price", promo_price);
              (pystr "brand", brand)]))%res.

Fixpoint format_products (items : list value) : result (list value) :=
  match items with
  | [] => Ok []
  | item :: rest =>
      (r <- format_product item ;;
       rs <- format_products rest ;;
       Ok (r :: rs))%res
  end.

(** [get_products] with the loop unrolled at most [fuel] times. The
    pause between two requests ([asyncio.sleep]) has no counterpart. *)
Definition get_products_fuel (fuel : nat) (self : LentaAPI) (store : value)
  (category_id : Z) (total_needed : Z) : M (list value) :=
  (if negb (truthy store) then
     logger ERROR (NoStoreInfo (city self)) ;;
     ret []
   else
     store_id <- lift (py_getitem store (pystr "id")) ;;
     title <- lift (py_getitem store (pystr "title")) ;;
     logger INFO (FetchingProducts store_id title (city self)) ;;
     e <- while_loop fuel self store category_id total_needed
            {| collected := []; cursor := 0 |} ;;
     match e with
     | Returned v => ret v
     | Finished st =>
         let collected := slice_to (collected st) total_needed in
         logger INFO (TotalCollected (len collected)) ;;
         formatted_products <- lift (format_products collected) ;;
         logger INFO (TotalFormatted (len formatted_products)) ;;
         ret formatted_products
     end)%M.

(** Every iteration that does not leave the loop appends an item, so
    [total_needed] iterations are enough (lemma [get_products_total]). *)
Definition get_products (self : LentaAPI) (store : value)
  (category_id : Z) (total_needed : Z) : M (list value) :=
  get_products_fuel (Z.to_nat total_needed) self store category_id
    total_needed.

(** ** class CSVWriter *)

Record CSVWriter : Type := {
  filename : str;
  fieldnames : list str
}.

Definition new_CSVWriter (filename : str) : CSVWriter :=
  {| filename := filename; fieldnames := REQUIRED_COLUMNS |}.

(** [csv.DictWriter._dict_to_list] with the defaults [restval=""] and
    [extrasaction="raise"]. *)
Definition dict_to_list (fieldnames : list str) (rowdict : value)
  : result (list value) :=
  match rowdict with
  | VDict d =>
      if existsb (fun kv => negb (existsb (str_eqb (fst kv)) fieldnames)) d
      then Raise ValueError
      else Ok (map (fun key => match dict_get d key with
                               | Some v => v
                               | None => VStr []
                               end) fieldnames)
  | _ => Raise AttributeError
  end.

(** [writer.writerows(rows)]: the rows are converted and written one by
    one, so the rows before a failing one are in the file. *)
Fixpoint writerows (self : CSVWriter) (rows : list value) : M unit :=
  match rows with
  | [] => ret tt
  | rowdict :: rest =>
      (cells <- lift (dict_to_list (fieldnames self) rowdict) ;;
       file_append (filename self) cells ;;
       writerows self rest)%M
  end.

Definition write_to_csv (self : CSVWriter) (products : list value) : M unit :=
  (logger INFO (WritingStarts (len products) (filename self)) ;;
   file_create (filename self) ;;
   file_append (filename self) (map VStr (fieldnames self)) ;;
   writerows self (slice_to products 100) ;;
   logger INFO (RowsWritten (len (slice_to products 100)) (filename self)))%M.

Definition write_products (self : CSVWriter) (products : list value) : M unit :=
  (write_to_csv self products ;;
   logger INFO (Saved (len (slice_to products 100)) (filename self)))%M.

(** ** main() *)

(** [s.replace(' ', '_')] *)
Definition replace_spaces (s : str) : str :=
  map (fun c => if (c =? 32)%N then 95%N else c) s.

(** The body of the [for city in CITIES] loop, with its [try]. *)
Definition main_city (srv : server) (city : str) : M unit :=
  try_except
    (let api := {| city := city; session := srv |} in
     store <- get_store api ;;
     category_id <- lift (config_getitem CATEGORY_BY_CITY city) ;;
     products <- get_products api store category_id PRODUCTS_PER_STORE ;;
     let writer := new_CSVWriter
                     (pystr "lenta_" ++ replace_spaces (py_lower city)
                      ++ pystr ".csv") in
     write_products writer products)%M
    (fun e => logger ERROR (CityFailed city e)).

(** [main]: every city has a session of its own, hence a server of its
    own. *)
Fixpoint main_loop (srv : str -> server) (cities : list str) : M unit :=
  match cities with
  | [] => ret tt
  | city :: rest => (main_city (srv city) city ;; main_loop srv rest)%M
  end.

Definition main (srv : str -> server) : M unit :=
  main_loop srv (map fst CITIES).

End Code.
End main.

(** * oop_test.py: the pipeline with one detail request per item *)

Module oop_test.

Definition MAX_WORKERS : Z := 2.
Definition DEFAULT_FILENAME : str := pystr "lenta_products.csv".
Definition REQUIRED_COLUMNS : list str :=
  [pystr "id"; pystr "name"; pystr "regular_price"; pystr "promo_price";
   pystr "brand"].

(** The dataclass [Product]; Python does not enforce the annotated field
    types, so a field holds whatever the constructor was given. *)
Record Product : Type := {
  id : value;
  name : value;
  regular_price : value;
  promo_price : value;
  brand : value
}.

(** [vars(p)]: the fields in the order of their declaration. *)
Definition vars (p : Product) : dict :=
  [(pystr "id", id p);
   (pystr "name", name p);
   (pystr "regular_price", regular_price p);
   (pystr "promo_price", promo_price p);
   (pystr "brand", brand p)].

(** ** class LentaAPI *)

Record LentaAPI : Type := {
  session : detail_server
}.

(** [None] is returned as [VNone]. *)
Definition get_product_details (self : LentaAPI) (product_id : value)
  : M value :=
  try_except
    (session_get (session self) product_id)
    (fun e => logger ERROR (DetailsFailed product_id e) ;; ret VNone)%M.

(** ** class ProductParser *)

Record ProductParser : Type := {
  api : LentaAPI
}.

Fixpoint brand_from_attributes (attrs : list value) : result value :=
  match attrs with
  | [] => Ok VNone
  | attr :: rest =>
      (alias <- py_get attr (pystr "alias") VNone ;;
       if eq_str alias (pystr "brand") then py_get attr (pystr "value") VNone
       else
         name <- py_get attr (pystr "name") VNone ;;
         if eq_str name (pystr "Бренд") then py_get attr (pystr "value") VNone
         else brand_from_attributes rest)%res
  end.

Definition extract_brand (item_detail : value) : result value :=
  if negb (truthy item_detail) then Ok VNone
  else
    (attributes <- py_get item_detail (pystr "attributes") (VList []) ;;
     attrs <- py_iter attributes ;;
     brand_from_attributes attrs)%res.

(** [x or y] *)
Definition py_or (x y : value) : value := if truthy x then x else y.

Definition is_None (v : value) : bool :=
  match v with VNone => true | _ => false end.

(** [price / 100] unless the price [is None]. *)
Definition to_roubles (price : value) : result value :=
  if is_None price then Ok VNone else py_truediv price 100.

Definition parse_product (self : ProductParser) (product_data : value)
  : M (option Product) :=
  try_except
    (prices <- lift (py_get product_data (pystr "prices") (VDict [])) ;;
     regular_price <- lift (py_get prices (pystr "priceRegular") VNone) ;;
     regular_price <- lift (to_roubles regular_price) ;;
     promo_price <- lift (py_get prices (pystr "price") VNone) ;;
     promo_price <- lift (to_roubles promo_price) ;;
     product_id <- lift (py_get product_data (pystr "id") VNone) ;;
     if negb (truthy product_id) then
       logger ERROR MissingProductId ;;
       ret None
     else
       item_detail <- get_product_details (api self) product_id ;;
       brand <- lift (extract_brand item_detail) ;;
       name <- lift (py_get product_data (pystr "name") (VStr [])) ;;
       ret (Some {| id := product_id;
                    name := name;
                    regular_price := py_or regular_price
                                       (VFloat (S754_zero false));
                    promo_price := py_or promo_price
                                     (VFloat (S754_zero false));
                    brand := py_or brand (VStr []) |}))%M
    (fun e => logger ERROR (ParseFailed e) ;; ret None)%M.

(** ** class DataSaver *)

Record DataSaver : Type := {
  filename : str
}.

Fixpoint write_rows (name : str) (rows : list (list value)) : M unit :=
  match rows with
  | [] => ret tt
  | row :: rest => (file_append name row ;; write_rows name rest)%M
  end.

(** [df[REQUIRED_COLUMNS]] on the frame built from the rows [vars(p)]: a
    frame built from no row has no column, and selecting the columns
    raises [KeyError]. *)
Definition select_columns (columns : list str) (frame : list dict)
  : result (list (list value)) :=
  match frame with
  | [] => Raise (KeyError (hd [] columns))
  | _ =>
      Ok (map (fun row =>
                 map (fun c => match dict_get row c with
                               | Some v => v
                               | None => VNone
                               end) columns) frame)
  end.

(** [save_products]; the timing line of [timer_decorator] is left out.
    [to_csv] opens the file as [file_create] does, so the handler is
    reached from the selection of the columns only. *)
Definition save_products (self : DataSaver) (products : list Product)
  : M unit :=
  try_except
    (let df := map vars products in
     rows <- lift (select_columns REQUIRED_COLUMNS df) ;;
     file_create (filename self) ;;
     file_append (filename self) (map VStr REQUIRED_COLUMNS) ;;
     write_rows (filename self) rows ;;
     logger INFO (CsvSaved (filename self)))%M
    (fun e => logger ERROR (CsvFailed e)).

(** ** process_products_parallel *)

(** The loop over [as_completed]: the tasks finish in the order [order]
    (positions in [products]), which the thread pool decides and the
    model takes as given; a task's requests and log lines are placed at
    its completion. [parse_product] catches every exception, so
    [future.result()] raises none. *)
Fixpoint collect_results (parser : ProductParser) (products : list value)
  (order : list nat) (results : list Product) (completed : Z)
  : M (list Product) :=
  match order with
  | [] => ret results
  | i :: rest =>
      match nth_error products i with
      | None => collect_results parser products rest results completed
      | Some product =>
          (result <- parse_product parser product ;;
           let results := match result with
                          | Some r => results ++ [r]
                          | None => results
                          end in
           let completed := completed + 1 in
           (if completed mod 10 =? 0
            then logger INFO (Progress completed (len products))
            else ret tt) ;;
           collect_results parser products rest results completed)%M
      end
  end.

(** [ThreadPoolExecutor(max_workers=max_workers)] raises [ValueError]
    unless [max_workers] is positive: after the first line is logged and
    before a task is submitted. The timing line of [timer_decorator] is
    left out. *)
Definition process_products_parallel (products : list value)
  (parser : ProductParser) (max_workers : Z) (order : list nat)
  : M (list Product) :=
  (logger INFO (ParallelStarts (len products) max_workers) ;;
   if max_workers <=? 0 then raise ValueError
   else
     results <- collect_results parser products order [] 0 ;;
     logger INFO (ParallelDone (len results)) ;;
     ret results)%M.

End oop_test.

(** * The entry points of oop_test.py and store_fetcher.py *)

(** ** Their world *)

(** The lines the entry points log themselves, which no function of the
    pipelines above writes. *)
Inductive line : Type :=
| ListingFailed (e : exn)
| ItemsReceived (n : Z)
| AllCollected (n : Z)
| TotalTime
| NothingReceived
| Timed (function : str)
| FetchingStores (city : str)
| StoresReceived (n : Z) (city : str)
| StoresSaved (n : Z) (filename : str).

(** The requests the entry points send themselves. *)
Inductive post : Type :=
| Listing (category_id limit : Z)
| StoreSearch (region_id : Z).

(** What the calls on a response evaluate to after the [n]-th of these
    requests: the decoded document, or the exception one of them raised.
    For [oop_test.py] the calls are [session.post], [raise_for_status]
    and [response.json()]; for [store_fetcher.py], which does not look at
    the status, [session.post] and [response.json()]. *)
Definition endpoint := nat -> post -> result value.

(** The world of an entry point: the world of the pipeline it drives, its
    own log lines and its own requests. A line is kept with the number of
    lines the pipeline had logged before it, which fixes its place in the
    one log of the program. *)
Record entry_state : Type := {
  pipeline : world;
  journal : list (nat * (level * line));
  posts : list post
}.

Definition new_entry_state (w : world) : entry_state :=
  {| pipeline := w; journal := []; posts := [] |}.

Definition E (A : Type) : Type := entry_state -> run A * entry_state.

Definition eret {A} (a : A) : E A := fun s => (Returns a, s).

Definition ebind {A B} (m : E A) (k : A -> E B) : E B :=
  fun s =>
    match m s with
    | (Returns a, s') => k a s'
    | (Raises e, s') => (Raises e, s')
    | (OutOfFuel, s') => (OutOfFuel, s')
    end.

Definition elift {A} (r : result A) : E A :=
  fun s =>
    match r with
    | Ok a => (Returns a, s)
    | Raise e => (Raises e, s)
    end.

(** [try: body except Exception as e: handler(e)] *)
Definition etry {A} (body : E A) (handler : exn -> E A) : E A :=
  fun s =>
    match body s with
    | (Raises e, s') => handler e s'
    | other => other
    end.

(** A function of the pipelines, run on the pipeline's world. *)
Definition of_M {A} (m : M A) : E A :=
  fun s =>
    let (r, w) := m (pipeline s) in
    (r, {| pipeline := w; journal := journal s; posts := posts s |}).

Definition elog (l : level) (m : line) : E unit :=
  fun s =>
    (Returns tt,
     {| pipeline := pipeline s;
        journal := journal s ++ [(List.length (log (pipeline s)), (l, m))];
        posts := posts s |}).

(** The request is recorded and the endpoint's answer to it returned or
    raised. *)
Definition epost (srv : endpoint) (p : post) : E value :=
  fun s =>
    elift (srv (List.length (posts s)) p)
      {| pipeline := pipeline s; journal := journal s;
         posts := posts s ++ [p] |}.

Declare Scope entry_scope.
Delimit Scope entry_scope with E.
Notation "x <- m ;; k" := (ebind m (fun x => k))
  (at level 61, m at next level, right associativity) : entry_scope.
Notation "m ;; k" := (ebind m (fun _ => k))
  (at level 61, right associativity) : entry_scope.

(** [timer_decorator] of oop_test.py: the line is logged when the
    function returns, and not when it raises. The two clock readings have
    no counterpart. *)
Definition timer_decorator {A} (name : str) (func : E A) : E A :=
  (result <- func ;;
   elog INFO (Timed name) ;;
   eret result)%E.

(** ** oop_test.py: LentaAPI.get_products and main *)

Module oop_entry.

Definition DEFAULT_CATEGORY_ID : Z := 4.
Definition DEFAULT_LIMIT : Z := 2.

(** The API object with its listing endpoint beside the detail endpoint
    of [oop_test.LentaAPI]. *)
Record LentaAPI : Type := {
  detail_api : oop_test.LentaAPI;
  listing : endpoint
}.

Definition get_products (self : LentaAPI) (category_id limit : Z) : E value :=
  etry
    (data <- epost (listing self) (Listing category_id limit) ;;
     elift (py_get data (pystr "items") (VList [])))%E
    (fun e => elog ERROR (ListingFailed e) ;; eret (VList []))%E.

(** [DataSaver.save_products] and [process_products_parallel] as they
    are decorated: with their timing lines. *)
Definition save_products (self : oop_test.DataSaver)
  (products : list oop_test.Product) : E unit :=
  timer_decorator (pystr "save_products")
    (of_M (oop_test.save_products self products)).

Definition process_products_parallel (products : list value)
  (parser : oop_test.ProductParser) (max_workers : Z) (order : list nat)
  : E (list oop_test.Product) :=
  timer_decorator (pystr "process_products_parallel")
    (of_M (oop_test.process_products_parallel products parser max_workers
             order)).

(** [main]. What [api.get_products()] returned is whatever the document
    holds under "items"; [len(products)] and the iteration of
    [process_products_parallel] take it as it is. The thread pool's
    completion order is given, as for [process_products_parallel]. *)
Definition main (api : LentaAPI) (order : list nat) : E unit :=
  timer_decorator (pystr "main")
    (let parser := {| oop_test.api := detail_api api |} in
     products <- get_products api DEFAULT_CATEGORY_ID DEFAULT_LIMIT ;;
     if truthy products then
       n <- elift (main.py_len products) ;;
       elog INFO (ItemsReceived n) ;;
       items <- elift (py_iter products) ;;
       parsed_products <-
         process_products_parallel items parser oop_test.MAX_WORKERS order ;;
       let saver := {| oop_test.filename := oop_test.DEFAULT_FILENAME |} in
       save_products saver parsed_products ;;
       elog INFO (AllCollected (len parsed_products)) ;;
       elog INFO TotalTime
     else elog ERROR NothingReceived)%E.

End oop_entry.

(** ** store_fetcher.py *)

Module store_fetcher.

Definition FIELDNAMES : list str := [pystr "id"; pystr "title"; pystr "city"].

(** [d[k] = v]: a key the dict has keeps its place. *)
Fixpoint dict_set (d : dict) (k : str) (v : value) : dict :=
  match d with
  | [] => [(k, v)]
  | (k', v') :: rest =>
      if str_eqb k' k then (k', v) :: rest else (k', v') :: dict_set rest k v
  end.

(** [store['city'] = city]; only a dict among the decoded values takes a
    string key. *)
Definition set_city (city : str) (store : value) : result value :=
  match store with
  | VDict d => Ok (VDict (dict_set d (pystr "city") (VStr city)))
  | _ => Raise TypeError
  end.

(** [for store in stores: store['city'] = city]: the stores as they are
    after the loop. *)
Fixpoint set_cities (city : str) (stores : list value)
  : result (list value) :=
  match stores with
  | [] => Ok []
  | store :: rest =>
      (store' <- set_city city store ;;
       rest' <- set_cities city rest ;;
       Ok (store' :: rest'))%res
  end.

(** One element of the list comprehension handed to [writerows]. *)
Definition row (s : value) : result value :=
  (id <- py_getitem s (pystr "id") ;;
   title <- py_getitem s (pystr "title") ;;
   city <- py_getitem s (pystr "city") ;;
   Ok (VDict [(pystr "id", id); (pystr "title", title);
              (pystr "city", city)]))%res.

Fixpoint rows (all_stores : list value) : result (list value) :=
  match all_stores with
  | [] => Ok []
  | s :: rest =>
      (r <- row s ;;
       rs <- rows rest ;;
       Ok (r :: rs))%res
  end.

(** The [for city in CITIES] loop; every city has a session of its own,
    hence an endpoint of its own. *)
Fixpoint fetch (srv : str -> endpoint) (cities : list str)
  (all_stores : list value) : E (list value) :=
  match cities with
  | [] => eret all_stores
  | city :: rest =>
      (elog INFO (FetchingStores city) ;;
       region_id <- elift (config_getitem config.CITIES city) ;;
       data <- epost (srv city) (StoreSearch region_id) ;;
       stores <- elift (py_get data (pystr "items") (VList [])) ;;
       elements <- elift (py_iter stores) ;;
       stores <- elift (set_cities city elements) ;;
       elog INFO (StoresReceived (len stores) city) ;;
       fetch srv rest (all_stores ++ stores))%E
  end.

(** [main]; [now] is the timestamp of the file name. The header is
    written before the rows are built. *)
Definition main (srv : str -> endpoint) (now : str) : E unit :=
  (all_stores <- fetch srv (map fst config.CITIES) [] ;;
   let filename := pystr "lenta_stores_" ++ now ++ pystr ".csv" in
   of_M (file_create filename) ;;
   of_M (file_append filename (map VStr FIELDNAMES)) ;;
   rows <- elift (rows all_stores) ;;
   of_M (main.writerows {| main.filename := filename;
                           main.fieldnames := FIELDNAMES |} rows) ;;
   elog INFO (StoresSaved (len all_stores) filename))%E.

End store_fetcher.

(** * logger.py: the JSON log file *)

Module json_logger.

Definition LOG_FORMAT : str := pystr "%(asctime)s - %(levelname)s - %(message)s".
Definition LOG_LEVEL : Z := 20.
Definition LOG_DIR : str := pystr "logs".

(** What [emit] reads of a [logging.LogRecord]; [created] stands for what
    [datetime.fromtimestamp(record.created).isoformat()] evaluates to and
    [getMessage] for what [record.getMessage()] does: the program logs
    formatted strings only, without arguments. *)
Record LogRecord : Type := {
  created : str;
  levelname : str;
  getMessage : str;
  module : str;
  funcName : str;
  lineno : Z
}.

(** The documents of the file system: the list that [json.dump] wrote
    under a path, if any. *)
Definition documents := str -> option (list value).

Definition no_document : documents := fun _ => None.

(** [with open(path, 'w') as f: json.dump(doc, f)] *)
Definition json_dump (fs : documents) (path : str) (doc : list value)
  : documents :=
  fun p => if str_eqb p path then Some doc else fs p.

Record JSONHandler : Type := {
  filename : str;
  logs : list value
}.

(** [JSONHandler(filename)]; the directory it creates has no
    counterpart. *)
Definition new_JSONHandler (filename : str) : JSONHandler :=
  {| filename := filename; logs := [] |}.

Definition emit (self : JSONHandler) (record : LogRecord) (fs : documents)
  : JSONHandler * documents :=
  let log_entry :=
    VDict [(pystr "timestamp", VStr (created record));
           (pystr "level", VStr (levelname record));
           (pystr "message", VStr (getMessage record));
           (pystr "module", VStr (module record));
           (pystr "function", VStr (funcName record));
           (pystr "line", VInt (lineno record))] in
  let logs := logs self ++ [log_entry] in
  ({| filename := filename self; logs := logs |},
   json_dump fs (LOG_DIR ++ pystr "/" ++ filename self) logs).

(** The handlers [_initialize_logger] makes. *)
Inductive Handler : Type :=
| StreamHandler (format : str)
| JSON (handler : JSONHandler).

(** The state behind [LoggerSingleton]: the class attribute [_instance]
    (set or not; the instance holds nothing but the logger) and the
    logger that [logging.getLogger(LOG_NAME)] returns every time, with
    its level and its handlers; the lines a [StreamHandler] wrote to the
    console; the documents. *)
Record interpreter : Type := {
  _instance : bool;
  level : Z;
  handlers : list Handler;
  console : list (str * LogRecord);
  files : documents
}.

Definition fresh : interpreter :=
  {| _instance := false; level := 0; handlers := []; console := [];
     files := no_document |}.

(** [now] is the timestamp of the file name. *)
Definition _initialize_logger (now : str) (st : interpreter) : interpreter :=
  let console_handler := StreamHandler LOG_FORMAT in
  let json_handler :=
    JSON (new_JSONHandler (pystr "lenta_parser_" ++ now ++ pystr ".json")) in
  {| _instance := _instance st;
     level := LOG_LEVEL;
     handlers := (handlers st ++ [console_handler]) ++ [json_handler];
     console := console st;
     files := files st |}.

(** [LoggerSingleton()], that is [__new__]. *)
Definition new_LoggerSingleton (now : str) (st : interpreter) : interpreter :=
  if _instance st then st
  else
    _initialize_logger now
      {| _instance := true; level := level st; handlers := handlers st;
         console := console st; files := files st |}.

(** [Logger.callHandlers]: every handler of the logger emits the record,
    in the order of their registration. *)
Fixpoint callHandlers (hs : list Handler) (record : LogRecord)
  (out : list (str * LogRecord)) (fs : documents)
  : list Handler * list (str * LogRecord) * documents :=
  match hs with
  | [] => ([], out, fs)
  | StreamHandler format :: rest =>
      let '(rest', out', fs') :=
        callHandlers rest record (out ++ [(format, record)]) fs in
      (StreamHandler format :: rest', out', fs')
  | JSON h :: rest =>
      let (h', fs1) := emit h record fs in
      let '(rest', out', fs') := callHandlers rest record out fs1 in
      (JSON h' :: rest', out', fs')
  end.

(** [logger.info(msg)] and [logger.error(msg)], whose records pass the
    level [LOG_LEVEL]: the record goes to the handlers. *)
Definition handle (record : LogRecord) (st : interpreter) : interpreter :=
  let '(hs, out, fs) :=
    callHandlers (handlers st) record (console st) (files st) in
  {| _instance := _instance st; level := level st; handlers := hs;
     console := out; files := fs |}.

End json_logger.

(** * Vocabulary of the specification *)

Section Vocabulary.
Context {U : UnicodeData}.

(** An attribute names the brand when its alias is the canonical brand
    alias or its display name the canonical brand display name. *)
Definition names_brand (attr : dict) : bool :=
  match dict_get attr (pystr "alias") with
  | Some v => eq_str v config.BRAND_ATTRIBUTE_ALIAS
  | None => false
  end
  || match dict_get attr (pystr "name") with
     | Some v => eq_str v config.BRAND_ATTRIBUTE_NAME
     | None => false
     end.

(** An attribute (an object) that does not name the brand. *)
Definition other_attribute (attr : value) : bool :=
  match attr with
  | VDict d => negb (names_brand d)
  | _ => false
  end.

(** A token of a name counts for the heuristic when it is upper-case and
    longer than the minimum length. *)
Definition qualifies (token : str) : bool :=
  str_isupper token && (config.MIN_BRAND_LENGTH <? len token).

(** The head of [tokens], if any, does not qualify. *)
Definition run_ends (tokens : list str) : bool :=
  match tokens with
  | [] => true
  | t :: _ => negb (qualifies t)
  end.

(** [run] is the first maximal run of qualifying tokens in
    [before ++ run ++ after]: nothing qualifies before it, all of it
    qualifies, the token after it does not, and it is empty only when
    nothing is left. *)
Definition first_run (before run after : list str) : bool :=
  forallb (fun t => negb (qualifies t)) before
  && forallb qualifies run
  && run_ends after
  && match run, after with
     | [], _ :: _ => false
     | _, _ => true
     end.

(** Following the specification's wording: skip the tokens up to the first
    that qualifies, then take tokens for as long as they qualify. *)
Fixpoint take_run (tokens : list str) : list str :=
  match tokens with
  | [] => []
  | t :: rest => if qualifies t then t :: take_run rest else []
  end.

Fixpoint skip_to_run (tokens : list str) : list str :=
  match tokens with
  | [] => []
  | t :: rest => if qualifies t then tokens else skip_to_run rest
  end.

(** The page a response carries: the list under "items" of a 200 answer;
    an answer without the member carries the empty page. *)
Definition page_of (r : response) : option (list value) :=
  match r with
  | Http status (Ok data) =>
      if status =? 200 then
        match py_get data (pystr "items") (VList []) with
        | Ok (VList l) => Some l
        | _ => None
        end
      else None
  | _ => None
  end.

(** From its [n]-th request on the source serves [pages], one page per
    request whatever the request asks for, and then an empty page. *)
Definition serves (srv : server) (n : nat) (pages : list (list value)) : Prop :=
  forall i p, (i <= List.length pages)%nat ->
    page_of (srv (n + i)%nat p) = Some (nth i pages []).

Definition nonempty {A} (l : list A) : bool :=
  match l with [] => false | _ => true end.

(** A store object with the three members [get_products] reads. *)
Definition store_ok (store : value) : bool :=
  match py_getitem store (pystr "id"), py_getitem store (pystr "title"),
        py_getitem store (pystr "regionId") with
  | Ok _, Ok _, Ok _ => true
  | _, _, _ => false
  end.

(** The number of iterations the pagination loop can still make. *)
Definition iterations_left (total_needed : Z) (st : main.loop_state) : nat :=
  Z.to_nat (total_needed - len (main.collected st)).

End Vocabulary.

(** A computation that sends no request and does not run out of fuel. *)
Definition quiet {A} (m : M A) : Prop :=
  forall w r w', m w = (r, w') -> requests w' = requests w /\ r <> OutOfFuel.

(** The log lines that report an item as dropped by [parse_product]. *)
Definition reports_drop (entry : level * message) : bool :=
  match entry with
  | (ERROR, MissingProductId) => true
  | (ERROR, ParseFailed _) => true
  | _ => false
  end.

Definition drops (l : list (level * message)) : nat :=
  List.length (filter reports_drop l).

(** The cells of a record under the given columns, an absent member
    giving the empty string. *)
Definition fields_of (columns : list str) (record : value) : list value :=
  match record with
  | VDict d =>
      map (fun key => match dict_get d key with
                      | Some v => v
                      | None => VStr []
                      end) columns
  | _ => []
  end.

(** A record that holds nothing but members named by the columns. *)
Definition only_fields (columns : list str) (record : value) : bool :=
  match record with
  | VDict d => forallb (fun kv => existsb (str_eqb (fst kv)) columns) d
  | _ => false
  end.

(** The five cells of a [Product], in the order of the columns. *)
Definition product_row (p : oop_test.Product) : list value :=
  [oop_test.id p; oop_test.name p; oop_test.regular_price p;
   oop_test.promo_price p; oop_test.brand p].

(** A request of the pagination loop that asks for what is still missing
    of [total_needed] items from its offset on, one page at most. *)
Definition asks_for_the_rest (total_needed : Z) (p : payload) : Prop :=
  0 <= offset p
  /\ 1 <= limit p
  /\ limit p = Z.min config.PRODUCTS_PER_STORE (total_needed - offset p).

(** The source holds [catalogue] and answers the request [p] by its
    offset: with a page that is a piece of the catalogue from that offset
    on, of whatever size, and that is empty only when nothing is left
    there. *)
Definition answers_from (catalogue : list value) (answer : response)
  (p : payload) : Prop :=
  exists page,
    page_of answer = Some page
    /\ page = firstn (List.length page)
                (skipn (Z.to_nat (offset p)) catalogue)
    /\ (page = [] -> skipn (Z.to_nat (offset p)) catalogue = []).

(** The pagination loop is in step with [catalogue]: what it has
    collected is a piece of the catalogue from its start, and its offset
    is the length of that piece. *)
Definition in_step (catalogue : list value) (st : main.loop_state) : Prop :=
  main.cursor st = len (main.collected st)
  /\ exists rest, catalogue = main.collected st ++ rest.

(** A result of pure code as the outcome of a run. *)
Definition run_of {A} (r : result A) : run A :=
  match r with
  | Ok a => Returns a
  | Raise e => Raises e
  end.

(** What [get_product_details] makes of the answer of the detail
    endpoint: the document, or [None] after a failure. *)
Definition detail_of (answer : result value) : value :=
  match answer with
  | Ok item_detail => item_detail
  | Raise _ => VNone
  end.

(** An identifier the detail endpoint is asked for on behalf of
    [products]: a true value that one of the items carries as its id. *)
Definition asked_for (products : list value) (product_id : value) : Prop :=
  truthy product_id = true
  /\ exists product,
       In product products
       /\ py_get product (pystr "id") VNone = Ok product_id.

(** What the listing request of [oop_test.main] yields in a run started
    in [s]: the value under "items" of the document, or the exception of
    the request or of the lookup. *)
Definition listed (api : oop_entry.LentaAPI) (s : entry_state)
  : result value :=
  (data <- oop_entry.listing api (List.length (posts s))
             (Listing oop_entry.DEFAULT_CATEGORY_ID oop_entry.DEFAULT_LIMIT) ;;
   py_get data (pystr "items") (VList []))%res.

(** A value that is true and has no length: a number other than zero,
    or [True]. *)
Definition unsized (v : value) : bool :=
  truthy v
  && match main.py_len v with
     | Ok _ => false
     | Raise _ => true
     end.

(** A store as [store_fetcher.main] can write it: an object with an id
    and a title. *)
Definition store_like (s : value) : bool :=
  match s with
  | VDict d =>
      match dict_get d (pystr "id"), dict_get d (pystr "title") with
      | Some _, Some _ => true
      | _, _ => false
      end
  | _ => false
  end.

(** The cells of the row of a store listed for [city]. *)
Definition store_cells (city : str) (s : value) : list value :=
  match s with
  | VDict d =>
      [match dict_get d (pystr "id") with Some v => v | None => VStr [] end;
       match dict_get d (pystr "title") with Some v => v | None => VStr [] end;
       VStr city]
  | _ => []
  end.

(** The endpoint of [city] answers every search with a document that
    lists [stores]. *)
Definition lists_stores (srv : endpoint) (stores : list value) : Prop :=
  forall n region,
    exists data,
      srv n (StoreSearch region) = Ok data
      /\ py_get data (pystr "items") (VList []) = Ok (VList stores).

(** A computation of an entry point that leaves the world of the
    pipeline as it is. *)
Definition keeps_pipeline {A} (m : E A) : Prop :=
  forall s r s', m s = (r, s') -> pipeline s' = pipeline s.

(** A store after [store['city'] = city]. *)
Definition tagged (city : str) (s : value) : value :=
  match s with
  | VDict d => VDict (store_fetcher.dict_set d (pystr "city") (VStr city))
  | _ => s
  end.

(** The entry [emit] makes of a record. *)
Definition entry_of (record : json_logger.LogRecord) : value :=
  VDict [(pystr "timestamp", VStr (json_logger.created record));
         (pystr "level", VStr (json_logger.levelname record));
         (pystr "message", VStr (json_logger.getMessage record));
         (pystr "module", VStr (json_logger.module record));
         (pystr "function", VStr (json_logger.funcName record));
         (pystr "line", VInt (json_logger.lineno record))].

(** A handler emits the records one after the other. *)
Definition emit_all (h : json_logger.JSONHandler)
  (records : list json_logger.LogRecord) (fs : json_logger.documents)
  : json_logger.JSONHandler * json_logger.documents :=
  fold_left (fun st record => json_logger.emit (fst st) record (snd st))
    records (h, fs).

(** The program constructs [LoggerSingleton] [n] times (one construction
    per import of the module would be [n = 1]). *)
Fixpoint constructions (n : nat) (now : nat -> str)
  (st : json_logger.interpreter) : json_logger.interpreter :=
  match n with
  | O => st
  | S n' =>
      constructions n' (fun i => now (S i))
        (json_logger.new_LoggerSingleton (now O) st)
  end.

(** The path of the document of a handler. *)
Definition document_of (h : json_logger.JSONHandler) : str :=
  json_logger.LOG_DIR ++ pystr "/" ++ json_logger.filename h.

(** The program logs the records one after the other. *)
Definition handle_all (records : list json_logger.LogRecord)
  (st : json_logger.interpreter) : json_logger.interpreter :=
  fold_left (fun st record => json_logger.handle record st) records st.

(** * Data of the examples *)

(** The item of the specification's example: the attribute wins over the
    upper-case name. *)
Definition pepsi_max : dict :=
  [(pystr "id", VInt 2);
   (pystr "attributes",
    VList [VDict [(pystr "alias", VStr (pystr "brand"));
                  (pystr "value", VStr (pystr "Pepsi"))]]);
   (pystr "name", VStr (pystr "PEPSI MAX"))].

(** The item of the specification's example: the run stops at "Light". *)
Definition coca_cola_light : value :=
  VDict [(pystr "id", VInt 1);
         (pystr "name", VStr (pystr "COCA COLA Light"));
         (pystr "attributes", VList [])].

(** A well-formed raw item of the listing endpoint. *)
Definition item (i : Z) : value :=
  VDict [(pystr "id", VInt i);
         (pystr "name", VStr (pystr "Молоко ПРОСТОКВАШИНО 3.2%"));
         (pystr "prices",
          VDict [(pystr "priceRegular", VInt 12999);
                 (pystr "price", VInt 9990)]);
         (pystr "weight", VInt 930)].

(** A 200 answer carrying a page. *)
Definition page (items : list value) : response :=
  Http 200 (Ok (VDict [(pystr "items", VList items)])).

(** A source with six items that serves them three at a time, whatever
    limit is asked for, and nothing afterwards. *)
Definition three_three_none : server :=
  fun n _ =>
    nth n [page [item 1; item 2; item 3]; page [item 4; item 5; item 6]]
      (page []).

(** A source that holds [items] and answers a request with the items
    from its offset on, as many as its limit. *)
Definition by_offset (items : list value) : server :=
  fun _ p =>
    page (firstn (Z.to_nat (limit p)) (skipn (Z.to_nat (offset p)) items)).

Definition six_items : list value :=
  [item 1; item 2; item 3; item 4; item 5; item 6].

(** A source that answers the second request with a 500. *)
Definition page_then_500 : server :=
  fun n _ =>
    nth n [page [item 1; item 2; item 3]] (Http 500 (Raise ClientError)).

(** A source whose second request fails in transport. *)
Definition page_then_down : server :=
  fun n _ => nth n [page [item 1; item 2; item 3]] (PostRaises ClientError).

Definition moscow (srv : server) : main.LentaAPI :=
  {| main.city := pystr "Москва"; main.session := srv |}.

(** The store object [get_store] builds for Moscow. *)
Definition moscow_store : value :=
  VDict [(pystr "id", VInt 104);
         (pystr "regionId", VInt 1);
         (pystr "title", VStr (pystr "Магазин Лента Москва (ID: 104)"))].

(** A detail endpoint that is down for product 7 and knows the brand of
    every other product. *)
Definition down_for_7 : detail_server :=
  fun _ product_id =>
    match product_id with
    | VInt 7 => Raise ClientError
    | _ => Ok (VDict [(pystr "attributes",
                       VList [VDict [(pystr "alias", VStr (pystr "brand"));
                                     (pystr "value", VStr (pystr "Pepsi"))]])])
    end.

Definition parser_of (srv : detail_server) : oop_test.ProductParser :=
  {| oop_test.api := {| oop_test.session := srv |} |}.

(** A raw item as the detail pipeline reads it, with a given identifier
    (or none). *)
Definition product_with_id (product_id : option value) : value :=
  VDict (match product_id with
         | Some v => [(pystr "id", v)]
         | None => []
         end
         ++ [(pystr "name", VStr (pystr "PEPSI MAX"));
             (pystr "prices",
              VDict [(pystr "priceRegular", VInt 12999);
                     (pystr "price", VInt 9990)])]).

(** A raw item without a price block. *)
Definition product_without_prices : value :=
  VDict [(pystr "id", VInt 9); (pystr "name", VStr (pystr "PEPSI MAX"))].

(** A record as [get_products] builds it, and a [Product]. *)
Definition pepsi_record : value :=
  VDict [(pystr "id", VInt 2);
         (pystr "name", VStr (pystr "PEPSI MAX"));
         (pystr "regular_price", VFloat (Prim2SF 129.99%float));
         (pystr "promo_price", VFloat (Prim2SF 99.9%float));
         (pystr "brand", VStr (pystr "Pepsi"))].

Definition pepsi_product : oop_test.Product :=
  {| oop_test.id := VInt 2;
     oop_test.name := VStr (pystr "PEPSI MAX");
     oop_test.regular_price := VFloat (Prim2SF 129.99%float);
     oop_test.promo_price := VFloat (Prim2SF 99.9%float);
     oop_test.brand := VStr (pystr "Pepsi") |}.

Definition pepsi_row : list value :=
  [VInt 2; VStr (pystr "PEPSI MAX"); VFloat (Prim2SF 129.99%float);
   VFloat (Prim2SF 99.9%float); VStr (pystr "Pepsi")].

Definition default_saver : oop_test.DataSaver :=
  {| oop_test.filename := oop_test.DEFAULT_FILENAME |}.

(** A detail endpoint that knows the weight of every product and the
    brand of none. *)
Definition no_brand_detail : detail_server :=
  fun _ _ =>
    Ok (VDict [(pystr "attributes",
                VList [VDict [(pystr "alias", VStr (pystr "weight"));
                              (pystr "value", VStr (pystr "930"))]])]).

(** The API object of oop_test.py whose listing holds [items] and whose
    detail endpoint is down for product 7; and one whose listing is
    down. *)
Definition api_listing (items : list value) : oop_entry.LentaAPI :=
  {| oop_entry.detail_api := {| oop_test.session := down_for_7 |};
     oop_entry.listing :=
       fun _ _ => Ok (VDict [(pystr "items", VList items)]) |}.

(** A listing whose document holds a number under "items". *)
Definition api_number : oop_entry.LentaAPI :=
  {| oop_entry.detail_api := {| oop_test.session := down_for_7 |};
     oop_entry.listing :=
       fun _ _ => Ok (VDict [(pystr "items", VInt 5)]) |}.

Definition api_down : oop_entry.LentaAPI :=
  {| oop_entry.detail_api := {| oop_test.session := down_for_7 |};
     oop_entry.listing := fun _ _ => Raise ClientError |}.

(** A store as the search endpoint lists it, with a city of its own. *)
Definition lenta_store (store_id : Z) : value :=
  VDict [(pystr "id", VInt store_id);
         (pystr "city", VStr (pystr "Lenta City"));
         (pystr "title", VStr (pystr "Лента"))].

Definition search_answer (stores : list value) : endpoint :=
  fun _ _ => Ok (VDict [(pystr "items", VList stores)]).

(** The stores of the two cities. *)
Definition stores_of_city (city : str) : list value :=
  if str_eqb city (pystr "Москва") then [lenta_store 104; lenta_store 105]
  else [lenta_store 3135].

Definition two_cities (city : str) : endpoint :=
  search_answer (stores_of_city city).

(** Moscow answers, every other city is down. *)
Definition moscow_then_down (city : str) : endpoint :=
  if str_eqb city (pystr "Москва")
  then search_answer [lenta_store 104; lenta_store 105]
  else fun _ _ => Raise ClientError.


(** An item of the listing whose attributes are null, and a detail
    endpoint whose documents have null attributes. *)
Definition members_null_attributes : dict :=
  [(pystr "id", VInt 1);
   (pystr "name", VStr (pystr "PEPSI MAX"));
   (pystr "prices",
    VDict [(pystr "priceRegular", VInt 12999); (pystr "price", VInt 9990)]);
   (pystr "attributes", VNone)].

Definition item_null_attributes : value := VDict members_null_attributes.

Definition null_detail : detail_server :=
  fun _ _ => Ok (VDict [(pystr "id", VInt 2); (pystr "attributes", VNone)]).

(** * Properties *)

Lemma str_eqb_refl (s : str) : str_eqb s s = true.
Proof.
  induction s as [|c s IH]; simpl; [reflexivity|].
  now rewrite N.eqb_refl.
Qed.

Lemma str_eqb_eq (s t : str) : str_eqb s t = true <-> s = t.
Proof.
  split.
  - revert t; induction s as [|c s IH]; intros [|d t]; simpl; try easy.
    intros H; apply andb_true_iff in H as [Hc Hs].
    apply N.eqb_eq in Hc; apply IH in Hs; now subst.
  - intros ->; apply str_eqb_refl.
Qed.

(** ** Brand extraction (main.py and oop_test.py) *)

Section BrandExtraction.
Context {U : UnicodeData}.

Lemma brand_from_attributes_skip (pre rest : list value) :
  forallb other_attribute pre = true ->
  main.brand_from_attributes (pre ++ rest) = main.brand_from_attributes rest.
Proof.
  induction pre as [|a pre IH]; simpl; [reflexivity|].
  intros H; apply andb_true_iff in H as [Ha Hpre].
  destruct a as [| | | | | |d]; simpl in Ha; try discriminate.
  unfold names_brand in Ha; apply negb_true_iff, orb_false_iff in Ha as [H1 H2].
  unfold py_get; simpl.
  destruct (dict_get d (pystr "alias")) as [v|]; simpl.
  - fold config.BRAND_ATTRIBUTE_ALIAS in *. rewrite H1.
    destruct (dict_get d (pystr "name")) as [n|]; simpl.
    + rewrite H2; auto.
    + auto.
  - destruct (dict_get d (pystr "name")) as [n|]; simpl.
    + rewrite H2; auto.
    + auto.
Qed.

Lemma brand_from_attributes_hit (ad : dict) (post : list value) :
  names_brand ad = true ->
  main.brand_from_attributes (VDict ad :: post)
  = Ok (Some (match dict_get ad (pystr "value") with
              | Some v => v
              | None => VStr []
              end)).
Proof.
  unfold names_brand; intros H; simpl; unfold py_get; simpl.
  destruct (dict_get ad (pystr "alias")) as [v|]; simpl in *.
  - destruct (eq_str v config.BRAND_ATTRIBUTE_ALIAS); simpl in *; [reflexivity|].
    destruct (dict_get ad (pystr "name")) as [n|]; simpl in *;
      [now rewrite H | discriminate].
  - destruct (dict_get ad (pystr "name")) as [n|]; simpl in *;
      [now rewrite H | discriminate].
Qed.

Lemma oop_brand_from_attributes_skip (pre rest : list value) :
  forallb other_attribute pre = true ->
  oop_test.brand_from_attributes (pre ++ rest)
  = oop_test.brand_from_attributes rest.
Proof.
  induction pre as [|a pre IH]; simpl; [reflexivity|].
  intros H; apply andb_true_iff in H as [Ha Hpre].
  destruct a as [| | | | | |d]; simpl in Ha; try discriminate.
  unfold names_brand in Ha; apply negb_true_iff, orb_false_iff in Ha as [H1 H2].
  unfold py_get; simpl.
  destruct (dict_get d (pystr "alias")) as [v|]; simpl.
  - change (pystr "brand") with config.BRAND_ATTRIBUTE_ALIAS. rewrite H1.
    destruct (dict_get d (pystr "name")) as [n|]; simpl.
    + change (pystr "Бренд") with config.BRAND_ATTRIBUTE_NAME.
      rewrite H2; auto.
    + auto.
  - destruct (dict_get d (pystr "name")) as [n|]; simpl.
    + change (pystr "Бренд") with config.BRAND_ATTRIBUTE_NAME.
      rewrite H2; auto.
    + auto.
Qed.

Lemma oop_brand_from_attributes_hit (ad : dict) (post : list value) :
  names_brand ad = true ->
  oop_test.brand_from_attributes (VDict ad :: post)
  = Ok (match dict_get ad (pystr "value") with
        | Some v => v
        | None => VNone
        end).
Proof.
  unfold names_brand; intros H; simpl; unfold py_get; simpl.
  change (pystr "brand") with config.BRAND_ATTRIBUTE_ALIAS.
  change (pystr "Бренд") with config.BRAND_ATTRIBUTE_NAME.
  destruct (dict_get ad (pystr "alias")) as [v|]; simpl in *.
  - destruct (eq_str v config.BRAND_ATTRIBUTE_ALIAS); simpl in *; [reflexivity|].
    destruct (dict_get ad (pystr "name")) as [n|]; simpl in *;
      [now rewrite H | discriminate].
  - destruct (dict_get ad (pystr "name")) as [n|]; simpl in *;
      [now rewrite H | discriminate].
Qed.

Lemma brand_while_cons (t : str) (rest acc : list str) :
  main.brand_while (t :: rest) acc
  = if qualifies t then main.brand_while rest (acc ++ [t]) else acc.
Proof. reflexivity. Qed.

Lemma brand_for_cons (t : str) (rest acc : list str) :
  main.brand_for (t :: rest) acc
  = if qualifies t then main.brand_while rest (acc ++ [t])
    else main.brand_for rest acc.
Proof. reflexivity. Qed.

Lemma brand_while_run (run after acc : list str) :
  forallb qualifies run = true -> run_ends after = true ->
  main.brand_while (run ++ after) acc = acc ++ run.
Proof.
  revert acc; induction run as [|r run IH]; intros acc Hrun Hend.
  - rewrite app_nil_r, app_nil_l.
    destruct after as [|t after]; [reflexivity|].
    cbn [run_ends] in Hend; apply negb_true_iff in Hend.
    now rewrite brand_while_cons, Hend.
  - cbn [forallb] in Hrun; apply andb_true_iff in Hrun as [Hr Hrun].
    rewrite <- app_comm_cons, brand_while_cons, Hr.
    rewrite IH by assumption. now rewrite <- app_assoc.
Qed.

Lemma brand_for_run (before run after acc : list str) :
  first_run before run after = true ->
  main.brand_for (before ++ run ++ after) acc = acc ++ run.
Proof.
  unfold first_run; intros H.
  apply andb_true_iff in H as [H Hlast].
  apply andb_true_iff in H as [H Hend].
  apply andb_true_iff in H as [Hbefore Hrun].
  induction before as [|b before IH].
  - rewrite app_nil_l. destruct run as [|r run].
    + destruct after; [cbn; now rewrite app_nil_r | discriminate].
    + cbn [forallb] in Hrun; apply andb_true_iff in Hrun as [Hr Hrun].
      rewrite <- app_comm_cons, brand_for_cons, Hr.
      rewrite brand_while_run by assumption. now rewrite <- app_assoc.
  - cbn [forallb] in Hbefore; apply andb_true_iff in Hbefore as [Hb Hbefore].
    apply negb_true_iff in Hb.
    rewrite <- app_comm_cons, brand_for_cons, Hb.
    now apply IH.
Qed.

(** Every list of tokens has a first run. *)
Lemma first_run_exists (tokens : list str) :
  exists before run after,
    tokens = before ++ run ++ after /\ first_run before run after = true.
Proof.
  induction tokens as [|t tokens IH].
  - now exists [], [], [].
  - destruct IH as (before & run & after & Heq & Hfirst).
    unfold first_run in Hfirst.
    apply andb_true_iff in Hfirst as [H Hlast].
    apply andb_true_iff in H as [H Hend].
    apply andb_true_iff in H as [Hbefore Hrun].
    destruct (qualifies t) eqn:Ht.
    + destruct before as [|b before].
      * exists [], (t :: run), after. split; [now rewrite Heq|].
        unfold first_run; cbn [forallb]. now rewrite Ht, Hrun, Hend.
      * exists [], [t], (b :: before ++ run ++ after).
        split; [now rewrite Heq|].
        cbn [forallb] in Hbefore.
        apply andb_true_iff in Hbefore as [Hb _].
        unfold first_run; cbn [forallb run_ends]. now rewrite Ht, Hb.
    + exists (t :: before), run, after. split; [now rewrite Heq|].
      unfold first_run; cbn [forallb]. now rewrite Ht, Hbefore, Hrun, Hend.
Qed.

(** The scan of the source computes what the specification words. *)
Lemma brand_for_take_skip (tokens : list str) :
  main.brand_for tokens [] = take_run (skip_to_run tokens).
Proof.
  assert (Hwhile : forall rest acc,
             main.brand_while rest acc = acc ++ take_run rest).
  { induction rest as [|t rest IH]; intros acc.
    - cbn. now rewrite app_nil_r.
    - rewrite brand_while_cons; cbn [take_run].
      destruct (qualifies t); [|now rewrite app_nil_r].
      rewrite IH. now rewrite <- app_assoc. }
  induction tokens as [|t tokens IH]; [reflexivity|].
  rewrite brand_for_cons; cbn [skip_to_run].
  destruct (qualifies t) eqn:Ht.
  - cbn [take_run]. rewrite Ht. now rewrite Hwhile.
  - exact IH.
Qed.

Lemma extract_brand_no_attribute (item : value) (attrs : list value) (s : str) :
  py_get item (pystr "attributes") (VList []) = Ok (VList attrs) ->
  forallb other_attribute attrs = true ->
  py_get item (pystr "name") (VStr []) = Ok (VStr s) ->
  main._extract_brand item
  = Ok (VStr (str_join (pystr " ") (main.brand_for (str_split s) []))).
Proof.
  intros Hattrs Hother Hname.
  unfold main._extract_brand. rewrite Hattrs; simpl.
  rewrite <- (app_nil_r attrs), brand_from_attributes_skip by assumption.
  simpl. now rewrite Hname.
Qed.

End BrandExtraction.

(** C3. An item whose attribute list holds an attribute naming the brand
    (by alias or by display name) yields the value of the first such
    attribute, whatever its name is: in the inline pipeline
    ([main._extract_brand]) and in the detail pipeline
    ([oop_test.extract_brand]). *)
Theorem extract_brand_first_attribute `{U : UnicodeData}
  (item : dict) (pre post : list value) (attr : dict) (v : value) :
  dict_get item (pystr "attributes")
    = Some (VList (pre ++ VDict attr :: post)) ->
  forallb other_attribute pre = true ->
  names_brand attr = true ->
  dict_get attr (pystr "value") = Some v ->
  main._extract_brand (VDict item) = Ok v
  /\ oop_test.extract_brand (VDict item) = Ok v.
Proof.
  intros Hattrs Hpre Hattr Hv. split.
  - unfold main._extract_brand, py_get. rewrite Hattrs; simpl.
    rewrite brand_from_attributes_skip, brand_from_attributes_hit
      by assumption.
    simpl. now rewrite Hv.
  - unfold oop_test.extract_brand, py_get.
    destruct item as [|kv item]; [discriminate|]. simpl truthy. simpl negb.
    cbv iota. rewrite Hattrs; simpl.
    rewrite oop_brand_from_attributes_skip, oop_brand_from_attributes_hit
      by assumption.
    now rewrite Hv.
Qed.

Lemma extract_brand_first_attribute_pepsi :
  @main._extract_brand latin_cyrillic (VDict pepsi_max)
    = Ok (VStr (pystr "Pepsi"))
  /\ oop_test.extract_brand (VDict pepsi_max) = Ok (VStr (pystr "Pepsi")).
Proof.
  apply (@extract_brand_first_attribute latin_cyrillic pepsi_max [] []
           [(pystr "alias", VStr (pystr "brand"));
            (pystr "value", VStr (pystr "Pepsi"))]);
    reflexivity.
Defined.

(** C4. For an item without an attribute naming the brand, extraction
    succeeds and returns the first maximal run of qualifying tokens of the
    name (upper-case, longer than the minimum length), joined by single
    spaces; the scan stops at the first token that breaks the run; when no
    token qualifies the result is the empty string. *)
Theorem extract_brand_name_heuristic `{U : UnicodeData}
  (item : value) (attrs : list value) (s : str) :
  py_get item (pystr "attributes") (VList []) = Ok (VList attrs) ->
  forallb other_attribute attrs = true ->
  py_get item (pystr "name") (VStr []) = Ok (VStr s) ->
  (exists before run after,
      str_split s = before ++ run ++ after
      /\ first_run before run after = true
      /\ main._extract_brand item = Ok (VStr (str_join (pystr " ") run)))
  /\ (forall before run after,
        str_split s = before ++ run ++ after ->
        first_run before run after = true ->
        main._extract_brand item = Ok (VStr (str_join (pystr " ") run)))
  /\ (forallb (fun t => negb (qualifies t)) (str_split s) = true ->
      main._extract_brand item = Ok (VStr []))
  /\ main._extract_brand item
     = Ok (VStr (str_join (pystr " ") (take_run (skip_to_run (str_split s))))).
Proof.
  intros Hattrs Hother Hname.
  pose proof (extract_brand_no_attribute _ Hattrs Hother Hname) as Hcode.
  assert (Hall : forall before run after,
             str_split s = before ++ run ++ after ->
             first_run before run after = true ->
             main._extract_brand item = Ok (VStr (str_join (pystr " ") run))).
  { intros before run after Heq Hfirst.
    rewrite Hcode, Heq, brand_for_run by assumption. reflexivity. }
  repeat split.
  - destruct (first_run_exists (str_split s))
      as (before & run & after & Heq & Hfirst).
    exists before, run, after. repeat split; eauto.
  - exact Hall.
  - intros Hnone.
    apply (Hall (str_split s) [] []).
    + now rewrite app_nil_r.
    + unfold first_run. now rewrite Hnone.
  - now rewrite Hcode, brand_for_take_skip.
Qed.

Lemma extract_brand_name_heuristic_coca_cola :
  @main._extract_brand latin_cyrillic coca_cola_light
  = Ok (VStr (pystr "COCA COLA")).
Proof.
  apply (proj1 (proj2 (@extract_brand_name_heuristic latin_cyrillic
                         coca_cola_light [] (pystr "COCA COLA Light")
                         eq_refl eq_refl eq_refl))
           [] [pystr "COCA"; pystr "COLA"] [pystr "Light"]);
    reflexivity.
Defined.

(** C10. In the inline pipeline, when the first attribute naming the brand
    carries no value, extraction returns the empty string at once: the
    name is not consulted, whatever it holds. *)
Theorem extract_brand_attribute_without_value `{U : UnicodeData}
  (item : dict) (pre post : list value) (attr : dict) :
  dict_get item (pystr "attributes")
    = Some (VList (pre ++ VDict attr :: post)) ->
  forallb other_attribute pre = true ->
  names_brand attr = true ->
  dict_get attr (pystr "value") = None ->
  main._extract_brand (VDict item) = Ok (VStr []).
Proof.
  intros Hattrs Hpre Hattr Hv.
  unfold main._extract_brand, py_get. rewrite Hattrs; simpl.
  rewrite brand_from_attributes_skip, brand_from_attributes_hit
    by assumption.
  simpl. now rewrite Hv.
Qed.

(** An upper-case name, and even a name that is no string, changes
    nothing. *)
Lemma extract_brand_attribute_without_value_example :
  @main._extract_brand latin_cyrillic
     (VDict [(pystr "name", VStr (pystr "PEPSI MAX"));
             (pystr "attributes",
              VList [VDict [(pystr "name", VStr (pystr "Бренд"))]])])
  = Ok (VStr [])
  /\ @main._extract_brand latin_cyrillic
       (VDict [(pystr "name", VNone);
               (pystr "attributes",
                VList [VDict [(pystr "alias", VStr (pystr "brand"))]])])
     = Ok (VStr []).
Proof.
  split.
  - apply (@extract_brand_attribute_without_value latin_cyrillic
             _ [] [] [(pystr "name", VStr (pystr "Бренд"))]);
      reflexivity.
  - apply (@extract_brand_attribute_without_value latin_cyrillic
             _ [] [] [(pystr "alias", VStr (pystr "brand"))]);
      reflexivity.
Defined.

(** ** Running effectful code in proofs *)

Unset Implicit Arguments.

(** Case analysis on the innermost scrutinee of the first [match] in [H],
    so that one step of a computation is decided at a time. *)
Ltac innermost_scrutinee x :=
  lazymatch x with
  | context [match ?y with _ => _ end] => innermost_scrutinee y
  | _ => destruct x eqn:?
  end.

Ltac step_in H :=
  match type of H with
  | context [match ?x with _ => _ end] => innermost_scrutinee x
  end.

Ltac step_goal :=
  match goal with
  | |- context [match ?x with _ => _ end] => innermost_scrutinee x
  end.

Ltac unfold_M_in H :=
  unfold bind, session_get, lift, logger, session_post, ret, raise,
    out_of_fuel, try_except, file_create, file_append in H.

Ltac unfold_M :=
  unfold bind, session_get, lift, logger, session_post, ret, raise,
    out_of_fuel, try_except, file_create, file_append.

Ltac run_in H := unfold_M_in H; cbn in H;
  repeat (step_in H; cbn in H; try discriminate).

Ltac pair_inv H := injection H as H; subst.

Ltac simpl_world :=
  unfold set_log, set_requests, set_detail_requests, set_files;
  cbn [log requests detail_requests files].

Ltac simpl_world_in H :=
  unfold set_log, set_requests, set_detail_requests, set_files in H;
  cbn [log requests detail_requests files] in H.


Lemma negb_eqb_200 (status : Z) :
  negb (status =? 200) = false -> status = 200.
Proof. intros H; apply negb_false_iff in H. now apply Z.eqb_eq. Qed.

Lemma negb_eqb_not_200 (status : Z) :
  negb (status =? 200) = true -> status <> 200.
Proof. intros H; apply negb_true_iff in H. now apply Z.eqb_neq. Qed.

(** ** Slices *)

Lemma slice_to_length {A} (xs : list A) (n : Z) :
  0 <= n -> len (slice_to xs n) <= n.
Proof.
  intros Hn; unfold slice_to, len.
  destruct (0 <=? n) eqn:H; [|apply Z.leb_gt in H; lia].
  rewrite length_firstn. lia.
Qed.

Lemma slice_to_all {A} (xs : list A) (n : Z) :
  len xs <= n -> slice_to xs n = xs.
Proof.
  unfold slice_to, len; intros H.
  destruct (0 <=? n) eqn:Hn; [|apply Z.leb_gt in Hn; lia].
  apply firstn_all2. lia.
Qed.

Lemma slice_to_short {A} (xs : list A) (n : Z) :
  0 < n -> len (slice_to xs n) < n -> slice_to xs n = xs.
Proof.
  unfold slice_to, len; intros Hn H.
  destruct (0 <=? n) eqn:Hn'; [|apply Z.leb_gt in Hn'; lia].
  rewrite length_firstn in H. apply firstn_all2. lia.
Qed.

Lemma slice_to_nonempty {A} (xs : list A) (n : Z) :
  0 < n -> xs <> [] -> 0 < len (slice_to xs n).
Proof.
  unfold slice_to, len; intros Hn Hxs.
  destruct (0 <=? n) eqn:Hn'; [|apply Z.leb_gt in Hn'; lia].
  rewrite length_firstn. destruct xs; [congruence|]. simpl length. lia.
Qed.

Lemma len_app {A} (xs ys : list A) : len (xs ++ ys) = len xs + len ys.
Proof. unfold len. rewrite length_app. lia. Qed.

Lemma len_nonneg {A} (xs : list A) : 0 <= len xs.
Proof. unfold len. lia. Qed.

Lemma slice_to_exact {A} (xs : list A) (n : Z) :
  0 <= n -> n <= len xs -> len (slice_to xs n) = n.
Proof.
  unfold slice_to, len; intros Hn H.
  destruct (0 <=? n) eqn:Hn'; [|apply Z.leb_gt in Hn'; lia].
  rewrite length_firstn. lia.
Qed.

Lemma slice_to_app {A} (xs ys : list A) (n : Z) :
  len xs <= n -> slice_to (xs ++ ys) n = xs ++ slice_to ys (n - len xs).
Proof.
  unfold slice_to, len; intros H.
  destruct (0 <=? n) eqn:Hn; [|apply Z.leb_gt in Hn; lia].
  replace (0 <=? n - Z.of_nat (List.length xs)) with true
    by (symmetry; apply Z.leb_le; lia).
  rewrite firstn_app, firstn_all2 by lia. do 2 f_equal. lia.
Qed.

Lemma slice_to_prefix {A} (xs ys : list A) (n : Z) :
  0 <= n -> n <= len xs -> slice_to (xs ++ ys) n = slice_to xs n.
Proof.
  unfold slice_to, len; intros Hn H.
  destruct (0 <=? n) eqn:Hn'; [|apply Z.leb_gt in Hn'; lia].
  rewrite firstn_app.
  replace (Z.to_nat n - List.length xs)%nat with 0%nat by lia.
  cbn. apply app_nil_r.
Qed.

(** ** The pagination loop (main.py) *)

Section Pagination.
Context {U : UnicodeData}.
Variables (self : main.LentaAPI) (store : value) (category_id : Z).
Variable total_needed : Z.

#[local] Abbreviation loop_body :=
  (main.loop_body self store category_id total_needed).
#[local] Abbreviation while_loop fuel :=
  (main.while_loop fuel self store category_id total_needed).

(** What the body did when it ran to its bottom: one request with the
    computed limit at the current offset, a 200 answer with a page, and
    the page appended. *)
Lemma loop_body_next st w st' w' :
  loop_body st w = (Returns (main.Next st'), w') ->
  exists p data items count added,
    requests w' = requests w ++ [p]
    /\ limit p = Z.min config.PRODUCTS_PER_STORE
                   (total_needed - len (main.collected st))
    /\ offset p = main.cursor st
    /\ main.session self (List.length (requests w)) p = Http 200 (Ok data)
    /\ py_get data (pystr "items") (VList []) = Ok items
    /\ truthy items = true
    /\ main.py_len items = Ok count
    /\ main.py_slice_to items (total_needed - len (main.collected st))
       = Ok added
    /\ main.collected st' = main.collected st ++ added
    /\ main.cursor st' = main.cursor st + count
    /\ len (main.collected st') < total_needed
    /\ files w' = files w.
Proof.
  intros H. unfold main.loop_body in H. run_in H. pair_inv H.
  apply negb_eqb_200 in Heqb; subst status.
  apply negb_false_iff in Heqb0. apply Z.leb_gt in Heqb1.
  do 5 eexists. repeat split; try eassumption; try reflexivity.
Qed.

Lemma loop_body_break st w st' w' :
  loop_body st w = (Returns (main.Break st'), w') ->
  exists p data items,
    requests w' = requests w ++ [p]
    /\ limit p = Z.min config.PRODUCTS_PER_STORE
                   (total_needed - len (main.collected st))
    /\ offset p = main.cursor st
    /\ main.session self (List.length (requests w)) p = Http 200 (Ok data)
    /\ py_get data (pystr "items") (VList []) = Ok items
    /\ main.cursor st' = main.cursor st
    /\ files w' = files w
    /\ ((truthy items = false /\ st' = st)
        \/ (exists count added,
               truthy items = true
               /\ main.py_len items = Ok count
               /\ main.py_slice_to items
                    (total_needed - len (main.collected st)) = Ok added
               /\ main.collected st' = main.collected st ++ added
               /\ total_needed <= len (main.collected st'))).
Proof.
  intros H. unfold main.loop_body in H. run_in H; pair_inv H.
  - apply negb_eqb_200 in Heqb; subst status.
    apply negb_true_iff in Heqb0.
    do 3 eexists. repeat split; try eassumption; try reflexivity.
    left; split; [assumption | reflexivity].
  - apply negb_eqb_200 in Heqb; subst status.
    apply negb_false_iff in Heqb0. apply Z.leb_le in Heqb1.
    do 3 eexists. repeat split; try eassumption; try reflexivity.
    right. do 2 eexists. repeat split; try eassumption; reflexivity.
Qed.

Lemma loop_body_return st w v w' :
  loop_body st w = (Returns (main.Return v), w') ->
  exists p status json store_id,
    v = []
    /\ requests w' = requests w ++ [p]
    /\ limit p = Z.min config.PRODUCTS_PER_STORE
                   (total_needed - len (main.collected st))
    /\ offset p = main.cursor st
    /\ main.session self (List.length (requests w)) p = Http status json
    /\ status <> 200
    /\ log w' = log w
                ++ [(INFO, Requesting (limit p) (len (main.collected st)));
                    (ERROR, StatusError status store_id)]
    /\ files w' = files w.
Proof.
  intros H. unfold main.loop_body in H. run_in H; pair_inv H.
  apply negb_eqb_not_200 in Heqb.
  do 4 eexists. repeat split; try eassumption; try reflexivity.
  cbn. now rewrite <- app_assoc.
Qed.

Lemma loop_body_raises st w e w' :
  loop_body st w = (Raises e, w') ->
  files w' = files w
  /\ (requests w' = requests w
      \/ exists p,
           requests w' = requests w ++ [p]
           /\ limit p = Z.min config.PRODUCTS_PER_STORE
                          (total_needed - len (main.collected st))
           /\ offset p = main.cursor st
           /\ (main.session self (List.length (requests w)) p = PostRaises e
               \/ exists json,
                    main.session self (List.length (requests w)) p
                    = Http 200 json)).
Proof.
  intros H. unfold main.loop_body in H. run_in H; pair_inv H;
    (split; [reflexivity|]); try (left; reflexivity);
    right; eexists; (repeat split; try reflexivity);
    try (left; eassumption);
    apply negb_eqb_200 in Heqb; subst status; right; eexists; eassumption.
Qed.

Lemma loop_body_fuel st w w' : loop_body st w <> (OutOfFuel, w').
Proof.
  intros H. unfold main.loop_body in H. run_in H.
Qed.

Lemma while_loop_eq (fuel : nat) st w :
  while_loop fuel st w
  = if len (main.collected st) <? total_needed then
      match fuel with
      | O => (OutOfFuel, w)
      | S fuel' =>
          match loop_body st w with
          | (Returns (main.Next st'), w') => while_loop fuel' st' w'
          | (Returns (main.Break st'), w') => (Returns (main.Finished st'), w')
          | (Returns (main.Return v), w') => (Returns (main.Returned v), w')
          | (Raises e, w') => (Raises e, w')
          | (OutOfFuel, w') => (OutOfFuel, w')
          end
      end
    else (Returns (main.Finished st), w).
Proof.
  destruct fuel; cbn [main.while_loop];
    destruct (len (main.collected st) <? total_needed); try reflexivity.
  unfold bind. destruct (loop_body st w) as [[[]| |] ?]; reflexivity.
Qed.

(** A page that is not empty gives at least one item to append. *)
Lemma py_slice_to_nonempty items n added :
  truthy items = true -> main.py_slice_to items n = Ok added ->
  0 < n -> 0 < len added.
Proof.
  intros Ht Hs Hn. destruct items; try discriminate; cbn in Hs, Ht;
    injection Hs as <-.
  - unfold len. rewrite length_map. apply slice_to_nonempty; [assumption|].
    destruct s; [discriminate | congruence].
  - apply slice_to_nonempty; [assumption|].
    destruct l; [discriminate | congruence].
Qed.

(** A page appended short of what was asked for was appended whole. *)
Lemma py_slice_to_whole items n count added :
  main.py_len items = Ok count -> main.py_slice_to items n = Ok added ->
  0 < n -> len added < n -> len added = count.
Proof.
  intros Hl Hs Hn Hshort. destruct items; try discriminate; cbn in Hs, Hl;
    injection Hs as <-; injection Hl as <-.
  - unfold len in *. rewrite length_map in *.
    now rewrite slice_to_short.
  - now rewrite slice_to_short.
Qed.

Lemma loop_body_next_decreases st w st' w' :
  len (main.collected st) < total_needed ->
  loop_body st w = (Returns (main.Next st'), w') ->
  (iterations_left total_needed st' < iterations_left total_needed st)%nat.
Proof.
  intros Hguard H.
  destruct (loop_body_next _ _ _ _ H)
    as (p & data & items & count & added & _ & _ & _ & _ & _ & Ht & _
        & Hs & Hc & _).
  pose proof (py_slice_to_nonempty _ _ _ Ht Hs ltac:(lia)) as Hadded.
  unfold iterations_left. rewrite Hc, len_app. lia.
Qed.

(** The loop of [get_products] ends within [total_needed] iterations. *)
Lemma while_loop_total fuel st w w' :
  (iterations_left total_needed st <= fuel)%nat ->
  while_loop fuel st w <> (OutOfFuel, w').
Proof.
  revert st w; induction fuel as [|fuel IH]; intros st w Hfuel;
    rewrite while_loop_eq;
    destruct (len (main.collected st) <? total_needed) eqn:Hguard;
    try discriminate.
  - apply Z.ltb_lt in Hguard. unfold iterations_left in Hfuel. lia.
  - apply Z.ltb_lt in Hguard.
    destruct (loop_body st w) as [[[st'|st'|v]|e|] w1] eqn:Hbody;
      try discriminate.
    + apply IH.
      pose proof (loop_body_next_decreases _ _ _ _ Hguard Hbody). lia.
    + now apply loop_body_fuel in Hbody.
Qed.

(** Fuel beyond the iterations left changes nothing. *)
Lemma while_loop_fuel fuel fuel' st w :
  (iterations_left total_needed st <= fuel)%nat ->
  (iterations_left total_needed st <= fuel')%nat ->
  while_loop fuel st w = while_loop fuel' st w.
Proof.
  revert fuel' st w; induction fuel as [|fuel IH]; intros fuel' st w H H';
    rewrite (while_loop_eq fuel'), while_loop_eq;
    destruct (len (main.collected st) <? total_needed) eqn:Hguard;
    try reflexivity; apply Z.ltb_lt in Hguard.
  - unfold iterations_left in H. lia.
  - destruct fuel' as [|fuel']; [unfold iterations_left in H'; lia|].
    destruct (loop_body st w) as [[[st'|st'|v]|e|] w1] eqn:Hbody;
      try reflexivity.
    pose proof (loop_body_next_decreases _ _ _ _ Hguard Hbody).
    apply IH; lia.
Qed.

Lemma while_loop_frame fuel st w r w' :
  while_loop fuel st w = (r, w') ->
  files w' = files w /\ exists ps, requests w' = requests w ++ ps.
Proof.
  revert st w; induction fuel as [|fuel IH]; intros st w;
    rewrite while_loop_eq;
    destruct (len (main.collected st) <? total_needed) eqn:Hguard;
    intros H;
    try (pair_inv H; split;
         [reflexivity | now exists []; rewrite app_nil_r]).
  destruct (loop_body st w) as [[[st'|st'|v]|e|] w1] eqn:Hbody.
  - destruct (loop_body_next _ _ _ _ Hbody)
      as (p & data & items & count & added & Hp & _ & _ & _ & _ & _ & _
          & _ & _ & _ & _ & Hf).
    destruct (IH _ _ H) as (Hf' & ps & Hps).
    split; [congruence|]. exists (p :: ps).
    rewrite Hps, Hp, <- app_assoc. reflexivity.
  - pair_inv H.
    destruct (loop_body_break _ _ _ _ Hbody)
      as (p & data & items & Hp & _ & _ & _ & _ & _ & Hf & _).
    split; [assumption | now exists [p]].
  - pair_inv H.
    destruct (loop_body_return _ _ _ _ Hbody)
      as (p & status & json & sid & _ & Hp & _ & _ & _ & _ & _ & Hf).
    split; [assumption | now exists [p]].
  - pair_inv H.
    destruct (loop_body_raises _ _ _ _ Hbody) as (Hf & [Hp | (p & Hp & _)]).
    + split; [assumption | exists []; now rewrite app_nil_r].
    + split; [assumption | now exists [p]].
  - now apply loop_body_fuel in Hbody.
Qed.

Lemma while_loop_returned fuel st w v w' :
  while_loop fuel st w = (Returns (main.Returned v), w') -> v = [].
Proof.
  revert st w; induction fuel as [|fuel IH]; intros st w;
    rewrite while_loop_eq;
    destruct (len (main.collected st) <? total_needed) eqn:Hguard;
    intros H; try discriminate.
  destruct (loop_body st w) as [[[st'|st'|v0]|e|] w1] eqn:Hbody;
    try discriminate.
  - eapply IH; eassumption.
  - pair_inv H.
    now destruct (loop_body_return _ _ _ _ Hbody)
      as (p & status & json & sid & -> & _).
Qed.

Lemma nth_error_snoc_inv {A} (l : list A) (x y : A) (n : nat) :
  nth_error (l ++ [x]) n = Some y -> (List.length l <= n)%nat ->
  n = List.length l /\ y = x.
Proof.
  intros H Hn.
  assert (n < List.length (l ++ [x]))%nat as Hlt
    by (apply nth_error_Some; congruence).
  rewrite length_app in Hlt; cbn in Hlt.
  assert (n = List.length l) as -> by lia. split; [reflexivity|].
  rewrite nth_error_app2, Nat.sub_diag in H by lia. cbn in H. congruence.
Qed.

Lemma nth_error_beyond {A} (l : list A) (y : A) (n : nat) :
  nth_error l n = Some y -> (List.length l <= n)%nat -> False.
Proof.
  intros H Hn. apply nth_error_None in Hn. congruence.
Qed.

(** How the loop ends is decided by the answers to its requests: a
    request that fails in transport raises out of the loop, and an answer
    other than 200 makes it return the empty list after an ERROR line. *)
Lemma while_loop_trace fuel st w r w' :
  while_loop fuel st w = (r, w') ->
  forall n p,
    (List.length (requests w) <= n)%nat ->
    nth_error (requests w') n = Some p ->
    match main.session self n p with
    | PostRaises e => r = Raises e
    | Http status _ =>
        status <> 200 ->
        r = Returns (main.Returned [])
        /\ exists l store_id,
             log w' = l ++ [(ERROR, StatusError status store_id)]
    end.
Proof.
  revert st w; induction fuel as [|fuel IH]; intros st w;
    rewrite while_loop_eq;
    destruct (len (main.collected st) <? total_needed) eqn:Hguard;
    intros H n p Hn Hp;
    try (pair_inv H; now destruct (nth_error_beyond _ _ _ Hp Hn)).
  destruct (loop_body st w) as [[[st'|st'|v]|e|] w1] eqn:Hbody.
  - destruct (loop_body_next _ _ _ _ Hbody)
      as (p0 & data & items & count & added & Hp0 & _ & _ & Hans & _).
    destruct (while_loop_frame _ _ _ _ _ H) as (_ & ps & Hps).
    destruct (Nat.eq_dec n (List.length (requests w))) as [->|Hne].
    + rewrite Hps, Hp0, <- app_assoc in Hp.
      rewrite nth_error_app2, Nat.sub_diag in Hp by lia.
      cbn in Hp. injection Hp as <-. rewrite Hans. congruence.
    + apply (IH _ _ H); [|assumption].
      rewrite Hp0, length_app; cbn. lia.
  - pair_inv H.
    destruct (loop_body_break _ _ _ _ Hbody)
      as (p0 & data & items & Hp0 & _ & _ & Hans & _).
    rewrite Hp0 in Hp. apply nth_error_snoc_inv in Hp as [-> ->]; [|lia].
    rewrite Hans. congruence.
  - pair_inv H.
    destruct (loop_body_return _ _ _ _ Hbody)
      as (p0 & status & json & sid & -> & Hp0 & _ & _ & Hans & Hstatus
          & Hlog & _).
    rewrite Hp0 in Hp. apply nth_error_snoc_inv in Hp as [-> ->]; [|lia].
    rewrite Hans. intros _. split; [reflexivity|].
    eexists _, sid. rewrite Hlog.
    change [?a; ?b] with ([a] ++ [b]). now rewrite app_assoc.
  - pair_inv H.
    destruct (loop_body_raises _ _ _ _ Hbody)
      as (_ & [Hsame | (p0 & Hp0 & _ & _ & [Hans | (json & Hans)])]).
    + rewrite Hsame in Hp. now destruct (nth_error_beyond _ _ _ Hp Hn).
    + rewrite Hp0 in Hp. apply nth_error_snoc_inv in Hp as [-> ->]; [|lia].
      now rewrite Hans.
    + rewrite Hp0 in Hp. apply nth_error_snoc_inv in Hp as [-> ->]; [|lia].
      rewrite Hans. congruence.
  - now apply loop_body_fuel in Hbody.
Qed.

#[local] Abbreviation get_products :=
  (main.get_products self store category_id total_needed).

Lemma iterations_left_initial :
  iterations_left total_needed {| main.collected := []; main.cursor := 0 |}
  = Z.to_nat total_needed.
Proof. unfold iterations_left; cbn. f_equal. unfold len; cbn. lia. Qed.

(** [get_products] is total: the fuel it runs on is never used up. *)
Lemma get_products_total w w' : get_products w <> (OutOfFuel, w').
Proof.
  intros H. unfold main.get_products, main.get_products_fuel in H.
  run_in H.
  match goal with
  | H : main.while_loop _ _ _ _ _ _ _ = (OutOfFuel, _) |- _ =>
      apply while_loop_total in H; [assumption|]
  end.
  now rewrite iterations_left_initial.
Qed.

(** More fuel gives the same run. *)
Lemma get_products_fuel_enough fuel w :
  (Z.to_nat total_needed <= fuel)%nat ->
  main.get_products_fuel fuel self store category_id total_needed w
  = get_products w.
Proof.
  intros Hfuel. unfold main.get_products, main.get_products_fuel.
  destruct (negb (truthy store)); [reflexivity|].
  unfold bind.
  destruct (lift (py_getitem store (pystr "id")) w) as [[sid| |] w1];
    try reflexivity.
  destruct (lift (py_getitem store (pystr "title")) w1) as [[title| |] w2];
    try reflexivity.
  destruct (logger INFO (FetchingProducts sid title (main.city self)) w2)
    as [[[]| |] w3]; try reflexivity.
  rewrite (while_loop_fuel fuel (Z.to_nat total_needed));
    rewrite ?iterations_left_initial; auto.
Qed.

Lemma format_products_length items recs :
  main.format_products items = Ok recs -> len recs = len items.
Proof.
  revert recs; induction items as [|item items IH]; intros recs H;
    cbn in H.
  - now injection H as <-.
  - destruct (main.format_product item); [|discriminate]. cbn in H.
    destruct (main.format_products items); [|discriminate]. cbn in H.
    injection H as <-. unfold len in *; cbn.
    specialize (IH _ eq_refl). lia.
Qed.

Lemma get_products_at_most recs w w' :
  0 <= total_needed ->
  get_products w = (Returns recs, w') -> len recs <= total_needed.
Proof.
  intros HN H. unfold main.get_products, main.get_products_fuel in H.
  run_in H; pair_inv H;
    repeat match goal with
      | H : main.format_products _ = Ok _ |- _ =>
          apply format_products_length in H; rewrite H;
          now apply slice_to_length
      | H : main.while_loop _ _ _ _ _ _ _ = (Returns (main.Returned _), _)
        |- _ => apply while_loop_returned in H; subst
      end;
    unfold len; cbn; lia.
Qed.

(** The answers to the requests of a run decide how [get_products] ends. *)
Lemma get_products_trace w r w' :
  get_products w = (r, w') ->
  files w' = files w
  /\ forall n p,
      (List.length (requests w) <= n)%nat ->
      nth_error (requests w') n = Some p ->
      match main.session self n p with
      | PostRaises e => r = Raises e
      | Http status _ =>
          status <> 200 ->
          r = Returns []
          /\ exists l store_id,
               log w' = l ++ [(ERROR, StatusError status store_id)]
      end.
Proof.
  intros H. unfold main.get_products, main.get_products_fuel in H.
  unfold_M_in H; cbn in H.
  destruct (negb (truthy store)).
  { pair_inv H. split; [reflexivity|]. intros n p Hn Hp; cbn in Hp.
    now destruct (nth_error_beyond _ _ _ Hp Hn). }
  destruct (py_getitem store (pystr "id")) as [sid|e].
  2:{ pair_inv H. split; [reflexivity|]. intros n p Hn Hp.
      now destruct (nth_error_beyond _ _ _ Hp Hn). }
  destruct (py_getitem store (pystr "title")) as [title|e].
  2:{ pair_inv H. split; [reflexivity|]. intros n p Hn Hp.
      now destruct (nth_error_beyond _ _ _ Hp Hn). }
  match type of H with
  | context [main.while_loop ?f _ _ _ _ ?st ?w0] =>
      destruct (main.while_loop f self store category_id total_needed st w0)
        as [rl wl] eqn:Hloop
  end.
  pose proof (while_loop_frame _ _ _ _ _ Hloop) as (Hfiles & ps & Hps).
  pose proof (while_loop_trace _ _ _ _ _ Hloop) as Htrace.
  cbn in Hfiles, Hps, Htrace.
  destruct rl as [[st|v]|e|].
  - assert (Hw : requests w' = requests wl /\ files w' = files wl).
    { destruct (main.format_products _); pair_inv H; now cbn. }
    destruct Hw as [Hreq Hf]. split; [congruence|].
    intros n p Hn Hp. rewrite Hreq in Hp.
    specialize (Htrace n p Hn Hp).
    destruct (main.session self n p) as [e|status json];
      [discriminate|].
    intros Hstatus. now destruct (Htrace Hstatus) as [? _].
  - pair_inv H. split; [assumption|].
    intros n p Hn Hp. specialize (Htrace n p Hn Hp).
    destruct (main.session self n p) as [e|status json];
      [discriminate|].
    intros Hstatus. destruct (Htrace Hstatus) as [Hr Hlog].
    injection Hr as ->. now split.
  - pair_inv H. split; [assumption|].
    intros n p Hn Hp. specialize (Htrace n p Hn Hp).
    destruct (main.session self n p) as [e'|status json].
    + congruence.
    + intros Hstatus. now destruct (Htrace Hstatus) as [? _].
  - pair_inv H. now apply while_loop_total in Hloop;
      [|rewrite iterations_left_initial].
Qed.

Lemma store_ok_members :
  store_ok store = true ->
  exists store_id title region,
    py_getitem store (pystr "id") = Ok store_id
    /\ py_getitem store (pystr "title") = Ok title
    /\ py_getitem store (pystr "regionId") = Ok region
    /\ truthy store = true.
Proof.
  unfold store_ok. intros H.
  destruct (py_getitem store (pystr "id")) as [sid|] eqn:Hid;
    [|discriminate].
  destruct (py_getitem store (pystr "title")) as [title|]; [|discriminate].
  destruct (py_getitem store (pystr "regionId")) as [region|];
    [|discriminate].
  exists sid, title, region. repeat split.
  destruct store as [| | | | | |[|kv d]]; try discriminate. reflexivity.
Qed.

Lemma page_of_inv answer page :
  page_of answer = Some page ->
  exists data,
    answer = Http 200 (Ok data)
    /\ py_get data (pystr "items") (VList []) = Ok (VList page).
Proof.
  unfold page_of. intros H.
  destruct answer as [e|status [data|e]]; try discriminate.
  destruct (status =? 200) eqn:Hs; [|discriminate].
  apply Z.eqb_eq in Hs; subst.
  destruct (py_get data (pystr "items") (VList [])) as [[]|] eqn:Hitems;
    try discriminate.
  injection H as ->. now exists data.
Qed.

(** An iteration that receives a page short of what is still needed. *)
Lemma loop_body_page st w page :
  store_ok store = true ->
  (forall p,
      page_of (main.session self (List.length (requests w)) p) = Some page) ->
  nonempty page = true ->
  len (main.collected st) + len page < total_needed ->
  exists w',
    loop_body st w
    = (Returns (main.Next {| main.collected := main.collected st ++ page;
                             main.cursor := main.cursor st + len page |}),
       w')
    /\ List.length (requests w') = S (List.length (requests w)).
Proof.
  intros Hstore Hpage Hne Hlen.
  destruct (store_ok_members Hstore)
    as (sid & title & region & Hid & _ & Hregion & _).
  unfold main.loop_body. unfold_M; cbn. rewrite Hregion, Hid.
  simpl_world.
  match goal with
  | |- context [main.session self ?n ?p] =>
      destruct (page_of_inv _ _ (Hpage p)) as (data & -> & Hitems)
  end.
  cbn. rewrite Hitems.
  destruct page as [|item page]; [discriminate|].
  cbn -[slice_to len]. rewrite slice_to_all by lia.
  replace (total_needed <=? len (main.collected st ++ item :: page))
    with false by (symmetry; apply Z.leb_gt; rewrite len_app; lia).
  eexists; split; [reflexivity|]. cbn. rewrite length_app; cbn. lia.
Qed.

(** An iteration that receives the empty page. *)
Lemma loop_body_empty_page st w :
  store_ok store = true ->
  (forall p,
      page_of (main.session self (List.length (requests w)) p) = Some []) ->
  exists w',
    loop_body st w = (Returns (main.Break st), w')
    /\ List.length (requests w') = S (List.length (requests w)).
Proof.
  intros Hstore Hpage.
  destruct (store_ok_members Hstore)
    as (sid & title & region & Hid & _ & Hregion & _).
  unfold main.loop_body. unfold_M; cbn. rewrite Hregion, Hid.
  simpl_world.
  match goal with
  | |- context [main.session self ?n ?p] =>
      destruct (page_of_inv _ _ (Hpage p)) as (data & -> & Hitems)
  end.
  cbn. rewrite Hitems. cbn.
  eexists; split; [reflexivity|]. cbn. rewrite length_app; cbn. lia.
Qed.

Lemma pages_length (pages : list (list value)) :
  forallb nonempty pages = true ->
  Z.of_nat (List.length pages) <= len (concat pages).
Proof.
  induction pages as [|page pages IH]; intros H; cbn in *.
  - unfold len; cbn; lia.
  - apply andb_true_iff in H as [Hp H]. rewrite len_app.
    specialize (IH H). destruct page; [discriminate|].
    unfold len in *; cbn [List.length]. lia.
Qed.

(** The loop over a source that serves [pages] and then nothing. *)
Lemma while_loop_pages pages : forall fuel st w,
  store_ok store = true ->
  serves (main.session self) (List.length (requests w)) pages ->
  forallb nonempty pages = true ->
  len (main.collected st) + len (concat pages) < total_needed ->
  (List.length pages < fuel)%nat ->
  exists w',
    while_loop fuel st w
    = (Returns (main.Finished
                  {| main.collected := main.collected st ++ concat pages;
                     main.cursor := main.cursor st + len (concat pages) |}),
       w').
Proof.
  induction pages as [|page pages IH]; intros fuel st w Hstore Hsrv Hne Hlen
    Hfuel; rewrite while_loop_eq;
    (destruct fuel as [|fuel]; [cbn in Hfuel; lia|]);
    cbn [concat] in *.
  - replace (len (main.collected st) <? total_needed) with true
      by (symmetry; apply Z.ltb_lt; unfold len in *; cbn in *; lia).
    destruct (loop_body_empty_page st w Hstore) as (w' & -> & _).
    { intros p. specialize (Hsrv 0%nat p (Nat.le_refl _)).
      now rewrite Nat.add_0_r in Hsrv. }
    exists w'. destruct st; cbn.
    rewrite app_nil_r. unfold len; cbn. now rewrite Z.add_0_r.
  - cbn [forallb] in Hne. apply andb_true_iff in Hne as [Hpage Hne].
    rewrite len_app in Hlen.
    pose proof (len_nonneg (concat pages)). pose proof (len_nonneg page).
    replace (len (main.collected st) <? total_needed) with true
      by (symmetry; apply Z.ltb_lt; lia).
    destruct (loop_body_page st w page Hstore) as (w1 & -> & Hreq);
      [|assumption|lia|].
    { intros p. specialize (Hsrv 0%nat p ltac:(cbn; lia)).
      now rewrite Nat.add_0_r in Hsrv. }
    destruct (IH fuel {| main.collected := main.collected st ++ page;
                         main.cursor := main.cursor st + len page |} w1)
      as (w' & ->); try assumption.
    + intros i p Hi. rewrite Hreq.
      specialize (Hsrv (S i) p ltac:(cbn; lia)).
      now rewrite Nat.add_succ_r in Hsrv.
    + cbn. rewrite len_app. lia.
    + cbn in Hfuel. lia.
    + exists w'. cbn. now rewrite <- app_assoc, len_app, Z.add_assoc.
Qed.

(** A source that runs dry before the count is reached: every item it
    served is formatted and returned. *)
Lemma get_products_exhausted pages recs w :
  store_ok store = true ->
  serves (main.session self) (List.length (requests w)) pages ->
  forallb nonempty pages = true ->
  len (concat pages) < total_needed ->
  main.format_products (concat pages) = Ok recs ->
  exists w', get_products w = (Returns recs, w').
Proof.
  intros Hstore Hsrv Hne Hlen Hfmt.
  destruct (store_ok_members Hstore)
    as (sid & title & region & Hid & Htitle & _ & Htruthy).
  unfold main.get_products, main.get_products_fuel.
  rewrite Htruthy. unfold_M; cbn. rewrite Hid, Htitle.
  pose proof (pages_length pages Hne) as Hpages.
  match goal with
  | |- context [main.while_loop ?f _ _ _ _ ?st ?w0] =>
      destruct (while_loop_pages pages f st w0) as (w1 & ->);
        try assumption; [lia|]
  end.
  cbn [main.collected app]. rewrite slice_to_all by lia. rewrite Hfmt.
  eexists; reflexivity.
Qed.

End Pagination.

(** ** A source that answers by offset *)

Section Catalogue.
Context {U : UnicodeData}.
Variables (self : main.LentaAPI) (store : value) (category_id : Z).
Variable total_needed : Z.
Variable catalogue : list value.

#[local] Abbreviation loop_body :=
  (main.loop_body self store category_id total_needed).
#[local] Abbreviation while_loop fuel :=
  (main.while_loop fuel self store category_id total_needed).
#[local] Abbreviation get_products :=
  (main.get_products self store category_id total_needed).

(** With a store that has its members, an iteration raises only after
    its request, on an answer that carries no page. *)
Lemma loop_body_raises_answer st w e w' :
  store_ok store = true ->
  loop_body st w = (Raises e, w') ->
  exists p,
    requests w' = requests w ++ [p]
    /\ page_of (main.session self (List.length (requests w)) p) = None.
Proof.
  intros Hstore H.
  destruct (store_ok_members _ Hstore)
    as (sid & title & region & Hid & _ & Hregion & _).
  unfold main.loop_body in H. run_in H; pair_inv H; try congruence;
    eexists; (split; [reflexivity|]);
    match goal with
    | H : main.session _ _ _ = _ |- _ => rewrite H
    end; try reflexivity;
    apply negb_eqb_200 in Heqb; subst; cbn;
    try reflexivity.
  all: match goal with
       | H : py_get _ _ _ = _ |- _ => rewrite H
       end; try reflexivity.
  all: match goal with
       | |- match ?items with VList _ => _ | _ => _ end = None =>
           destruct items; try reflexivity; discriminate
       end.
Qed.

Lemma firstn_skipn_split {A} (page rest : list A) :
  page = firstn (List.length page) rest ->
  rest = page ++ skipn (List.length page) rest.
Proof. intros H. rewrite H at 1. symmetry. apply firstn_skipn. Qed.

Lemma page_of_answer n p data items page :
  main.session self n p = Http 200 (Ok data) ->
  py_get data (pystr "items") (VList []) = Ok items ->
  page_of (main.session self n p) = Some page ->
  items = VList page.
Proof.
  intros Hans Hitems Hpage. rewrite Hans in Hpage. cbn in Hpage.
  rewrite Hitems in Hpage. destruct items; try discriminate.
  now injection Hpage as ->.
Qed.

Lemma in_step_rest st rest :
  main.cursor st = len (main.collected st) ->
  catalogue = main.collected st ++ rest ->
  skipn (Z.to_nat (main.cursor st)) catalogue = rest.
Proof.
  intros Hcur ->. rewrite Hcur. unfold len. rewrite Nat2Z.id.
  rewrite skipn_app, skipn_all, Nat.sub_diag. reflexivity.
Qed.

(** The loop over a source that answers its requests from the
    catalogue: it ends past its condition or at a [break], with the
    first [total_needed] items of the catalogue. *)
Lemma while_loop_catalogue fuel : forall st w r w',
  store_ok store = true ->
  0 <= total_needed ->
  in_step catalogue st ->
  while_loop fuel st w = (r, w') ->
  (iterations_left total_needed st <= fuel)%nat ->
  (forall n p,
      (List.length (requests w) <= n)%nat ->
      nth_error (requests w') n = Some p ->
      answers_from catalogue (main.session self n p) p) ->
  exists st',
    r = Returns (main.Finished st')
    /\ slice_to (main.collected st') total_needed
       = slice_to catalogue total_needed.
Proof.
  induction fuel as [|fuel IH]; intros st w r w' Hstore HN
    (Hcur & rest & Hrest) H Hfuel Hsrv;
    rewrite while_loop_eq in H;
    destruct (len (main.collected st) <? total_needed) eqn:Hguard;
    try (apply Z.ltb_lt in Hguard; unfold iterations_left in Hfuel; lia);
    try (apply Z.ltb_ge in Hguard; injection H as <- <-; exists st;
         split; [reflexivity|]; rewrite Hrest;
         symmetry; apply slice_to_prefix; lia).
  apply Z.ltb_lt in Hguard.
  pose proof (in_step_rest st rest Hcur Hrest) as Hskip.
  destruct (loop_body st w) as [[[st1|st1|v]|e|] w1] eqn:Hbody.
  - destruct (loop_body_next _ _ _ _ _ _ _ _ Hbody)
      as (p & data & items & count & added & Hp & _ & Ho & Hans & Hitems
          & Ht & Hcount & Hslice & Hc & Hcur1 & Hlt & _).
    destruct (while_loop_frame _ _ _ _ _ _ _ _ _ H) as (_ & ps & Hps).
    destruct (Hsrv (List.length (requests w)) p (Nat.le_refl _))
      as (page & Hpage & Hprefix & _).
    { rewrite Hps, Hp, <- app_assoc, nth_error_app2, Nat.sub_diag by lia.
      reflexivity. }
    rewrite (page_of_answer _ _ _ _ _ Hans Hitems Hpage) in *.
    cbn in Hcount, Hslice. injection Hcount as <-. injection Hslice as <-.
    rewrite Hc, len_app in Hlt.
    assert (Hwhole : slice_to page (total_needed - len (main.collected st))
                     = page) by (apply slice_to_short; lia).
    rewrite Hwhole in *.
    rewrite Ho, Hskip in Hprefix.
    apply (IH st1 w1 r w'); try assumption.
    + split; [rewrite Hcur1, Hc, len_app; lia|].
      exists (skipn (List.length page) rest).
      rewrite Hrest, Hc, <- app_assoc. f_equal.
      rewrite Hprefix at 1. symmetry. apply firstn_skipn.
    + apply (loop_body_next_decreases _ _ _ _ _ _ _ _ Hguard) in Hbody.
      lia.
    + intros n q Hn Hq. apply Hsrv; [|assumption].
      rewrite Hp, length_app in Hn. lia.
  - injection H as <- <-.
    destruct (loop_body_break _ _ _ _ _ _ _ _ Hbody)
      as (p & data & items & Hp & _ & Ho & Hans & Hitems & _ & _ & Hcase).
    destruct (Hsrv (List.length (requests w)) p (Nat.le_refl _))
      as (page & Hpage & Hprefix & Hempty).
    { rewrite Hp, nth_error_app2, Nat.sub_diag by lia. reflexivity. }
    rewrite (page_of_answer _ _ _ _ _ Hans Hitems Hpage) in *.
    rewrite Ho, Hskip in Hprefix, Hempty.
    exists st1. split; [reflexivity|].
    destruct Hcase as [[Ht ->] | (count & added & _ & _ & Hslice & Hc & Hge)].
    + destruct page; [|discriminate].
      rewrite Hrest, (Hempty eq_refl), app_nil_r. reflexivity.
    + cbn in Hslice. injection Hslice as <-.
      pose proof (len_nonneg (main.collected st)) as Hnonneg.
      pose proof (slice_to_length page
                    (total_needed - len (main.collected st)) ltac:(lia))
        as Hadded.
      rewrite Hc, len_app in Hge.
      assert (Hpage_len : total_needed - len (main.collected st) <= len page).
      { unfold slice_to, len in *.
        destruct (0 <=? total_needed
                        - Z.of_nat (List.length (main.collected st)));
          rewrite length_firstn in *; lia. }
      rewrite Hc, Hrest, !slice_to_app by lia. f_equal.
      rewrite (slice_to_all (slice_to page _)) by assumption.
      rewrite (firstn_skipn_split page rest Hprefix).
      symmetry. apply slice_to_prefix; lia.
  - injection H as <- <-.
    destruct (loop_body_return _ _ _ _ _ _ _ _ Hbody)
      as (p & status & json & sid & _ & Hp & _ & _ & Hans & Hstatus & _).
    destruct (Hsrv (List.length (requests w)) p (Nat.le_refl _))
      as (page & Hpage & _).
    { rewrite Hp, nth_error_app2, Nat.sub_diag by lia. reflexivity. }
    apply page_of_inv in Hpage as (data & Hpage & _). congruence.
  - injection H as <- <-.
    destruct (loop_body_raises_answer _ _ _ _ Hstore Hbody)
      as (p & Hp & Hnone).
    destruct (Hsrv (List.length (requests w)) p (Nat.le_refl _))
      as (page & Hpage & _).
    { rewrite Hp, nth_error_app2, Nat.sub_diag by lia. reflexivity. }
    congruence.
  - now apply loop_body_fuel in Hbody.
Qed.

(** [get_products] over a source that answers its requests from the
    catalogue: the formatting of the first [total_needed] items. *)
Lemma get_products_catalogue w r w' :
  store_ok store = true ->
  0 <= total_needed ->
  get_products w = (r, w') ->
  (forall n p,
      (List.length (requests w) <= n)%nat ->
      nth_error (requests w') n = Some p ->
      answers_from catalogue (main.session self n p) p) ->
  r = run_of (main.format_products (slice_to catalogue total_needed)).
Proof.
  intros Hstore HN H Hsrv.
  destruct (store_ok_members _ Hstore)
    as (sid & title & region & Hid & Htitle & _ & Htruthy).
  unfold main.get_products, main.get_products_fuel in H.
  rewrite Htruthy in H. unfold_M_in H; cbn in H.
  rewrite Hid, Htitle in H.
  match type of H with
  | context [main.while_loop ?f _ _ _ _ ?st ?w0] =>
      destruct (main.while_loop f self store category_id total_needed st w0)
        as [rl wl] eqn:Hloop
  end.
  assert (Hreq : requests w' = requests wl).
  { destruct rl as [[st|v]|e|]; try (now pair_inv H).
    destruct (main.format_products
                (slice_to (main.collected st) total_needed));
      now pair_inv H. }
  assert (Hstart : in_step catalogue {| main.collected := []; main.cursor := 0 |})
    by (split; [reflexivity | now exists catalogue]).
  destruct (while_loop_catalogue _ _ _ _ _ Hstore HN Hstart Hloop)
    as (st' & -> & Hcollected).
  { now rewrite iterations_left_initial. }
  { intros n p Hn Hp. apply Hsrv; [exact Hn | now rewrite Hreq]. }
  rewrite Hcollected in H.
  destruct (main.format_products (slice_to catalogue total_needed));
    now pair_inv H.
Qed.

End Catalogue.

(** ** main(): one city *)

Section MainCity.
Context {U : UnicodeData}.

Lemma bind_inv {A B} (m : M A) (k : A -> M B) w r w' :
  bind m k w = (r, w') ->
  (exists a w1, m w = (Returns a, w1) /\ k a w1 = (r, w'))
  \/ (exists e, m w = (Raises e, w') /\ r = Raises e)
  \/ (m w = (OutOfFuel, w') /\ r = OutOfFuel).
Proof.
  unfold bind. destruct (m w) as [[a|e|] w1]; intros H.
  - left. now exists a, w1.
  - right; left. pair_inv H. now exists e.
  - right; right. now pair_inv H.
Qed.

Lemma get_store_frame self w r w' :
  main.get_store self w = (r, w') ->
  requests w' = requests w /\ files w' = files w /\ r <> OutOfFuel.
Proof.
  unfold main.get_store, bind, lift, logger, ret.
  destruct (config_getitem config.STORE_IDS (main.city self));
    [destruct (config_getitem config.CITIES (main.city self))|];
    intros H; pair_inv H; repeat split; discriminate.
Qed.

Lemma quiet_bind {A B} (m : M A) (k : A -> M B) :
  quiet m -> (forall a, quiet (k a)) -> quiet (bind m k).
Proof.
  intros Hm Hk w r w' H. unfold bind in H.
  destruct (m w) as [[a|e|] w1] eqn:Hmw; apply Hm in Hmw as [Hreq Hfuel].
  - apply Hk in H as [Hreq' Hfuel']. split; congruence.
  - pair_inv H. split; [assumption | discriminate].
  - congruence.
Qed.

Lemma quiet_ret {A} (a : A) : quiet (ret a).
Proof. intros w r w' H; pair_inv H. split; [reflexivity | discriminate]. Qed.

Lemma quiet_lift {A} (x : result A) : quiet (lift x).
Proof.
  intros w r w' H; unfold lift in H.
  destruct x; pair_inv H; (split; [reflexivity | discriminate]).
Qed.

Lemma quiet_logger l m : quiet (logger l m).
Proof. intros w r w' H; pair_inv H. split; [reflexivity | discriminate]. Qed.

Lemma quiet_file_create name : quiet (file_create name).
Proof. intros w r w' H; pair_inv H. split; [reflexivity | discriminate]. Qed.

Lemma quiet_file_append name row : quiet (file_append name row).
Proof. intros w r w' H; pair_inv H. split; [reflexivity | discriminate]. Qed.

Create HintDb quiet.
#[local] Hint Resolve quiet_ret quiet_lift quiet_logger quiet_file_create
  quiet_file_append : quiet.

Lemma quiet_writerows self rows : quiet (main.writerows self rows).
Proof.
  induction rows as [|row rows IH]; cbn [main.writerows];
    auto using quiet_bind with quiet.
Qed.

Lemma quiet_write_products self products :
  quiet (main.write_products self products).
Proof.
  unfold main.write_products, main.write_to_csv.
  auto 10 using quiet_bind, quiet_writerows with quiet.
Qed.

Lemma write_products_frame self products w r w' :
  main.write_products self products w = (r, w') ->
  requests w' = requests w /\ r <> OutOfFuel.
Proof. apply quiet_write_products. Qed.

(** [main] survives whatever happens to a city: the body of its loop
    always runs to its end. *)
Lemma main_city_returns srv city w :
  exists w', main.main_city srv city w = (Returns tt, w').
Proof.
  unfold main.main_city, try_except.
  match goal with
  | |- context [match ?body w with _ => _ end] =>
      destruct (body w) as [[[]|e|] w1] eqn:Hbody
  end.
  - eexists; reflexivity.
  - eexists; reflexivity.
  - exfalso.
    apply bind_inv in Hbody
      as [(store & w0 & Hstore & Hbody) | [(e & _ & ?) | [Hstore _]]];
      [|discriminate|now apply get_store_frame in Hstore as (_ & _ & ?)].
    apply bind_inv in Hbody
      as [(cat & w2 & Hcat & Hbody) | [(e & _ & ?) | [Hcat _]]];
      [|discriminate|now apply quiet_lift in Hcat as [_ ?]].
    apply bind_inv in Hbody
      as [(products & w3 & _ & Hbody) | [(e & _ & ?) | [Hget _]]];
      [|discriminate|now apply get_products_total in Hget].
    now apply write_products_frame in Hbody as [_ ?].
Qed.

(** So does the loop over the cities: no city stops [main]. *)
Lemma main_returns srv w : exists w', main.main srv w = (Returns tt, w').
Proof.
  unfold main.main. generalize (map fst config.CITIES) as cities.
  intros cities; revert w.
  induction cities as [|city cities IH]; intros w; cbn [main.main_loop].
  - now exists w.
  - destruct (main_city_returns (srv city) city w) as (w1 & Hcity).
    destruct (IH w1) as (w' & Hrest).
    exists w'. unfold bind. now rewrite Hcity.
Qed.

Lemma try_except_inv {A} (body : M A) (handler : exn -> M A) w r w' :
  try_except body handler w = (r, w') ->
  (exists e w1, body w = (Raises e, w1) /\ handler e w1 = (r, w'))
  \/ (body w = (r, w') /\ forall e, r <> Raises e).
Proof.
  unfold try_except. destruct (body w) as [[a|e|] w1]; intros H.
  - right. pair_inv H. split; [reflexivity | discriminate].
  - left. now exists e, w1.
  - right. pair_inv H. split; [reflexivity | discriminate].
Qed.

Lemma lift_world {A} (x : result A) w r w' : lift x w = (r, w') -> w' = w.
Proof. unfold lift. destruct x; intros H; now pair_inv H. Qed.

(** The body of [main]'s loop up to [get_products]. *)
Lemma main_city_body_inv srv city w r w' :
  (store <- main.get_store {| main.city := city; main.session := srv |} ;;
   category_id <- lift (config_getitem config.CATEGORY_BY_CITY city) ;;
   products <- main.get_products
                 {| main.city := city; main.session := srv |} store
                 category_id config.PRODUCTS_PER_STORE ;;
   main.write_products
     (main.new_CSVWriter
        (pystr "lenta_" ++ main.replace_spaces (py_lower city)
         ++ pystr ".csv")) products)%M w = (r, w') ->
  (requests w' = requests w /\ exists e, r = Raises e)
  \/ exists store category_id w0 rg wg,
       requests w0 = requests w /\ files w0 = files w
       /\ main.get_products {| main.city := city; main.session := srv |}
            store category_id config.PRODUCTS_PER_STORE w0 = (rg, wg)
       /\ requests w' = requests wg
       /\ ((exists e, rg = Raises e /\ r = Raises e /\ w' = wg)
           \/ exists products, rg = Returns products).
Proof.
  intros H.
  apply bind_inv in H
    as [(store & w0 & Hstore & H) | [(e & Hstore & ->) | [Hstore _]]];
    apply get_store_frame in Hstore as (Hreq0 & Hfiles0 & Hfuel0);
    [| left; split; [assumption | now exists e] | congruence].
  apply bind_inv in H
    as [(cat & w1 & Hcat & H) | [(e & Hcat & ->) | [Hcat _]]].
  2:{ left. apply quiet_lift in Hcat as [Hreq _].
      split; [congruence | now exists e]. }
  2:{ now apply quiet_lift in Hcat as [_ ?]. }
  apply lift_world in Hcat as ->.
  apply bind_inv in H
    as [(products & w2 & Hget & H) | [(e & Hget & ->) | [Hget _]]].
  - right. exists store, cat, w0, (Returns products), w2.
    apply write_products_frame in H as [Hreqw _].
    repeat split; try assumption. right. now exists products.
  - right. exists store, cat, w0, (Raises e), w'.
    repeat split; try assumption. left. now exists e.
  - now apply get_products_total in Hget.
Qed.

(** A request that fails in transport ends the city's turn: the error is
    logged by [main] and no file is written. *)
Lemma main_city_transport_failure srv city w r w' n p e :
  main.main_city srv city w = (r, w') ->
  (List.length (requests w) <= n)%nat ->
  nth_error (requests w') n = Some p ->
  srv n p = PostRaises e ->
  (exists l, log w' = l ++ [(ERROR, CityFailed city e)])
  /\ files w' = files w.
Proof.
  unfold main.main_city. intros H Hn Hp Hsrv.
  apply try_except_inv in H
    as [(e0 & w1 & Hbody & Hhandler) | [Hbody Hnot]].
  - unfold logger in Hhandler. pair_inv Hhandler. simpl_world_in Hp.
    apply main_city_body_inv in Hbody
      as [[Hreq _]
         | (store & cat & w0 & rg & wg & Hreq0 & Hfiles0 & Hget & Hreq
            & [(e1 & -> & He & ->) | (products & ->)])].
    + rewrite Hreq in Hp. now destruct (nth_error_beyond _ _ _ Hp Hn).
    + injection He as ->.
      apply get_products_trace in Hget as [Hfiles Htrace].
      rewrite <- Hreq0 in Hn. specialize (Htrace n p Hn Hp).
      cbn [main.session] in Htrace. rewrite Hsrv in Htrace.
      injection Htrace as ->. simpl_world.
      split; [eexists; reflexivity | congruence].
    + apply get_products_trace in Hget as [_ Htrace].
      rewrite Hreq in Hp. rewrite <- Hreq0 in Hn.
      specialize (Htrace n p Hn Hp).
      cbn [main.session] in Htrace. rewrite Hsrv in Htrace. discriminate.
  - apply main_city_body_inv in Hbody
      as [[Hreq _]
         | (store & cat & w0 & rg & wg & Hreq0 & Hfiles0 & Hget & Hreq
            & [(e1 & -> & He & ->) | (products & ->)])].
    + rewrite Hreq in Hp. now destruct (nth_error_beyond _ _ _ Hp Hn).
    + now destruct (Hnot _ He).
    + apply get_products_trace in Hget as [_ Htrace].
      rewrite Hreq in Hp. rewrite <- Hreq0 in Hn.
      specialize (Htrace n p Hn Hp).
      cbn [main.session] in Htrace. rewrite Hsrv in Htrace. discriminate.
Qed.

End MainCity.

(** C1. For a count that is not negative, [get_products] returns at most
    that many records; and when the source holds fewer items than the
    count and answers every request the run sends from its offset on
    (with pages of whatever size, an empty one only when nothing is
    left), the run returns every item the source holds, as one record
    each. *)
Theorem get_products_bounded `{U : UnicodeData}
  (self : main.LentaAPI) (store : value) (category_id total_needed : Z)
  (w : world) :
  0 <= total_needed ->
  (forall recs w',
      main.get_products self store category_id total_needed w
      = (Returns recs, w') ->
      len recs <= total_needed)
  /\ (forall catalogue recs r w',
        store_ok store = true ->
        main.get_products self store category_id total_needed w = (r, w') ->
        (forall n p,
            (List.length (requests w) <= n)%nat ->
            nth_error (requests w') n = Some p ->
            answers_from catalogue (main.session self n p) p) ->
        len catalogue < total_needed ->
        main.format_products catalogue = Ok recs ->
        r = Returns recs /\ len recs = len catalogue).
Proof.
  intros HN. split.
  - intros recs w'. now apply get_products_at_most.
  - intros catalogue recs r w' Hstore Hrun Hsrv Hlen Hfmt.
    rewrite (get_products_catalogue self store category_id total_needed
               catalogue w r w' Hstore HN Hrun Hsrv).
    rewrite slice_to_all by lia. rewrite Hfmt.
    split; [reflexivity | now apply format_products_length].
Qed.

(** Ten items are asked of a source that holds six and answers by offset
    and limit: two requests, six records. *)
Lemma get_products_bounded_six_of_ten :
  exists recs w',
    @main.get_products latin_cyrillic (moscow (by_offset six_items))
      moscow_store 2 10 empty_world = (Returns recs, w')
    /\ len recs = 6 /\ len recs <= 10.
Proof.
  destruct (@main.get_products latin_cyrillic (moscow (by_offset six_items))
              moscow_store 2 10 empty_world) as [r w'] eqn:Hrun.
  assert (Hreq : requests w'
                 = [{| categoryId := 2; limit := 10; offset := 0;
                       regionId := VInt 1; pickupStoreId := VInt 104 |};
                    {| categoryId := 2; limit := 4; offset := 6;
                       regionId := VInt 1; pickupStoreId := VInt 104 |}]).
  { apply (f_equal snd) in Hrun. cbn [snd] in Hrun. rewrite <- Hrun.
    vm_compute. reflexivity. }
  pose proof (@get_products_bounded latin_cyrillic
                (moscow (by_offset six_items)) moscow_store 2 10 empty_world
                ltac:(lia)) as [Hmost Hall].
  destruct (@main.format_products latin_cyrillic six_items)
    as [recs|e] eqn:Hfmt; [|vm_compute in Hfmt; discriminate].
  destruct (Hall six_items recs r w' eq_refl Hrun) as [-> Hlen];
    try assumption.
  - intros n p _ Hp. rewrite Hreq in Hp.
    destruct n as [|[|n]]; cbn in Hp;
      [injection Hp as <- | injection Hp as <- | now destruct n].
    + exists six_items. repeat split. discriminate.
    + exists []. repeat split.
  - unfold len; cbn; lia.
  - exists recs, w'. split; [reflexivity|]. split; [exact Hlen|].
    exact (Hmost _ _ Hrun).
Defined.

(** C2 (as the code has it). In every iteration the request carries the
    limit [min(PRODUCTS_PER_STORE, total_needed - len(collected))] and the
    current offset. When the loop goes on to another request, the offset
    has advanced by the number of items the source returned, all of which
    were appended; the iteration that ends the loop leaves the offset as
    it was. With five items asked of a source that serves three, three and
    none, two requests are sent. *)
Theorem pagination_iteration `{U : UnicodeData}
  (self : main.LentaAPI) (store : value) (category_id total_needed : Z)
  (st : main.loop_state) (w : world) :
  (requests (snd (main.loop_body self store category_id total_needed st w))
   = requests w
   \/ exists p,
        requests
          (snd (main.loop_body self store category_id total_needed st w))
        = requests w ++ [p]
        /\ limit p = Z.min config.PRODUCTS_PER_STORE
                       (total_needed - len (main.collected st))
        /\ offset p = main.cursor st)
  /\ (forall st' w',
        len (main.collected st) < total_needed ->
        main.loop_body self store category_id total_needed st w
        = (Returns (main.Next st'), w') ->
        exists p data items count,
          nth_error (requests w') (List.length (requests w)) = Some p
          /\ main.session self (List.length (requests w)) p
             = Http 200 (Ok data)
          /\ py_get data (pystr "items") (VList []) = Ok items
          /\ main.py_len items = Ok count
          /\ main.cursor st' = main.cursor st + count
          /\ len (main.collected st') = len (main.collected st) + count)
  /\ (forall st' w',
        main.loop_body self store category_id total_needed st w
        = (Returns (main.Break st'), w') ->
        main.cursor st' = main.cursor st)
  /\ (exists recs w',
        @main.get_products latin_cyrillic (moscow three_three_none)
          moscow_store 2 5 empty_world = (Returns recs, w')
        /\ len recs = 5
        /\ map (fun p => (limit p, offset p)) (requests w')
           = [(5, 0); (2, 3)]).
Proof.
  repeat split.
  - destruct (main.loop_body self store category_id total_needed st w)
      as [[[st'|st'|v]|e|] w'] eqn:Hbody; cbn [snd].
    + destruct (loop_body_next _ _ _ _ _ _ _ _ Hbody)
        as (p & data & items & count & added & Hp & Hl & Ho & _).
      right; now exists p.
    + destruct (loop_body_break _ _ _ _ _ _ _ _ Hbody)
        as (p & data & items & Hp & Hl & Ho & _).
      right; now exists p.
    + destruct (loop_body_return _ _ _ _ _ _ _ _ Hbody)
        as (p & status & json & sid & _ & Hp & Hl & Ho & _).
      right; now exists p.
    + destruct (loop_body_raises _ _ _ _ _ _ _ _ Hbody)
        as (_ & [Hsame | (p & Hp & Hl & Ho & _)]).
      * now left.
      * right; now exists p.
    + now apply loop_body_fuel in Hbody.
  - intros st' w' Hguard Hbody.
    destruct (loop_body_next _ _ _ _ _ _ _ _ Hbody)
      as (p & data & items & count & added & Hp & _ & _ & Hans & Hitems
          & Ht & Hcount & Hslice & Hc & Hcur & Hlt & _).
    exists p, data, items, count. repeat split; try assumption.
    + rewrite Hp, nth_error_app2, Nat.sub_diag by lia. reflexivity.
    + rewrite Hc, len_app in *.
      rewrite (py_slice_to_whole items _ count added Hcount Hslice); lia.
  - intros st' w' Hbody.
    now destruct (loop_body_break _ _ _ _ _ _ _ _ Hbody)
      as (p & data & items & _ & _ & _ & _ & _ & Hcur & _).
  - eexists _, _. split; [vm_compute; reflexivity|].
    split; reflexivity.
Qed.

(** The first iteration of the scenario: the offset goes from 0 to 3. *)
Lemma pagination_iteration_first_page :
  exists st' w',
    main.loop_body (moscow three_three_none) moscow_store
      2 5 {| main.collected := []; main.cursor := 0 |} empty_world
    = (Returns (main.Next st'), w')
    /\ main.cursor st' = 3 /\ len (main.collected st') = 3.
Proof.
  eexists _, _. split; [vm_compute; reflexivity|].
  destruct (proj1 (proj2 (@pagination_iteration latin_cyrillic
                            (moscow three_three_none) moscow_store 2 5
                            {| main.collected := []; main.cursor := 0 |}
                            empty_world))
              _ _ ltac:(vm_compute; reflexivity) eq_refl)
    as (p & data & items & count & _ & _ & _ & _ & Hcur & Hlen).
  split; reflexivity.
Defined.

(** C2 as the specification words it does not hold: the second iteration
    of the scenario consumes a page of three items, two of them into the
    result, and the offset stays at 3 instead of advancing by 3. *)
Lemma offset_stays_after_last_page :
  exists st' w',
    main.loop_body (moscow three_three_none) moscow_store
      2 5 {| main.collected := [item 1; item 2; item 3]; main.cursor := 3 |}
      (set_requests empty_world
         [{| categoryId := 2; limit := 5; offset := 0;
             regionId := VInt 1; pickupStoreId := VInt 104 |}])
    = (Returns (main.Break st'), w')
    /\ main.collected st' = [item 1; item 2; item 3; item 4; item 5]
    /\ main.cursor st' = 3
    /\ main.cursor st' <> 3 + 3.
Proof.
  eexists _, _. split; [vm_compute; reflexivity|].
  repeat split. discriminate.
Qed.

(** C7 (as the code has it). A listing request answered with a status
    other than 200 makes [get_products] return the empty list, whatever
    was collected before, after an ERROR line. A listing request that
    fails in transport makes [get_products] raise instead of returning;
    [main] catches the exception, logs it, writes no file for the city and
    goes on. Either way the body of [main]'s loop runs to its end. *)
Theorem get_products_failed_request `{U : UnicodeData}
  (self : main.LentaAPI) (store : value) (category_id total_needed : Z)
  (w : world) :
  (forall r w' n p,
      main.get_products self store category_id total_needed w = (r, w') ->
      (List.length (requests w) <= n)%nat ->
      nth_error (requests w') n = Some p ->
      match main.session self n p with
      | PostRaises e => r = Raises e
      | Http status _ =>
          status <> 200 ->
          r = Returns []
          /\ exists l store_id,
               log w' = l ++ [(ERROR, StatusError status store_id)]
      end)
  /\ (forall srv city, exists w', main.main_city srv city w = (Returns tt, w'))
  /\ (forall srv city r w' n p e,
        main.main_city srv city w = (r, w') ->
        (List.length (requests w) <= n)%nat ->
        nth_error (requests w') n = Some p ->
        srv n p = PostRaises e ->
        (exists l, log w' = l ++ [(ERROR, CityFailed city e)])
        /\ files w' = files w).
Proof.
  split; [|split].
  - intros r w' n p Hrun Hn Hp.
    exact (proj2 (get_products_trace _ _ _ _ _ _ _ Hrun) n p Hn Hp).
  - intros srv city. apply main_city_returns.
  - intros srv city r w' n p e Hrun Hn Hp Hsrv.
    exact (main_city_transport_failure _ _ _ _ _ _ _ _ Hrun Hn Hp Hsrv).
Qed.

(** A 500 on the second request: the three items of the first page are
    not returned. A transport failure on the second request: Moscow's turn
    ends with an ERROR line and without a file. *)
Lemma get_products_failed_request_examples :
  (exists w',
      @main.get_products latin_cyrillic (moscow page_then_500) moscow_store
        2 5 empty_world = (Returns [], w')
      /\ exists l store_id,
           log w' = l ++ [(ERROR, StatusError 500 store_id)])
  /\ (exists w',
        @main.main_city latin_cyrillic page_then_down (pystr "Москва")
          empty_world = (Returns tt, w')
        /\ (exists l,
               log w' = l ++ [(ERROR, CityFailed (pystr "Москва") ClientError)])
        /\ files w' = []).
Proof.
  split.
  - destruct (@main.get_products latin_cyrillic (moscow page_then_500)
                moscow_store 2 5 empty_world) as [r w'] eqn:Hrun.
    pose proof (proj1 (@get_products_failed_request latin_cyrillic
                         (moscow page_then_500) moscow_store 2 5 empty_world)
                  r w' 1%nat
                  {| categoryId := 2; limit := 2; offset := 3;
                     regionId := VInt 1; pickupStoreId := VInt 104 |}
                  Hrun ltac:(cbn; lia)) as Hfail.
    assert (Hp : nth_error (requests w') 1
                 = Some {| categoryId := 2; limit := 2; offset := 3;
                           regionId := VInt 1; pickupStoreId := VInt 104 |}).
    { apply (f_equal snd) in Hrun. cbn [snd] in Hrun. rewrite <- Hrun.
      vm_compute. reflexivity. }
    destruct (Hfail Hp ltac:(discriminate)) as [-> Hlog].
    exists w'. split; [reflexivity | exact Hlog].
  - destruct (@main.main_city latin_cyrillic page_then_down (pystr "Москва")
                empty_world) as [r w'] eqn:Hrun.
    pose proof (proj2 (proj2 (@get_products_failed_request latin_cyrillic
                                (moscow page_then_down) moscow_store 2 5
                                empty_world))
                  page_then_down (pystr "Москва") r w' 1%nat
                  {| categoryId := 2; limit := 97; offset := 3;
                     regionId := VInt 1; pickupStoreId := VInt 104 |}
                  ClientError Hrun ltac:(cbn; lia)) as Hfail.
    assert (Hp : nth_error (requests w') 1
                 = Some {| categoryId := 2; limit := 97; offset := 3;
                           regionId := VInt 1; pickupStoreId := VInt 104 |}).
    { apply (f_equal snd) in Hrun. cbn [snd] in Hrun. rewrite <- Hrun.
      vm_compute. reflexivity. }
    destruct (Hfail Hp eq_refl) as [Hlog Hfiles].
    assert (Hr : r = Returns tt).
    { apply (f_equal fst) in Hrun. cbn [fst] in Hrun. rewrite <- Hrun.
      vm_compute. reflexivity. }
    subst r. exists w'. repeat split; assumption.
Defined.

(** C7 as the specification words it does not hold: on a transport
    failure [get_products] does not return the empty list, it raises. *)
Lemma get_products_raises_on_transport_failure :
  fst (@main.get_products latin_cyrillic (moscow page_then_down)
         moscow_store 2 5 empty_world)
  = Raises ClientError.
Proof. vm_compute. reflexivity. Qed.

(** ** The detail pipeline (oop_test.py) *)

Lemma drops_app l1 l2 : drops (l1 ++ l2) = (drops l1 + drops l2)%nat.
Proof. unfold drops. now rewrite filter_app, length_app. Qed.

(** [parse_product] catches whatever is raised in it. Its item is either
    returned, with an identifier that is true, or reported as dropped in
    exactly one log line. *)
Lemma parse_product_account self product_data w r w' :
  oop_test.parse_product self product_data w = (r, w') ->
  exists result,
    r = Returns result
    /\ (drops (log w') + match result with Some _ => 1 | None => 0 end
        = drops (log w) + 1)%nat
    /\ (forall p, result = Some p ->
                  truthy (oop_test.id p) = true
                  /\ py_get product_data (pystr "id") VNone
                     = Ok (oop_test.id p)).
Proof.
  intros H. unfold oop_test.parse_product, oop_test.get_product_details in H.
  run_in H; pair_inv H; eexists; (split; [reflexivity|]); simpl_world;
    rewrite ?drops_app; cbn; (split; [lia|]); intros p Hp; try discriminate;
    injection Hp as <-; cbn;
    match goal with
    | H : negb (truthy _) = false |- _ => apply negb_false_iff in H
    end; now split.
Qed.

Lemma collect_results_account parser products order :
  forall results completed w,
    Forall (fun i => (i < List.length products)%nat) order ->
    exists results' w',
      oop_test.collect_results parser products order results completed w
      = (Returns results', w')
      /\ (List.length results' + drops (log w')
          = List.length results + drops (log w) + List.length order)%nat
      /\ (forall r, In r results' ->
                    In r results \/ truthy (oop_test.id r) = true).
Proof.
  induction order as [|i order IH]; intros results completed w Hrange;
    cbn [oop_test.collect_results].
  - exists results, w. split; [reflexivity|]. split; [cbn; lia | auto].
  - inversion Hrange as [|? ? Hi Hrest]; subst.
    destruct (nth_error products i) as [product|] eqn:Hnth;
      [|apply nth_error_None in Hnth; lia].
    unfold bind at 1.
    destruct (oop_test.parse_product parser product w) as [r w1] eqn:Hparse.
    apply parse_product_account in Hparse as (result & -> & Hdrops & Hid).
    set (results1 := match result with
                     | Some r => results ++ [r]
                     | None => results
                     end).
    assert (Hnext : forall w2, drops (log w2) = drops (log w1) ->
              exists results' w',
                oop_test.collect_results parser products order results1
                  (completed + 1) w2 = (Returns results', w')
                /\ (List.length results' + drops (log w')
                    = List.length results + drops (log w)
                      + List.length (i :: order))%nat
                /\ (forall r, In r results' ->
                              In r results \/ truthy (oop_test.id r) = true)).
    { intros w2 Hw2.
      destruct (IH results1 (completed + 1) w2 Hrest)
        as (results' & w' & Hrun & Hcount & Hin).
      exists results', w'. split; [assumption|]. split.
      - subst results1. destruct result as [p|];
          rewrite ?length_app in Hcount; cbn [List.length] in *; lia.
      - intros r Hr. destruct (Hin r Hr) as [Hold | Hnew]; [|now right].
        subst results1. destruct result as [p|]; [|now left].
        apply in_app_or in Hold as [Hold | [<- | []]]; [now left|].
        right. now destruct (Hid p eq_refl). }
    unfold bind at 1.
    destruct ((completed + 1) mod 10 =? 0).
    + unfold logger at 1. apply Hnext. simpl_world.
      rewrite drops_app. cbn. lia.
    + unfold ret at 1. now apply Hnext.
Qed.

Lemma completion_order_range (order : list nat) (n : nat) :
  Permutation order (seq 0 n) ->
  Forall (fun i => (i < n)%nat) order /\ List.length order = n.
Proof.
  intros Hperm. split.
  - apply Forall_forall. intros i Hi.
    apply (Permutation_in _ Hperm) in Hi. apply in_seq in Hi. lia.
  - rewrite (Permutation_length Hperm). apply length_seq.
Qed.

(** With a pool of at least one worker the tasks are submitted and
    collected. *)
Lemma process_products_parallel_eq products parser max_workers order :
  0 < max_workers ->
  oop_test.process_products_parallel products parser max_workers order
  = (logger INFO (ParallelStarts (len products) max_workers) ;;
     results <- oop_test.collect_results parser products order [] 0 ;;
     logger INFO (ParallelDone (len results)) ;;
     ret results)%M.
Proof.
  intros Hpool. unfold oop_test.process_products_parallel.
  destruct (max_workers <=? 0) eqn:H; [apply Z.leb_le in H; lia|].
  reflexivity.
Qed.

(** Without a worker the pool is not built: [ValueError] after the
    first log line, and nothing else has happened. *)
Lemma process_products_parallel_no_pool products parser max_workers order w :
  max_workers <= 0 ->
  oop_test.process_products_parallel products parser max_workers order w
  = (Raises ValueError,
     set_log w
       (log w ++ [(INFO, ParallelStarts (len products) max_workers)])).
Proof.
  intros Hpool. unfold oop_test.process_products_parallel.
  destruct (max_workers <=? 0) eqn:H; [|apply Z.leb_gt in H; lia].
  reflexivity.
Qed.

Lemma max_workers_positive : 0 < oop_test.MAX_WORKERS.
Proof. reflexivity. Qed.

(** The whole run with a pool: it does not fail, and every item is either
    in the output or reported as dropped. *)
Lemma process_products_parallel_account products parser max_workers order w :
  0 < max_workers ->
  Permutation order (seq 0 (List.length products)) ->
  exists results w',
    oop_test.process_products_parallel products parser max_workers order w
    = (Returns results, w')
    /\ (List.length results + drops (log w')
        = List.length products + drops (log w))%nat
    /\ (forall r, In r results -> truthy (oop_test.id r) = true).
Proof.
  intros Hpool Hperm.
  apply completion_order_range in Hperm as [Hrange Hlen].
  rewrite process_products_parallel_eq by assumption.
  unfold bind at 1. unfold logger at 1. unfold bind at 1.
  match goal with
  | |- context [oop_test.collect_results _ _ _ _ _ ?w0] =>
      destruct (collect_results_account parser products order [] 0 w0 Hrange)
        as (results & w1 & -> & Hcount & Hin)
  end.
  unfold bind, logger, ret. eexists _, _. split; [reflexivity|].
  simpl_world. simpl_world_in Hcount.
  rewrite !drops_app in *. cbn in *. split; [lia|].
  intros r Hr. now destruct (Hin r Hr).
Qed.

(** What [parse_product] returns for an item whose prices can be read and
    whose identifier is true: a record, whatever the detail request
    brought; a failed detail request leaves the brand empty. *)
Lemma parse_product_record self product_data w
  prices price_regular regular price promo product_id name :
  py_get product_data (pystr "prices") (VDict []) = Ok prices ->
  py_get prices (pystr "priceRegular") VNone = Ok price_regular ->
  oop_test.to_roubles price_regular = Ok regular ->
  py_get prices (pystr "price") VNone = Ok price ->
  oop_test.to_roubles price = Ok promo ->
  py_get product_data (pystr "id") VNone = Ok product_id ->
  truthy product_id = true ->
  py_get product_data (pystr "name") (VStr []) = Ok name ->
  match oop_test.session (oop_test.api self)
          (List.length (detail_requests w)) product_id with
  | Raise e =>
      exists w',
        oop_test.parse_product self product_data w
        = (Returns (Some {| oop_test.id := product_id;
                            oop_test.name := name;
                            oop_test.regular_price :=
                              oop_test.py_or regular (VFloat (S754_zero false));
                            oop_test.promo_price :=
                              oop_test.py_or promo (VFloat (S754_zero false));
                            oop_test.brand := VStr [] |}),
           w')
        /\ drops (log w') = drops (log w)
  | Ok item_detail =>
      forall brand,
        oop_test.extract_brand item_detail = Ok brand ->
        exists w',
          oop_test.parse_product self product_data w
          = (Returns (Some {| oop_test.id := product_id;
                              oop_test.name := name;
                              oop_test.regular_price :=
                                oop_test.py_or regular
                                  (VFloat (S754_zero false));
                              oop_test.promo_price :=
                                oop_test.py_or promo
                                  (VFloat (S754_zero false));
                              oop_test.brand :=
                                oop_test.py_or brand (VStr []) |}),
             w')
  end.
Proof.
  intros Hprices Hreg Hregular Hprice Hpromo Hid Htruthy Hname.
  unfold oop_test.parse_product, oop_test.get_product_details.
  unfold_M; cbn. rewrite Hprices, Hreg, Hregular, Hprice, Hpromo, Hid.
  cbn. rewrite Htruthy. cbn.
  destruct (oop_test.session (oop_test.api self) _ product_id)
    as [item_detail|e].
  - intros brand Hbrand. rewrite Hbrand, Hname. eexists; reflexivity.
  - cbn. rewrite Hname. eexists; split; [reflexivity|].
    simpl_world. rewrite drops_app. cbn. lia.
Qed.

Lemma parse_product_falsy_id self product_data v w :
  py_get product_data (pystr "id") VNone = Ok v ->
  truthy v = false ->
  exists w', oop_test.parse_product self product_data w = (Returns None, w').
Proof.
  intros Hid Hfalsy.
  destruct (oop_test.parse_product self product_data w) as [r w'] eqn:Hrun.
  destruct (parse_product_account _ _ _ _ _ Hrun) as (result & -> & _ & Hsome).
  exists w'. destruct result as [p|]; [|reflexivity].
  destruct (Hsome p eq_refl) as [Htruthy Hid'].
  rewrite Hid in Hid'. injection Hid' as ->. congruence.
Qed.

(** What [parse_product] asked of the detail endpoint, and what the record
    it built owes to the answer. *)
Lemma parse_product_detail self product_data w r w' :
  oop_test.parse_product self product_data w = (r, w') ->
  (detail_requests w' = detail_requests w
   /\ forall p, r <> Returns (Some p))
  \/ exists product_id,
       py_get product_data (pystr "id") VNone = Ok product_id
       /\ truthy product_id = true
       /\ detail_requests w' = detail_requests w ++ [product_id]
       /\ forall p,
            r = Returns (Some p) ->
            oop_test.id p = product_id
            /\ py_get product_data (pystr "name") (VStr [])
               = Ok (oop_test.name p)
            /\ match oop_test.session (oop_test.api self)
                       (List.length (detail_requests w)) product_id with
               | Raise _ => oop_test.brand p = VStr []
               | Ok item_detail =>
                   exists brand,
                     oop_test.extract_brand item_detail = Ok brand
                     /\ oop_test.brand p = oop_test.py_or brand (VStr [])
               end.
Proof.
  intros H. unfold oop_test.parse_product, oop_test.get_product_details in H.
  run_in H; pair_inv H; simpl_world;
    try (left; split; [reflexivity | discriminate]);
    right; eexists; (split; [reflexivity|]);
    (split; [now apply negb_false_iff|]);
    (split; [reflexivity|]);
    intros p Hp; try discriminate; injection Hp as <-;
    cbn [oop_test.id oop_test.name oop_test.brand];
    (split; [reflexivity|]); (split; [reflexivity|]);
    match goal with
    | H : oop_test.session _ _ _ = _ |- _ => rewrite H
    end;
    first [reflexivity | eexists; split; [eassumption | reflexivity]].
Qed.

Lemma progress_line_world completed total w r w' :
  (if completed mod 10 =? 0
   then logger INFO (Progress completed total)
   else ret tt) w = (r, w') ->
  r = Returns tt /\ detail_requests w' = detail_requests w.
Proof.
  destruct (completed mod 10 =? 0); intros H; pair_inv H; now split.
Qed.

Lemma collect_results_detail parser products order :
  forall results completed w r w',
    oop_test.collect_results parser products order results completed w
    = (r, w') ->
    exists ds,
      detail_requests w' = detail_requests w ++ ds
      /\ Forall (asked_for products) ds
      /\ (List.length ds <= List.length order)%nat
      /\ forall results',
           r = Returns results' ->
           (List.length results' <= List.length results + List.length ds)%nat
           /\ forall p,
                In p results' ->
                In p results
                \/ (In (oop_test.id p) ds
                    /\ exists product,
                         In product products
                         /\ py_get product (pystr "id") VNone
                            = Ok (oop_test.id p)
                         /\ py_get product (pystr "name") (VStr [])
                            = Ok (oop_test.name p)).
Proof.
  induction order as [|i order IH]; intros results completed w r w' H;
    cbn [oop_test.collect_results] in H.
  - pair_inv H. exists []. rewrite app_nil_r.
    split; [reflexivity|]. split; [constructor|]. split; [cbn; lia|].
    intros results' Hr. injection Hr as <-. split; [lia | now left].
  - destruct (nth_error products i) as [product|] eqn:Hi.
    2:{ destruct (IH _ _ _ _ _ H) as (ds & Hds & Hall & Hcount & Hres).
        exists ds. repeat split; try assumption; [cbn; lia | |];
          now apply Hres. }
    apply nth_error_In in Hi.
    apply bind_inv in H
      as [(result & w1 & Hparse & H) | [(e & Hparse & _) | [Hparse _]]];
      [| now destruct (parse_product_account _ _ _ _ _ Hparse)
             as (? & ? & _)
       | now destruct (parse_product_account _ _ _ _ _ Hparse)
             as (? & ? & _)].
    apply bind_inv in H
      as [([] & w2 & Hline & H) | [(e & Hline & _) | [Hline _]]];
      [| now apply progress_line_world in Hline as [? _]
       | now apply progress_line_world in Hline as [? _]].
    apply progress_line_world in Hline as [_ Hw2].
    destruct (IH _ _ _ _ _ H) as (ds & Hds & Hall & Hcount & Hres).
    rewrite Hw2 in Hds.
    destruct (parse_product_detail _ _ _ _ _ Hparse)
      as [[Hsame Hnone]
         | (product_id & Hid & Htruthy & Hasked & Hrecord)].
    + destruct result as [p|]; [now destruct (Hnone p)|].
      exists ds. rewrite Hds, Hsame.
      repeat split; try assumption; [cbn; lia | |]; now apply Hres.
    + exists (product_id :: ds). rewrite Hds, Hasked, <- app_assoc.
      split; [reflexivity|]. split.
      { constructor; [|assumption]. split; [assumption|].
        now exists product. }
      split; [cbn; lia|].
      intros results' ->. destruct (Hres _ eq_refl) as [Hlen Hfrom].
      split.
      { destruct result; rewrite ?length_app in Hlen; cbn in *; lia. }
      intros p Hp. destruct (Hfrom p Hp) as [Hin | [Hin Hproduct]].
      * destruct result as [q|]; [|now left].
        apply in_app_or in Hin as [Hin | [<- | []]]; [now left|].
        right. destruct (Hrecord q eq_refl) as (Hq & Hname & _).
        split; [left; now symmetry|].
        exists product. now rewrite Hq.
      * right. split; [now right | assumption].
Qed.

(** [parse_product] on an item whose prices, identifier and name can be
    read and whose identifier is true: one detail request, and the
    record with the brand of what the request brought. *)
Lemma parse_product_sent self product_data w
  prices price_regular regular price promo product_id name :
  py_get product_data (pystr "prices") (VDict []) = Ok prices ->
  py_get prices (pystr "priceRegular") VNone = Ok price_regular ->
  oop_test.to_roubles price_regular = Ok regular ->
  py_get prices (pystr "price") VNone = Ok price ->
  oop_test.to_roubles price = Ok promo ->
  py_get product_data (pystr "id") VNone = Ok product_id ->
  truthy product_id = true ->
  py_get product_data (pystr "name") (VStr []) = Ok name ->
  exists result w',
    oop_test.parse_product self product_data w = (Returns result, w')
    /\ detail_requests w' = detail_requests w ++ [product_id]
    /\ forall brand,
         oop_test.extract_brand
           (detail_of (oop_test.session (oop_test.api self)
                         (List.length (detail_requests w)) product_id))
         = Ok brand ->
         result
         = Some {| oop_test.id := product_id;
                   oop_test.name := name;
                   oop_test.regular_price :=
                     oop_test.py_or regular (VFloat (S754_zero false));
                   oop_test.promo_price :=
                     oop_test.py_or promo (VFloat (S754_zero false));
                   oop_test.brand := oop_test.py_or brand (VStr []) |}.
Proof.
  intros Hprices Hreg Hregular Hprice Hpromo Hid Htruthy Hname.
  unfold oop_test.parse_product, oop_test.get_product_details.
  unfold_M; cbn. rewrite Hprices, Hreg, Hregular, Hprice, Hpromo, Hid.
  cbn. rewrite Htruthy. cbn.
  destruct (oop_test.session (oop_test.api self) _ product_id)
    as [item_detail|e]; cbn [detail_of].
  - destruct (oop_test.extract_brand item_detail) as [found|e];
      cbn; rewrite ?Hname; eexists _, _;
      (split; [reflexivity|]); simpl_world; (split; [reflexivity|]);
      intros brand Hbrand; [now injection Hbrand as <- | discriminate].
  - cbn. rewrite Hname. eexists _, _. split; [reflexivity|].
    simpl_world. split; [reflexivity|].
    intros brand Hbrand. now injection Hbrand as <-.
Qed.

(** The loop over the completed tasks keeps what it has and adds the
    record of every item whose fields can be read, with the brand of
    what its detail request brought. *)
Lemma collect_results_kept parser products order :
  forall results completed w results' w',
    oop_test.collect_results parser products order results completed w
    = (Returns results', w') ->
    (forall r, In r results -> In r results')
    /\ forall i product_data prices price_regular regular price promo
              product_id name item_detail brand,
         In i order ->
         nth_error products i = Some product_data ->
         py_get product_data (pystr "prices") (VDict []) = Ok prices ->
         py_get prices (pystr "priceRegular") VNone = Ok price_regular ->
         oop_test.to_roubles price_regular = Ok regular ->
         py_get prices (pystr "price") VNone = Ok price ->
         oop_test.to_roubles price = Ok promo ->
         py_get product_data (pystr "id") VNone = Ok product_id ->
         truthy product_id = true ->
         py_get product_data (pystr "name") (VStr []) = Ok name ->
         (forall n,
             (List.length (detail_requests w) <= n)%nat ->
             nth_error (detail_requests w') n = Some product_id ->
             detail_of (oop_test.session (oop_test.api parser) n product_id)
             = item_detail) ->
         oop_test.extract_brand item_detail = Ok brand ->
         In {| oop_test.id := product_id;
               oop_test.name := name;
               oop_test.regular_price :=
                 oop_test.py_or regular (VFloat (S754_zero false));
               oop_test.promo_price :=
                 oop_test.py_or promo (VFloat (S754_zero false));
               oop_test.brand := oop_test.py_or brand (VStr []) |}
           results'.
Proof.
  induction order as [|i order IH]; intros results completed w results' w' H;
    cbn [oop_test.collect_results] in H.
  - pair_inv H. split; [auto|]. intros; contradiction.
  - destruct (nth_error products i) as [product|] eqn:Hi.
    2:{ destruct (IH _ _ _ _ _ H) as [Hmono Hkept]. split; [exact Hmono|].
        intros i0 product_data prices price_regular regular price promo
          product_id name item_detail brand [<- | Hin] Hnth; [congruence|].
        now apply (Hkept i0 product_data prices price_regular regular price
                     promo product_id name item_detail brand Hin Hnth). }
    apply bind_inv in H
      as [(result & w1 & Hparse & H) | [(e & Hparse & _) | [Hparse _]]];
      [| now destruct (parse_product_account _ _ _ _ _ Hparse)
             as (? & ? & _)
       | now destruct (parse_product_account _ _ _ _ _ Hparse)
             as (? & ? & _)].
    apply bind_inv in H
      as [([] & w2 & Hline & H) | [(e & Hline & _) | [Hline _]]];
      [| now apply progress_line_world in Hline as [? _]
       | now apply progress_line_world in Hline as [? _]].
    apply progress_line_world in Hline as [_ Hw2].
    destruct (collect_results_detail _ _ _ _ _ _ _ _ H) as (ds & Hds & _).
    destruct (IH _ _ _ _ _ H) as [Hmono Hkept].
    rewrite Hw2 in Hds.
    assert (Hgrows : exists d1, detail_requests w1 = detail_requests w ++ d1).
    { destruct (parse_product_detail _ _ _ _ _ Hparse)
        as [[-> _] | (d & _ & _ & -> & _)];
        [exists []; now rewrite app_nil_r | now exists [d]]. }
    destruct Hgrows as (d1 & Hd1).
    split.
    { intros r Hr. apply Hmono. destruct result; [|assumption].
      apply in_or_app. now left. }
    intros i0 product_data prices price_regular regular price promo
      product_id name item_detail brand [<- | Hin] Hnth Hprices Hreg
      Hregular Hprice Hpromo Hid Htruthy Hname Hsent Hbrand.
    + rewrite Hi in Hnth. injection Hnth as ->.
      destruct (parse_product_sent parser product_data w _ _ _ _ _ _ _
                  Hprices Hreg Hregular Hprice Hpromo Hid Htruthy Hname)
        as (result' & w1' & Hparse' & Hasked & Hrecord).
      rewrite Hparse in Hparse'. injection Hparse' as <- <-.
      assert (Hasked' : nth_error (detail_requests w')
                          (List.length (detail_requests w))
                        = Some product_id).
      { rewrite Hds, Hasked, <- app_assoc, nth_error_app2, Nat.sub_diag
          by lia.
        reflexivity. }
      rewrite <- (Hsent _ (Nat.le_refl _) Hasked') in Hbrand.
      rewrite (Hrecord brand Hbrand) in Hmono.
      apply Hmono, in_or_app. right. now left.
    + apply (Hkept i0 product_data prices price_regular regular price
               promo product_id name item_detail brand Hin Hnth);
        try assumption.
      intros n Hn. apply Hsent.
      rewrite Hw2, Hd1, length_app in Hn. lia.
Qed.
(** The run with a pool keeps the record of every item whose fields can
    be read, with the brand of what its detail requests brought. *)
Lemma process_products_parallel_kept products parser max_workers order w
  results w' :
  0 < max_workers ->
  Permutation order (seq 0 (List.length products)) ->
  oop_test.process_products_parallel products parser max_workers order w
  = (Returns results, w') ->
  forall product_data prices price_regular regular price promo
         product_id name item_detail brand,
    In product_data products ->
    py_get product_data (pystr "prices") (VDict []) = Ok prices ->
    py_get prices (pystr "priceRegular") VNone = Ok price_regular ->
    oop_test.to_roubles price_regular = Ok regular ->
    py_get prices (pystr "price") VNone = Ok price ->
    oop_test.to_roubles price = Ok promo ->
    py_get product_data (pystr "id") VNone = Ok product_id ->
    truthy product_id = true ->
    py_get product_data (pystr "name") (VStr []) = Ok name ->
    (forall n,
        (List.length (detail_requests w) <= n)%nat ->
        nth_error (detail_requests w') n = Some product_id ->
        detail_of (oop_test.session (oop_test.api parser) n product_id)
        = item_detail) ->
    oop_test.extract_brand item_detail = Ok brand ->
    In {| oop_test.id := product_id;
          oop_test.name := name;
          oop_test.regular_price :=
            oop_test.py_or regular (VFloat (S754_zero false));
          oop_test.promo_price :=
            oop_test.py_or promo (VFloat (S754_zero false));
          oop_test.brand := oop_test.py_or brand (VStr []) |}
      results.
Proof.
  intros Hpool Horder Hrun product_data prices price_regular regular price
    promo product_id name item_detail brand Hin.
  rewrite process_products_parallel_eq in Hrun by assumption.
  apply bind_inv in Hrun
    as [([] & w1 & Hline & Hrun) | [(e & _ & ?) | [_ ?]]];
    try discriminate.
  unfold logger in Hline. pair_inv Hline.
  apply bind_inv in Hrun
    as [(results1 & w2 & Hcollect & Hrun) | [(e & _ & ?) | [_ ?]]];
    try discriminate.
  unfold bind, logger, ret in Hrun. pair_inv Hrun.
  destruct (In_nth_error _ _ Hin) as (i & Hi).
  assert (Hi' : In i order).
  { apply (Permutation_in _ (Permutation_sym Horder)), in_seq.
    pose proof (proj1 (nth_error_Some products i)) as Hlt.
    rewrite Hi in Hlt. specialize (Hlt ltac:(discriminate)). lia. }
  destruct (collect_results_kept _ _ _ _ _ _ _ _ Hcollect) as [_ Hkept].
  exact (Hkept i product_data prices price_regular regular price promo
           product_id name item_detail brand Hi' Hi).
Qed.

(** C5 (as the code has it). With a pool of at least one worker the run
    succeeds for every input and every completion order; an item is
    either in the output, with an identifier that is true, or reported
    in the log as dropped (no identifier, or an exception while it was
    parsed), so the output size is the input size minus the items
    reported. An item whose detail requests fail is not dropped: its
    record is in the output, with an empty brand; and an item whose
    detail requests are answered has its record in the output, with the
    brand of the answer, whatever became of the other items. Without a
    worker the pool is not built and the run raises [ValueError] before
    any item is parsed. *)
Theorem process_products_parallel_output
  (products : list value) (parser : oop_test.ProductParser)
  (max_workers : Z) (order : list nat) (w : world) :
  Permutation order (seq 0 (List.length products)) ->
  (0 < max_workers ->
   exists results w',
     oop_test.process_products_parallel products parser max_workers order w
     = (Returns results, w')
     /\ (List.length results + drops (log w')
         = List.length products + drops (log w))%nat
     /\ (forall r, In r results -> truthy (oop_test.id r) = true)
     /\ (forall product_data prices price_regular regular price promo
                product_id name,
           In product_data products ->
           py_get product_data (pystr "prices") (VDict []) = Ok prices ->
           py_get prices (pystr "priceRegular") VNone = Ok price_regular ->
           oop_test.to_roubles price_regular = Ok regular ->
           py_get prices (pystr "price") VNone = Ok price ->
           oop_test.to_roubles price = Ok promo ->
           py_get product_data (pystr "id") VNone = Ok product_id ->
           truthy product_id = true ->
           py_get product_data (pystr "name") (VStr []) = Ok name ->
           (forall n,
               (List.length (detail_requests w) <= n)%nat ->
               nth_error (detail_requests w') n = Some product_id ->
               exists e,
                 oop_test.session (oop_test.api parser) n product_id
                 = Raise e) ->
           In {| oop_test.id := product_id;
                 oop_test.name := name;
                 oop_test.regular_price :=
                   oop_test.py_or regular (VFloat (S754_zero false));
                 oop_test.promo_price :=
                   oop_test.py_or promo (VFloat (S754_zero false));
                 oop_test.brand := VStr [] |}
             results)
     /\ (forall product_data prices price_regular regular price promo
                product_id name item_detail brand,
           In product_data products ->
           py_get product_data (pystr "prices") (VDict []) = Ok prices ->
           py_get prices (pystr "priceRegular") VNone = Ok price_regular ->
           oop_test.to_roubles price_regular = Ok regular ->
           py_get prices (pystr "price") VNone = Ok price ->
           oop_test.to_roubles price = Ok promo ->
           py_get product_data (pystr "id") VNone = Ok product_id ->
           truthy product_id = true ->
           py_get product_data (pystr "name") (VStr []) = Ok name ->
           (forall n,
               (List.length (detail_requests w) <= n)%nat ->
               nth_error (detail_requests w') n = Some product_id ->
               oop_test.session (oop_test.api parser) n product_id
               = Ok item_detail) ->
           oop_test.extract_brand item_detail = Ok brand ->
           In {| oop_test.id := product_id;
                 oop_test.name := name;
                 oop_test.regular_price :=
                   oop_test.py_or regular (VFloat (S754_zero false));
                 oop_test.promo_price :=
                   oop_test.py_or promo (VFloat (S754_zero false));
                 oop_test.brand := oop_test.py_or brand (VStr []) |}
             results))
  /\ (max_workers <= 0 ->
      exists w',
        oop_test.process_products_parallel products parser max_workers
          order w = (Raises ValueError, w')
        /\ detail_requests w' = detail_requests w
        /\ drops (log w') = drops (log w))
  /\ (forall product_data w0,
        py_get product_data (pystr "id") VNone = Ok VNone ->
        exists w1,
          oop_test.parse_product parser product_data w0
          = (Returns None, w1)).
Proof.
  intros Hperm. split; [|split].
  - intros Hpool.
    destruct (process_products_parallel_account products parser max_workers
                order w Hpool Hperm) as (results & w' & Hrun & Hcount & Hids).
    exists results, w'. split; [exact Hrun|]. split; [exact Hcount|].
    split; [exact Hids|]. split.
    + intros product_data prices price_regular regular price promo
        product_id name Hin Hprices Hreg Hregular Hprice Hpromo Hid Htruthy
        Hname Hfail.
      apply (process_products_parallel_kept products parser max_workers
               order w results w' Hpool Hperm Hrun product_data prices
               price_regular regular price promo product_id name VNone
               VNone Hin Hprices Hreg Hregular Hprice Hpromo Hid Htruthy
               Hname);
        [|reflexivity].
      intros n Hn Hsent. destruct (Hfail n Hn Hsent) as (e & ->).
      reflexivity.
    + intros product_data prices price_regular regular price promo
        product_id name item_detail brand Hin Hprices Hreg Hregular Hprice
        Hpromo Hid Htruthy Hname Hanswered Hbrand.
      apply (process_products_parallel_kept products parser max_workers
               order w results w' Hpool Hperm Hrun product_data prices
               price_regular regular price promo product_id name
               item_detail brand Hin Hprices Hreg Hregular Hprice Hpromo
               Hid Htruthy Hname);
        [|exact Hbrand].
      intros n Hn Hsent. now rewrite (Hanswered n Hn Hsent).
  - intros Hpool.
    rewrite process_products_parallel_no_pool by assumption.
    eexists. split; [reflexivity|]. simpl_world.
    split; [reflexivity|]. rewrite drops_app. cbn. lia.
  - intros product_data w0 Hid.
    now apply parse_product_falsy_id with (v := VNone).
Qed.

(** Three items, the first with a failing detail request, the second
    without identifier, completed in the order third, first, second: two
    records and one report; the first item is there without a brand and
    the third with its brand. *)
Lemma process_products_parallel_output_example :
  (exists results w',
      oop_test.process_products_parallel
        [product_with_id (Some (VInt 7)); product_with_id None;
         product_with_id (Some (VInt 8))]
        (parser_of down_for_7) 2 [2; 0; 1]%nat empty_world
      = (Returns results, w')
      /\ (List.length results + drops (log w') = 3 + 0)%nat
      /\ (forall r, In r results -> truthy (oop_test.id r) = true)
      /\ In {| oop_test.id := VInt 7;
               oop_test.name := VStr (pystr "PEPSI MAX");
               oop_test.regular_price := VFloat (Prim2SF 129.99%float);
               oop_test.promo_price := VFloat (Prim2SF 99.9%float);
               oop_test.brand := VStr [] |} results
      /\ In {| oop_test.id := VInt 8;
               oop_test.name := VStr (pystr "PEPSI MAX");
               oop_test.regular_price := VFloat (Prim2SF 129.99%float);
               oop_test.promo_price := VFloat (Prim2SF 99.9%float);
               oop_test.brand := VStr (pystr "Pepsi") |} results)
  /\ (exists w1,
        oop_test.parse_product (parser_of down_for_7)
          (product_with_id None) empty_world = (Returns None, w1)).
Proof.
  pose proof (process_products_parallel_output
                [product_with_id (Some (VInt 7)); product_with_id None;
                 product_with_id (Some (VInt 8))]
                (parser_of down_for_7) 2 [2; 0; 1]%nat empty_world
                (Permutation_cons_append [0; 1]%nat 2%nat))
    as (Hrun & _ & Hmissing).
  split; [|exact (Hmissing (product_with_id None) empty_world eq_refl)].
  destruct (Hrun ltac:(lia))
    as (results & w' & Hreturns & Hcount & Hids & Hfailed & Hanswered).
  exists results, w'. split; [exact Hreturns|]. split; [exact Hcount|].
  split; [exact Hids|]. split.
  - apply (Hfailed (product_with_id (Some (VInt 7)))
             (VDict [(pystr "priceRegular", VInt 12999);
                     (pystr "price", VInt 9990)])
             (VInt 12999) (VFloat (Prim2SF 129.99%float))
             (VInt 9990) (VFloat (Prim2SF 99.9%float))
             (VInt 7) (VStr (pystr "PEPSI MAX"))
             (or_introl eq_refl)
             eq_refl eq_refl eq_refl eq_refl eq_refl eq_refl eq_refl
             eq_refl).
    intros n _ _. now exists ClientError.
  - apply (Hanswered (product_with_id (Some (VInt 8)))
             (VDict [(pystr "priceRegular", VInt 12999);
                     (pystr "price", VInt 9990)])
             (VInt 12999) (VFloat (Prim2SF 129.99%float))
             (VInt 9990) (VFloat (Prim2SF 99.9%float))
             (VInt 8) (VStr (pystr "PEPSI MAX"))
             (VDict [(pystr "attributes",
                      VList [VDict [(pystr "alias", VStr (pystr "brand"));
                                    (pystr "value",
                                     VStr (pystr "Pepsi"))]])])
             (VStr (pystr "Pepsi"))
             (or_intror (or_intror (or_introl eq_refl)))
             eq_refl eq_refl eq_refl eq_refl eq_refl eq_refl eq_refl
             eq_refl);
      [intros n _ _; reflexivity | reflexivity].
Defined.

(** C5 as the specification words it does not hold: the item whose detail
    request fails is in the output, and the output is not smaller for
    it. *)
Lemma failed_detail_request_keeps_item :
  exists results w',
    oop_test.process_products_parallel
      [product_with_id (Some (VInt 7)); product_with_id (Some (VInt 8))]
      (parser_of down_for_7) 2 [0; 1]%nat empty_world
    = (Returns results, w')
    /\ map oop_test.id results = [VInt 7; VInt 8]
    /\ map oop_test.brand results = [VStr []; VStr (pystr "Pepsi")].
Proof.
  eexists _, _. split; [vm_compute; reflexivity|]. split; reflexivity.
Qed.

(** C9. An item whose identifier is present but false (the integer 0, an
    empty string) fares as an item without identifier: [parse_product]
    returns no record for it, and no record of the output carries such an
    identifier. *)
Theorem falsy_identifier_dropped
  (parser : oop_test.ProductParser) (product_data v : value) (w : world) :
  py_get product_data (pystr "id") VNone = Ok v ->
  truthy v = false ->
  (exists w',
      oop_test.parse_product parser product_data w = (Returns None, w'))
  /\ (forall products max_workers order w0 results w1,
        Permutation order (seq 0 (List.length products)) ->
        oop_test.process_products_parallel products parser max_workers
          order w0 = (Returns results, w1) ->
        forall r, In r results -> oop_test.id r <> v).
Proof.
  intros Hid Hfalsy. split.
  - now apply parse_product_falsy_id with (v := v).
  - intros products max_workers order w0 results w1 Hperm Hrun r Hr Heq.
    destruct (Z_lt_le_dec 0 max_workers) as [Hpool | Hpool];
      [|now rewrite process_products_parallel_no_pool in Hrun].
    destruct (process_products_parallel_account products parser max_workers
                order w0 Hpool Hperm) as (results' & w' & Hrun' & _ & Hin).
    rewrite Hrun in Hrun'. injection Hrun' as <- <-.
    specialize (Hin r Hr). congruence.
Qed.

(** Identifier 0, identifier "", and no identifier at all. *)
Lemma falsy_identifier_dropped_examples :
  (exists w',
      oop_test.parse_product (parser_of down_for_7)
        (product_with_id (Some (VInt 0))) empty_world = (Returns None, w'))
  /\ (exists w',
        oop_test.parse_product (parser_of down_for_7)
          (product_with_id (Some (VStr []))) empty_world
        = (Returns None, w'))
  /\ (exists w',
        oop_test.parse_product (parser_of down_for_7)
          (product_with_id None) empty_world = (Returns None, w')).
Proof.
  split; [|split].
  - exact (proj1 (falsy_identifier_dropped (parser_of down_for_7)
                    (product_with_id (Some (VInt 0))) (VInt 0) empty_world
                    eq_refl eq_refl)).
  - exact (proj1 (falsy_identifier_dropped (parser_of down_for_7)
                    (product_with_id (Some (VStr []))) (VStr []) empty_world
                    eq_refl eq_refl)).
  - exact (proj1 (falsy_identifier_dropped (parser_of down_for_7)
                    (product_with_id None) VNone empty_world
                    eq_refl eq_refl)).
Defined.

(** ** Prices *)

(** The quotient of a non-negative integer by 100 is not a negative
    zero. *)
Lemma float_div_zero_sign (p : Z) (s : bool) :
  0 <= p ->
  float_div (float_of_Z p) (float_of_Z 100) = S754_zero s -> s = false.
Proof.
  intros Hp. destruct p as [|p|p]; [| |lia].
  - cbn. congruence.
  - unfold float_div, float_of_Z, SFdiv.
    destruct (SFdiv_core_binary 53 1024 (Z.pos p) 0 100 0) as [[mz ez] lz].
    unfold binary_round_aux.
    destruct (shr_fexp 53 1024 mz ez lz) as [mrs e'].
    destruct (shr_fexp 53 1024 _ e' loc_Exact) as [mrs' e''].
    destruct (shr_m mrs'); [|destruct (e'' <=? 1024 - 53)|]; cbn;
      congruence.
Qed.

Lemma truediv_or_zero (p : Z) (q : value) :
  0 <= p ->
  py_truediv (VInt p) 100 = Ok q ->
  oop_test.py_or q (VFloat (S754_zero false)) = q.
Proof.
  intros Hp H. unfold py_truediv in H.
  destruct (float_div (float_of_Z p) (float_of_Z 100)) as [s| | |] eqn:Hdiv;
    try discriminate; injection H as <-; try reflexivity.
  now rewrite (float_div_zero_sign p s Hp Hdiv).
Qed.

(** The steps by which [parse_product] came to a record. *)
Lemma parse_product_some self product_data w p w' :
  oop_test.parse_product self product_data w = (Returns (Some p), w') ->
  exists prices price_regular regular price promo,
    py_get product_data (pystr "prices") (VDict []) = Ok prices
    /\ py_get prices (pystr "priceRegular") VNone = Ok price_regular
    /\ oop_test.to_roubles price_regular = Ok regular
    /\ py_get prices (pystr "price") VNone = Ok price
    /\ oop_test.to_roubles price = Ok promo
    /\ oop_test.regular_price p
       = oop_test.py_or regular (VFloat (S754_zero false))
    /\ oop_test.promo_price p
       = oop_test.py_or promo (VFloat (S754_zero false)).
Proof.
  intros H. unfold oop_test.parse_product, oop_test.get_product_details in H.
  run_in H; pair_inv H; do 5 eexists; repeat split; eassumption.
Qed.

(** The steps by which [format_product] came to a record. *)
Lemma format_product_ok `{U : UnicodeData} item rec :
  main.format_product item = Ok rec ->
  exists id name prices price_regular regular price promo brand,
    py_getitem item (pystr "id") = Ok id
    /\ py_get item (pystr "name") (VStr []) = Ok name
    /\ py_getitem item (pystr "prices") = Ok prices
    /\ py_getitem prices (pystr "priceRegular") = Ok price_regular
    /\ py_truediv price_regular 100 = Ok regular
    /\ py_getitem prices (pystr "price") = Ok price
    /\ py_truediv price 100 = Ok promo
    /\ main._extract_brand item = Ok brand
    /\ rec = VDict [(pystr "id", id);
                    (pystr "name", name);
                    (pystr "regular_price", regular);
                    (pystr "promo_price", promo);
                    (pystr "brand", brand)].
Proof.
  intros H. unfold main.format_product in H. unfold rbind in H.
  destruct (py_getitem item (pystr "id")) as [id|] eqn:Hid; [|discriminate].
  destruct (py_get item (pystr "name") (VStr [])) as [name|] eqn:Hname;
    [|discriminate].
  destruct (py_getitem item (pystr "prices")) as [prices|] eqn:Hprices;
    [|discriminate].
  destruct (py_getitem prices (pystr "priceRegular")) as [pr|] eqn:Hpr;
    [|discriminate].
  destruct (py_truediv pr 100) as [regular|] eqn:Hreg; [|discriminate].
  destruct (py_getitem prices (pystr "price")) as [pp|] eqn:Hpp;
    [|discriminate].
  destruct (py_truediv pp 100) as [promo|] eqn:Hpromo; [|discriminate].
  destruct (main._extract_brand item) as [brand|] eqn:Hbrand;
    [|discriminate].
  injection H as <-. exists id, name, prices, pr, regular, pp, promo, brand.
  repeat split; assumption.
Qed.

(** C6. In both pipelines a price present on an item is divided by 100
    (12999 gives 129.99, the binary64 number written 129.99); in the
    detail pipeline a price that is missing gives 0.0. Prices are the
    non-negative integers of the data model. *)
Theorem prices_divided_by_100 `{U : UnicodeData} :
  (forall item rec prices price_regular price,
      main.format_product item = Ok rec ->
      py_getitem item (pystr "prices") = Ok prices ->
      py_getitem prices (pystr "priceRegular") = Ok price_regular ->
      py_getitem prices (pystr "price") = Ok price ->
      exists regular promo,
        py_truediv price_regular 100 = Ok regular
        /\ py_truediv price 100 = Ok promo
        /\ py_getitem rec (pystr "regular_price") = Ok regular
        /\ py_getitem rec (pystr "promo_price") = Ok promo)
  /\ (forall parser product_data w p w' prices,
        oop_test.parse_product parser product_data w
        = (Returns (Some p), w') ->
        py_get product_data (pystr "prices") (VDict []) = Ok prices ->
        (forall n, 0 <= n ->
           py_get prices (pystr "priceRegular") VNone = Ok (VInt n) ->
           py_truediv (VInt n) 100 = Ok (oop_test.regular_price p))
        /\ (forall n, 0 <= n ->
              py_get prices (pystr "price") VNone = Ok (VInt n) ->
              py_truediv (VInt n) 100 = Ok (oop_test.promo_price p))
        /\ (py_get prices (pystr "priceRegular") VNone = Ok VNone ->
            oop_test.regular_price p = VFloat (S754_zero false))
        /\ (py_get prices (pystr "price") VNone = Ok VNone ->
            oop_test.promo_price p = VFloat (S754_zero false)))
  /\ py_truediv (VInt 12999) 100 = Ok (VFloat (Prim2SF 129.99%float)).
Proof.
  split; [|split; [|reflexivity]].
  - intros item rec prices price_regular price Hfmt Hprices Hreg Hprice.
    destruct (format_product_ok item rec Hfmt)
      as (id & name & prices' & pr & regular & pp & promo & brand & _ & _
          & Hprices' & Hreg' & Hregular & Hprice' & Hpromo & _ & ->).
    rewrite Hprices in Hprices'. injection Hprices' as <-.
    rewrite Hreg in Hreg'. injection Hreg' as <-.
    rewrite Hprice in Hprice'. injection Hprice' as <-.
    exists regular, promo. repeat split; assumption || reflexivity.
  - intros parser product_data w p w' prices Hrun Hprices.
    destruct (parse_product_some _ _ _ _ _ Hrun)
      as (prices' & pr & regular & pp & promo & Hprices' & Hreg & Hregular
          & Hprice & Hpromo & -> & ->).
    rewrite Hprices in Hprices'. injection Hprices' as <-.
    repeat split.
    + intros n Hn Hpresent. rewrite Hreg in Hpresent.
      injection Hpresent as ->. cbn in Hregular.
      now rewrite (truediv_or_zero n regular Hn Hregular).
    + intros n Hn Hpresent. rewrite Hprice in Hpresent.
      injection Hpresent as ->. cbn in Hpromo.
      now rewrite (truediv_or_zero n promo Hn Hpromo).
    + intros Hmissing. rewrite Hreg in Hmissing. injection Hmissing as ->.
      cbn in Hregular. now injection Hregular as <-.
    + intros Hmissing. rewrite Hprice in Hmissing. injection Hmissing as ->.
      cbn in Hpromo. now injection Hpromo as <-.
Qed.

(** 12999 in both pipelines, and a missing price block in the detail
    pipeline. *)
Lemma prices_divided_by_100_example :
  (exists rec,
      @main.format_product latin_cyrillic (item 1) = Ok rec
      /\ py_getitem rec (pystr "regular_price")
         = Ok (VFloat (Prim2SF 129.99%float))
      /\ py_getitem rec (pystr "promo_price")
         = Ok (VFloat (Prim2SF 99.9%float)))
  /\ (exists p w',
        oop_test.parse_product (parser_of down_for_7)
          (product_with_id (Some (VInt 7))) empty_world
        = (Returns (Some p), w')
        /\ Ok (oop_test.regular_price p)
           = Ok (VFloat (Prim2SF 129.99%float))
        /\ Ok (oop_test.promo_price p) = Ok (VFloat (Prim2SF 99.9%float)))
  /\ (exists p w',
        oop_test.parse_product (parser_of down_for_7)
          product_without_prices empty_world
        = (Returns (Some p), w')
        /\ oop_test.regular_price p = VFloat (S754_zero false)
        /\ oop_test.promo_price p = VFloat (S754_zero false)).
Proof.
  pose proof (@prices_divided_by_100 latin_cyrillic) as (Hmain & Hoop & _).
  split; [|split].
  - destruct (@main.format_product latin_cyrillic (item 1)) as [rec|e]
      eqn:Hfmt; [|vm_compute in Hfmt; discriminate].
    destruct (Hmain (item 1) rec _ _ _ Hfmt eq_refl eq_refl eq_refl)
      as (regular & promo & Hregular & Hpromo & Hrec1 & Hrec2).
    vm_compute in Hregular. injection Hregular as <-.
    vm_compute in Hpromo. injection Hpromo as <-.
    exists rec. repeat split; assumption.
  - destruct (oop_test.parse_product (parser_of down_for_7)
                (product_with_id (Some (VInt 7))) empty_world)
      as [[[p|]|e|] w'] eqn:Hrun; try (vm_compute in Hrun; discriminate).
    destruct (Hoop _ _ _ _ _ _ Hrun eq_refl) as (Hreg & Hpromo & _ & _).
    exists p, w'. split; [reflexivity|]. split.
    + rewrite <- (Hreg 12999 ltac:(lia) eq_refl). reflexivity.
    + rewrite <- (Hpromo 9990 ltac:(lia) eq_refl). reflexivity.
  - destruct (oop_test.parse_product (parser_of down_for_7)
                product_without_prices empty_world)
      as [[[p|]|e|] w'] eqn:Hrun; try (vm_compute in Hrun; discriminate).
    destruct (Hoop _ _ _ _ _ _ Hrun eq_refl) as (_ & _ & Hreg & Hpromo).
    exists p, w'. split; [reflexivity|].
    split; [exact (Hreg eq_refl) | exact (Hpromo eq_refl)].
Defined.

(** ** Written files *)

Lemma files_get_set fs name content :
  files_get (files_set fs name content) name = Some content.
Proof.
  induction fs as [|[n c] fs IH]; cbn.
  - now rewrite str_eqb_refl.
  - destruct (str_eqb n name) eqn:Hn; cbn; now rewrite Hn.
Qed.

Lemma forallb_not_existsb {A} (f : A -> bool) (l : list A) :
  forallb f l = true -> existsb (fun x => negb (f x)) l = false.
Proof.
  induction l as [|x l IH]; cbn; [reflexivity|].
  intros H; apply andb_true_iff in H as [Hx Hl]. now rewrite Hx, IH.
Qed.

Lemma forallb_firstn {A} (f : A -> bool) (l : list A) (n : nat) :
  forallb f l = true -> forallb f (firstn n l) = true.
Proof.
  revert n; induction l as [|x l IH]; intros [|n] H; cbn in *;
    try reflexivity.
  apply andb_true_iff in H as [Hx Hl]. now rewrite Hx, IH.
Qed.

Lemma forallb_slice_to {A} (f : A -> bool) (l : list A) (n : Z) :
  forallb f l = true -> forallb f (slice_to l n) = true.
Proof. unfold slice_to. destruct (0 <=? n); apply forallb_firstn. Qed.

Lemma dict_to_list_only_fields columns record :
  only_fields columns record = true ->
  main.dict_to_list columns record = Ok (fields_of columns record).
Proof.
  destruct record as [| | | | | |d]; try discriminate. cbn.
  intros H. now rewrite (forallb_not_existsb _ d H).
Qed.

Lemma writerows_file self rows : forall w existing,
  forallb (only_fields (main.fieldnames self)) rows = true ->
  files_get (files w) (main.filename self) = Some existing ->
  exists w',
    main.writerows self rows w = (Returns tt, w')
    /\ files_get (files w') (main.filename self)
       = Some (existing ++ map (fields_of (main.fieldnames self)) rows).
Proof.
  induction rows as [|row rows IH]; intros w existing Hrows Hfile;
    cbn [main.writerows map].
  - exists w. split; [reflexivity | now rewrite app_nil_r].
  - cbn [forallb] in Hrows. apply andb_true_iff in Hrows as [Hrow Hrows].
    unfold bind at 1. unfold lift.
    rewrite (dict_to_list_only_fields _ _ Hrow).
    unfold bind at 1. unfold file_append at 1. rewrite Hfile.
    match goal with
    | |- context [main.writerows self rows ?w1] =>
        destruct (IH w1 (existing ++ [fields_of (main.fieldnames self) row])
                    Hrows) as (w' & Hrun & Hfile')
    end.
    { simpl_world. apply files_get_set. }
    exists w'. split; [exact Hrun|].
    now rewrite Hfile', <- app_assoc.
Qed.

(** [CSVWriter.write_products]: the header and the first 100 records. *)
Lemma write_products_file self products w :
  forallb (only_fields (main.fieldnames self)) (slice_to products 100)
  = true ->
  exists w',
    main.write_products self products w = (Returns tt, w')
    /\ files_get (files w') (main.filename self)
       = Some (map VStr (main.fieldnames self)
               :: map (fields_of (main.fieldnames self))
                    (slice_to products 100)).
Proof.
  intros Hrows. unfold main.write_products, main.write_to_csv.
  unfold bind at 1 2 3 4. unfold logger at 1, file_create at 1,
    file_append at 1.
  simpl_world. rewrite files_get_set. cbn [app].
  unfold bind at 1.
  match goal with
  | |- context [main.writerows self _ ?w1] =>
      destruct (writerows_file self (slice_to products 100) w1
                  [map VStr (main.fieldnames self)] Hrows)
        as (w' & Hrun & Hfile)
  end.
  { simpl_world. apply files_get_set. }
  rewrite Hrun. unfold logger. eexists; split; [reflexivity|].
  simpl_world. exact Hfile.
Qed.

(** A record of [get_products] holds the five columns and nothing else. *)
Lemma format_products_fields `{U : UnicodeData} items : forall products,
  main.format_products items = Ok products ->
  forallb (only_fields config.REQUIRED_COLUMNS) products = true
  /\ Forall (fun record => List.length (fields_of config.REQUIRED_COLUMNS record)
                           = 5%nat
                           /\ exists id name regular promo brand,
                                record
                                = VDict [(pystr "id", id);
                                         (pystr "name", name);
                                         (pystr "regular_price", regular);
                                         (pystr "promo_price", promo);
                                         (pystr "brand", brand)]
                                /\ fields_of config.REQUIRED_COLUMNS record
                                   = [id; name; regular; promo; brand])
       products.
Proof.
  induction items as [|item items IH]; intros products H;
    cbn [main.format_products] in H.
  - injection H as <-. split; [reflexivity | constructor].
  - unfold rbind in H.
    destruct (main.format_product item) as [rec|] eqn:Hrec; [|discriminate].
    destruct (main.format_products items) as [recs|]; [|discriminate].
    injection H as <-. destruct (IH recs eq_refl) as [Honly Hall].
    destruct (format_product_ok item rec Hrec)
      as (id & name & _ & _ & regular & _ & promo & brand & _ & _ & _ & _
          & _ & _ & _ & _ & ->).
    split.
    + cbn [forallb]. now rewrite Honly.
    + constructor; [|assumption]. split; [reflexivity|].
      exists id, name, regular, promo, brand. split; reflexivity.
Qed.

Lemma write_rows_file name rows : forall w existing,
  files_get (files w) name = Some existing ->
  exists w',
    oop_test.write_rows name rows w = (Returns tt, w')
    /\ files_get (files w') name = Some (existing ++ rows)
    /\ log w' = log w.
Proof.
  induction rows as [|row rows IH]; intros w existing Hfile;
    cbn [oop_test.write_rows].
  - exists w. split; [reflexivity|]. now rewrite app_nil_r.
  - unfold bind at 1. unfold file_append at 1. rewrite Hfile.
    match goal with
    | |- context [oop_test.write_rows name rows ?w1] =>
        destruct (IH w1 (existing ++ [row])) as (w' & Hrun & Hfile' & Hlog)
    end.
    { simpl_world. apply files_get_set. }
    exists w'. split; [exact Hrun|].
    split; [now rewrite Hfile', <- app_assoc | exact Hlog].
Qed.

(** [DataSaver.save_products] on a list that is not empty: the header and
    every record. *)
Lemma save_products_file self products w :
  nonempty products = true ->
  exists w',
    oop_test.save_products self products w = (Returns tt, w')
    /\ files_get (files w') (oop_test.filename self)
       = Some (map VStr oop_test.REQUIRED_COLUMNS
               :: map product_row products).
Proof.
  intros Hne. unfold oop_test.save_products, try_except.
  unfold bind at 1. unfold lift.
  assert (Hsel : oop_test.select_columns oop_test.REQUIRED_COLUMNS
                   (map oop_test.vars products)
                 = Ok (map product_row products)).
  { destruct products as [|p products]; [discriminate|].
    unfold oop_test.select_columns. cbn [map]. f_equal. f_equal.
    rewrite map_map. apply map_ext. intros q. reflexivity. }
  rewrite Hsel. unfold bind at 1 2. unfold file_create at 1,
    file_append at 1.
  simpl_world. rewrite files_get_set. cbn [app].
  unfold bind at 1.
  match goal with
  | |- context [oop_test.write_rows _ _ ?w1] =>
      destruct (write_rows_file (oop_test.filename self)
                  (map product_row products) w1
                  [map VStr oop_test.REQUIRED_COLUMNS])
        as (w' & Hrun & Hfile & _)
  end.
  { simpl_world. apply files_get_set. }
  rewrite Hrun. unfold logger. eexists; split; [reflexivity|].
  simpl_world. exact Hfile.
Qed.

(** C8 (as the code has it). Both writers write the header of the five
    columns and, for every record, the five fields in that order; the
    records [get_products] builds hold these five fields and nothing else
    of the raw item. [CSVWriter] writes the first 100 records only;
    [DataSaver] writes every record of a list that is not empty. *)
Theorem csv_five_columns `{U : UnicodeData} :
  (forall filename products w,
      forallb (only_fields config.REQUIRED_COLUMNS) (slice_to products 100)
      = true ->
      exists w',
        main.write_products (main.new_CSVWriter filename) products w
        = (Returns tt, w')
        /\ files_get (files w') filename
           = Some (map VStr config.REQUIRED_COLUMNS
                   :: map (fields_of config.REQUIRED_COLUMNS)
                        (slice_to products 100)))
  /\ (forall items products,
        main.format_products items = Ok products ->
        forallb (only_fields config.REQUIRED_COLUMNS) products = true
        /\ Forall (fun record =>
                     exists id name regular promo brand,
                       record = VDict [(pystr "id", id);
                                       (pystr "name", name);
                                       (pystr "regular_price", regular);
                                       (pystr "promo_price", promo);
                                       (pystr "brand", brand)]
                       /\ fields_of config.REQUIRED_COLUMNS record
                          = [id; name; regular; promo; brand])
             products)
  /\ (forall saver products w,
        nonempty products = true ->
        exists w',
          oop_test.save_products saver products w = (Returns tt, w')
          /\ files_get (files w') (oop_test.filename saver)
             = Some (map VStr oop_test.REQUIRED_COLUMNS
                     :: map product_row products)).
Proof.
  split; [|split].
  - intros filename products w Hrows.
    exact (write_products_file (main.new_CSVWriter filename) products w
             Hrows).
  - intros items products Hfmt.
    destruct (format_products_fields items products Hfmt) as [Honly Hall].
    split; [assumption|].
    eapply Forall_impl; [|exact Hall]. now intros record [_ Hrec].
  - intros saver products w Hne. now apply save_products_file.
Qed.

(** 101 records handed to [CSVWriter]: the header and 100 rows; two
    products handed to [DataSaver]: the header and two rows. *)
Lemma csv_five_columns_example :
  (exists w' rows,
      main.write_products (main.new_CSVWriter (pystr "lenta_москва.csv"))
        (repeat pepsi_record 101) empty_world = (Returns tt, w')
      /\ files_get (files w') (pystr "lenta_москва.csv")
         = Some (map VStr config.REQUIRED_COLUMNS :: rows)
      /\ rows = repeat pepsi_row 100)
  /\ (exists w',
        oop_test.save_products default_saver
          [pepsi_product; pepsi_product] empty_world = (Returns tt, w')
        /\ files_get (files w') (oop_test.filename default_saver)
           = Some (map VStr oop_test.REQUIRED_COLUMNS
                   :: map product_row [pepsi_product; pepsi_product])).
Proof.
  pose proof (@csv_five_columns latin_cyrillic) as (Hmain & _ & Hoop).
  split.
  - destruct (Hmain (pystr "lenta_москва.csv") (repeat pepsi_record 101)
                empty_world ltac:(vm_compute; reflexivity))
      as (w' & Hrun & Hfile).
    exists w'. eexists. split; [exact Hrun|]. split; [exact Hfile|].
    vm_compute. reflexivity.
  - exact (Hoop default_saver
             [pepsi_product; pepsi_product] empty_world eq_refl).
Defined.

(** C8 as the specification words it does not hold: [DataSaver] does not
    truncate, 101 products give 101 rows after the header. *)
Lemma save_products_does_not_truncate :
  exists w' rows,
    oop_test.save_products default_saver (repeat pepsi_product 101)
      empty_world = (Returns tt, w')
    /\ files_get (files w') (oop_test.filename default_saver) = Some rows
    /\ List.length rows = 102%nat.
Proof.
  eexists _, _. split; [vm_compute; reflexivity|].
  split; [vm_compute; reflexivity | reflexivity].
Qed.

(** * Further properties *)

(** ** The requests of a collection (main.py) *)

Section Requests.
Context {U : UnicodeData}.
Variables (self : main.LentaAPI) (store : value) (category_id : Z).
Variable total_needed : Z.

#[local] Abbreviation loop_body :=
  (main.loop_body self store category_id total_needed).
#[local] Abbreviation while_loop fuel :=
  (main.while_loop fuel self store category_id total_needed).
#[local] Abbreviation get_products :=
  (main.get_products self store category_id total_needed).

(** The loop keeps the offset equal to the number of items collected. *)
Lemma loop_body_next_cursor st w st' w' :
  len (main.collected st) < total_needed ->
  main.cursor st = len (main.collected st) ->
  loop_body st w = (Returns (main.Next st'), w') ->
  main.cursor st' = len (main.collected st')
  /\ len (main.collected st) < len (main.collected st').
Proof.
  intros Hguard Hcur Hbody.
  destruct (loop_body_next _ _ _ _ _ _ _ _ Hbody)
    as (p & data & items & count & added & _ & _ & _ & _ & _ & Ht & Hcount
        & Hslice & Hc & Hcur' & Hlt & _).
  pose proof (py_slice_to_nonempty _ _ _ Ht Hslice ltac:(lia)) as Hadded.
  rewrite Hc, len_app in *.
  pose proof (py_slice_to_whole items _ count added Hcount Hslice
                ltac:(lia) ltac:(lia)) as Hwhole.
  lia.
Qed.

(** Whatever its outcome, an iteration sends at most one request, with the
    limit and the offset of its state. *)
Lemma loop_body_request st w r w' :
  loop_body st w = (r, w') ->
  requests w' = requests w
  \/ exists p,
       requests w' = requests w ++ [p]
       /\ limit p = Z.min config.PRODUCTS_PER_STORE
                      (total_needed - len (main.collected st))
       /\ offset p = main.cursor st.
Proof.
  intros Hbody. destruct r as [[st'|st'|v]|e|].
  - destruct (loop_body_next _ _ _ _ _ _ _ _ Hbody)
      as (p & data & items & count & added & Hp & Hl & Ho & _).
    right; now exists p.
  - destruct (loop_body_break _ _ _ _ _ _ _ _ Hbody)
      as (p & data & items & Hp & Hl & Ho & _).
    right; now exists p.
  - destruct (loop_body_return _ _ _ _ _ _ _ _ Hbody)
      as (p & status & json & sid & _ & Hp & Hl & Ho & _).
    right; now exists p.
  - destruct (loop_body_raises _ _ _ _ _ _ _ _ Hbody)
      as (_ & [Hsame | (p & Hp & Hl & Ho & _)]).
    + now left.
    + right; now exists p.
  - now apply loop_body_fuel in Hbody.
Qed.

Lemma while_loop_requests fuel : forall st w r w',
  main.cursor st = len (main.collected st) ->
  while_loop fuel st w = (r, w') ->
  exists ps,
    requests w' = requests w ++ ps
    /\ (List.length ps <= iterations_left total_needed st)%nat
    /\ Forall (asks_for_the_rest total_needed) ps
    /\ Forall (fun p => main.cursor st <= offset p) ps
    /\ ForallOrdPairs Z.lt (map offset ps)
    /\ (forall p, hd_error ps = Some p -> offset p = main.cursor st).
Proof.
  induction fuel as [|fuel IH]; intros st w r w' Hcur;
    rewrite while_loop_eq;
    destruct (len (main.collected st) <? total_needed) eqn:Hguard;
    intros H;
    try (pair_inv H; exists []; rewrite app_nil_r;
         repeat split; try constructor; cbn; try lia; discriminate).
  apply Z.ltb_lt in Hguard.
  destruct (loop_body st w) as [rb w1] eqn:Hbody.
  pose proof (len_nonneg (main.collected st)) as Hnonneg.
  assert (Hone : forall p,
             limit p = Z.min config.PRODUCTS_PER_STORE
                         (total_needed - len (main.collected st)) ->
             offset p = main.cursor st ->
             asks_for_the_rest total_needed p).
  { intros p Hl Ho. unfold asks_for_the_rest.
    rewrite Hl, Ho, Hcur. unfold config.PRODUCTS_PER_STORE. lia. }
  assert (Hleft : (1 <= iterations_left total_needed st)%nat)
    by (unfold iterations_left; lia).
  assert (Hlast : rb <> OutOfFuel -> w' = w1 ->
                  exists ps,
                    requests w' = requests w ++ ps
                    /\ (List.length ps <= iterations_left total_needed st)%nat
                    /\ Forall (asks_for_the_rest total_needed) ps
                    /\ Forall (fun p => main.cursor st <= offset p) ps
                    /\ ForallOrdPairs Z.lt (map offset ps)
                    /\ (forall p, hd_error ps = Some p ->
                                  offset p = main.cursor st)).
  { intros _ ->.
    destruct (loop_body_request _ _ _ _ Hbody) as [Hsame | (p & Hp & Hl & Ho)].
    - exists []. rewrite app_nil_r.
      repeat split; try constructor; try assumption; try (cbn; lia).
      discriminate.
    - exists [p]. repeat split; try assumption; try (cbn; lia).
      + constructor; [now apply Hone | constructor].
      + constructor; [lia | constructor].
      + repeat constructor.
      + cbn. intros q Hq. now injection Hq as <-. }
  destruct rb as [[st'|st'|v]|e|].
  - destruct (loop_body_next_cursor _ _ _ _ Hguard Hcur Hbody)
      as [Hcur' Hgrow].
    destruct (loop_body_request _ _ _ _ Hbody)
      as [Hsame | (p & Hp & Hl & Ho)].
    { destruct (loop_body_next _ _ _ _ _ _ _ _ Hbody)
        as (p & _ & _ & _ & _ & Hp & _).
      rewrite Hsame in Hp. apply (f_equal (@List.length _)) in Hp.
      rewrite length_app in Hp. cbn in Hp. lia. }
    destruct (IH _ _ _ _ Hcur' H)
      as (ps & Hps & Hcount & Hall & Hfrom & Hsorted & _).
    exists (p :: ps). repeat split.
    + rewrite Hps, Hp, <- app_assoc. reflexivity.
    + cbn [List.length]. unfold iterations_left in *. lia.
    + constructor; [now apply Hone | assumption].
    + constructor; [lia|].
      eapply Forall_impl; [|exact Hfrom]. cbn. intros q Hq. lia.
    + cbn [map]. constructor; [|assumption].
      apply Forall_map. eapply Forall_impl; [|exact Hfrom].
      cbn. intros q Hq. lia.
    + cbn. intros q Hq. now injection Hq as <-.
  - pair_inv H. now apply Hlast.
  - pair_inv H. now apply Hlast.
  - pair_inv H. now apply Hlast.
  - now apply loop_body_fuel in Hbody.
Qed.

(** What [get_products] sends, whatever the source answers and however
    the run ends. *)
Lemma get_products_requests_sent w :
  exists ps,
    requests (snd (get_products w)) = requests w ++ ps
    /\ (List.length ps <= Z.to_nat total_needed)%nat
    /\ Forall (asks_for_the_rest total_needed) ps
    /\ ForallOrdPairs Z.lt (map offset ps)
    /\ (forall p, hd_error ps = Some p -> offset p = 0).
Proof.
  assert (Hnone : forall w', requests w' = requests w ->
            exists ps,
              requests w' = requests w ++ ps
              /\ (List.length ps <= Z.to_nat total_needed)%nat
              /\ Forall (asks_for_the_rest total_needed) ps
              /\ ForallOrdPairs Z.lt (map offset ps)
              /\ (forall p, hd_error ps = Some p -> offset p = 0)).
  { intros w' Hw'. exists []. rewrite app_nil_r.
    repeat split; try constructor; try assumption; try (cbn; lia).
    discriminate. }
  destruct (get_products w) as [r w'] eqn:H. cbn [snd].
  unfold main.get_products, main.get_products_fuel in H.
  unfold_M_in H; cbn in H.
  destruct (negb (truthy store)); [pair_inv H; now apply Hnone|].
  destruct (py_getitem store (pystr "id")) as [sid|e];
    [|pair_inv H; now apply Hnone].
  destruct (py_getitem store (pystr "title")) as [title|e];
    [|pair_inv H; now apply Hnone].
  match type of H with
  | context [main.while_loop ?f _ _ _ _ ?st ?w0] =>
      destruct (main.while_loop f self store category_id total_needed st w0)
        as [rl wl] eqn:Hloop
  end.
  apply while_loop_requests in Hloop; [|reflexivity].
  destruct Hloop as (ps & Hps & Hcount & Hall & _ & Hsorted & Hfirst).
  rewrite iterations_left_initial in Hcount. cbn in Hps, Hfirst.
  assert (Hw : requests w' = requests wl).
  { destruct rl as [[st|v]|e|]; try (now pair_inv H).
    destruct (main.format_products _); now pair_inv H. }
  exists ps. rewrite Hw. now repeat split.
Qed.

(** X4. Whatever the source answers and however the run ends,
    [get_products] sends at most [total_needed] requests (none when
    nothing is needed); each asks for what is still missing from its
    offset on, one page at most and one item at least; the offsets start
    at 0 and grow strictly, so no position is asked for twice. No file is
    touched. *)
Theorem get_products_requests w :
  (exists ps,
      requests (snd (get_products w)) = requests w ++ ps
      /\ (List.length ps <= Z.to_nat total_needed)%nat
      /\ Forall (asks_for_the_rest total_needed) ps
      /\ ForallOrdPairs Z.lt (map offset ps)
      /\ (forall p, hd_error ps = Some p -> offset p = 0))
  /\ files (snd (get_products w)) = files w.
Proof.
  split; [exact (get_products_requests_sent w)|].
  destruct (get_products w) as [r w'] eqn:Hrun. cbn [snd].
  exact (proj1 (get_products_trace _ _ _ _ _ _ _ Hrun)).
Qed.

End Requests.

(** ** The items of a collection (main.py) *)

Section Items.
Context {U : UnicodeData}.
Variables (self : main.LentaAPI) (store : value) (category_id : Z).
Variable total_needed : Z.

#[local] Abbreviation loop_body :=
  (main.loop_body self store category_id total_needed).
#[local] Abbreviation while_loop fuel :=
  (main.while_loop fuel self store category_id total_needed).
#[local] Abbreviation get_products :=
  (main.get_products self store category_id total_needed).

(** X1. From a source that holds at least [total_needed] items and
    answers every request the run sends from its offset on,
    [get_products] returns the formatting of the first [total_needed]
    items in the order the source holds them, whatever the size of the
    pages: [total_needed] records when every one of these items can be
    formatted. *)
Theorem get_products_first_items catalogue w r w' :
  store_ok store = true ->
  0 < total_needed ->
  total_needed <= len catalogue ->
  get_products w = (r, w') ->
  (forall n p,
      (List.length (requests w) <= n)%nat ->
      nth_error (requests w') n = Some p ->
      answers_from catalogue (main.session self n p) p) ->
  r = run_of (main.format_products (slice_to catalogue total_needed))
  /\ forall recs,
       main.format_products (slice_to catalogue total_needed) = Ok recs ->
       len recs = total_needed.
Proof.
  intros Hstore Hpos Hlen Hrun Hsrv. split.
  - apply (get_products_catalogue self store category_id total_needed
             catalogue w r w' Hstore ltac:(lia) Hrun Hsrv).
  - intros recs Hfmt. apply format_products_length in Hfmt.
    rewrite Hfmt. apply slice_to_exact; lia.
Qed.

(** The list comprehension stops at the first item that cannot be
    formatted. *)
Lemma format_products_raises pre bad post recs e :
  main.format_products pre = Ok recs ->
  main.format_product bad = Raise e ->
  main.format_products (pre ++ bad :: post) = Raise e.
Proof.
  revert recs; induction pre as [|item pre IH]; intros recs Hpre Hbad;
    cbn [main.format_products app] in *.
  - now rewrite Hbad.
  - destruct (main.format_product item) as [rec|]; [|discriminate].
    cbn [rbind] in *.
    destruct (main.format_products pre) as [recs'|]; [|discriminate].
    now rewrite (IH recs' eq_refl Hbad).
Qed.

(** X3. One item that cannot be formatted among the first [total_needed]
    of a source that answers every request the run sends from its offset
    on costs the whole collection: [get_products] raises the exception
    of the first such item and returns nothing of the others; no file is
    touched. *)
Theorem get_products_unformattable_item catalogue w r w' pre bad post recs e :
  store_ok store = true ->
  0 <= total_needed ->
  get_products w = (r, w') ->
  (forall n p,
      (List.length (requests w) <= n)%nat ->
      nth_error (requests w') n = Some p ->
      answers_from catalogue (main.session self n p) p) ->
  slice_to catalogue total_needed = pre ++ bad :: post ->
  main.format_products pre = Ok recs ->
  main.format_product bad = Raise e ->
  r = Raises e /\ files w' = files w.
Proof.
  intros Hstore HN Hrun Hsrv Hitems Hpre Hbad.
  pose proof (get_products_catalogue self store category_id total_needed
                catalogue w r w' Hstore HN Hrun Hsrv) as Hr.
  rewrite Hitems, (format_products_raises _ _ _ _ _ Hpre Hbad) in Hr.
  split; [exact Hr|].
  exact (proj1 (get_products_trace _ _ _ _ _ _ _ Hrun)).
Qed.

(** X2. Without a store, or with nothing to collect, [get_products]
    returns the empty list and sends no request. *)
Theorem get_products_nothing_to_do w :
  truthy store = false \/ (store_ok store = true /\ total_needed <= 0) ->
  exists w',
    get_products w = (Returns [], w')
    /\ requests w' = requests w
    /\ files w' = files w.
Proof.
  intros [Hnone | [Hstore Hn]];
    unfold main.get_products, main.get_products_fuel.
  - rewrite Hnone. unfold_M; cbn. eexists; split; [reflexivity|].
    now simpl_world.
  - destruct (store_ok_members _ Hstore)
      as (sid & title & region & Hid & Htitle & _ & Htruthy).
    rewrite Htruthy. unfold_M; cbn. rewrite Hid, Htitle.
    rewrite while_loop_eq. cbn [main.collected].
    replace (len (@nil value) <? total_needed) with false
      by (symmetry; apply Z.ltb_ge; unfold len; cbn; lia).
    assert (Hnil : slice_to (@nil value) total_needed = [])
      by (unfold slice_to; destruct (0 <=? total_needed);
          now rewrite firstn_nil).
    cbn -[slice_to]. rewrite Hnil. cbn.
    eexists; split; [reflexivity|]. now simpl_world.
Qed.

End Items.

(** Five items are asked of a source that holds six and answers by
    offset and limit: the first five are returned. *)
Lemma get_products_first_items_five_of_six :
  exists r w',
    @main.get_products latin_cyrillic (moscow (by_offset six_items))
      moscow_store 2 5 empty_world = (r, w')
    /\ r = run_of (@main.format_products latin_cyrillic
                     (slice_to six_items 5))
    /\ forall recs,
         @main.format_products latin_cyrillic (slice_to six_items 5)
         = Ok recs ->
         len recs = 5.
Proof.
  destruct (@main.get_products latin_cyrillic (moscow (by_offset six_items))
              moscow_store 2 5 empty_world) as [r w'] eqn:Hrun.
  assert (Hreq : requests w'
                 = [{| categoryId := 2; limit := 5; offset := 0;
                       regionId := VInt 1; pickupStoreId := VInt 104 |}]).
  { apply (f_equal snd) in Hrun. cbn [snd] in Hrun. rewrite <- Hrun.
    vm_compute. reflexivity. }
  exists r, w'. split; [reflexivity|].
  apply (@get_products_first_items latin_cyrillic
           (moscow (by_offset six_items)) moscow_store 2 5 six_items
           empty_world r w').
  - reflexivity.
  - lia.
  - unfold len; cbn; lia.
  - exact Hrun.
  - intros n p _ Hp. rewrite Hreq in Hp.
    destruct n as [|n]; cbn in Hp;
      [injection Hp as <- | now destruct n].
    exists [item 1; item 2; item 3; item 4; item 5].
    repeat split. discriminate.
Defined.

(** An item without prices between two good ones: [KeyError]. *)
Lemma get_products_unformattable_item_no_prices :
  exists r w',
    @main.get_products latin_cyrillic
      (moscow (by_offset [item 1; product_without_prices; item 3]))
      moscow_store 2 3 empty_world = (r, w')
    /\ r = Raises (KeyError (pystr "prices"))
    /\ files w' = files empty_world.
Proof.
  destruct (@main.get_products latin_cyrillic
              (moscow (by_offset [item 1; product_without_prices; item 3]))
              moscow_store 2 3 empty_world) as [r w'] eqn:Hrun.
  assert (Hreq : requests w'
                 = [{| categoryId := 2; limit := 3; offset := 0;
                       regionId := VInt 1; pickupStoreId := VInt 104 |}]).
  { apply (f_equal snd) in Hrun. cbn [snd] in Hrun. rewrite <- Hrun.
    vm_compute. reflexivity. }
  exists r, w'. split; [reflexivity|].
  eapply (@get_products_unformattable_item latin_cyrillic
            (moscow (by_offset [item 1; product_without_prices; item 3]))
            moscow_store 2 3
            [item 1; product_without_prices; item 3] empty_world r w'
            [item 1] product_without_prices [item 3]).
  - reflexivity.
  - lia.
  - exact Hrun.
  - intros n p _ Hp. rewrite Hreq in Hp.
    destruct n as [|n]; cbn in Hp;
      [injection Hp as <- | now destruct n].
    exists [item 1; product_without_prices; item 3].
    repeat split. discriminate.
  - reflexivity.
  - reflexivity.
  - reflexivity.
Defined.

(** Nothing is asked of the source when no item is needed. *)
Lemma get_products_nothing_to_do_zero :
  exists w',
    @main.get_products latin_cyrillic (moscow three_three_none)
      moscow_store 2 0 empty_world = (Returns [], w')
    /\ requests w' = requests empty_world
    /\ files w' = files empty_world.
Proof.
  apply (@get_products_nothing_to_do latin_cyrillic
           (moscow three_three_none) moscow_store 2 0 empty_world).
  right. split; [reflexivity | lia].
Defined.

(** ** main(): what a run sends and writes *)

Section MainRun.
Context {U : UnicodeData}.

(** The records [get_products] returns hold the five columns only. *)
Lemma get_products_fields self store category_id total_needed w products w' :
  main.get_products self store category_id total_needed w
  = (Returns products, w') ->
  forallb (only_fields config.REQUIRED_COLUMNS) products = true.
Proof.
  intros H. unfold main.get_products, main.get_products_fuel in H.
  run_in H; pair_inv H;
    repeat match goal with
      | H : main.format_products _ = Ok _ |- _ =>
          now apply format_products_fields in H
      | H : main.while_loop _ _ _ _ _ _ _ = (Returns (main.Returned _), _)
        |- _ => apply while_loop_returned in H; subst
      end;
    reflexivity.
Qed.





(** X6. Every record [get_products] returns for a city is written: the
    truncation of [CSVWriter] to 100 rows never drops one in [main]. *)
Theorem main_city_saves_every_record srv city w store w0 category_id
  products w1 :
  main.get_store {| main.city := city; main.session := srv |} w
  = (Returns store, w0) ->
  config_getitem config.CATEGORY_BY_CITY city = Ok category_id ->
  main.get_products {| main.city := city; main.session := srv |} store
    category_id config.PRODUCTS_PER_STORE w0 = (Returns products, w1) ->
  exists w',
    main.main_city srv city w = (Returns tt, w')
    /\ files_get (files w')
         (pystr "lenta_" ++ main.replace_spaces (py_lower city)
          ++ pystr ".csv")
       = Some (map VStr config.REQUIRED_COLUMNS
               :: map (fields_of config.REQUIRED_COLUMNS) products)
    /\ requests w' = requests w1.
Proof.
  intros Hstore Hcat Hget.
  pose proof (get_products_fields _ _ _ _ _ _ _ Hget) as Hfields.
  assert (Hpos : 0 <= config.PRODUCTS_PER_STORE)
    by (unfold config.PRODUCTS_PER_STORE; lia).
  pose proof (get_products_at_most _ _ _ _ _ _ _ Hpos Hget) as Hmost.
  assert (Hall : slice_to products 100 = products)
    by (apply slice_to_all; exact Hmost).
  destruct (write_products_file
              (main.new_CSVWriter
                 (pystr "lenta_" ++ main.replace_spaces (py_lower city)
                  ++ pystr ".csv")) products w1)
    as (w' & Hwrite & Hfile).
  { rewrite Hall. exact Hfields. }
  exists w'. unfold main.main_city, try_except.
  unfold bind at 1. rewrite Hstore.
  unfold bind at 1. unfold lift at 1. rewrite Hcat.
  unfold bind at 1. rewrite Hget, Hwrite.
  split; [reflexivity|]. rewrite Hall in Hfile. split; [exact Hfile|].
  now apply write_products_frame in Hwrite as [Hreq _].
Qed.

Lemma main_city_body_status srv city w r w' n p status json :
  (store <- main.get_store {| main.city := city; main.session := srv |} ;;
   category_id <- lift (config_getitem config.CATEGORY_BY_CITY city) ;;
   products <- main.get_products
                 {| main.city := city; main.session := srv |} store
                 category_id config.PRODUCTS_PER_STORE ;;
   main.write_products
     (main.new_CSVWriter
        (pystr "lenta_" ++ main.replace_spaces (py_lower city)
         ++ pystr ".csv")) products)%M w = (r, w') ->
  (List.length (requests w) <= n)%nat ->
  nth_error (requests w') n = Some p ->
  srv n p = Http status json ->
  status <> 200 ->
  r = Returns tt
  /\ files_get (files w')
       (pystr "lenta_" ++ main.replace_spaces (py_lower city)
        ++ pystr ".csv")
     = Some [map VStr config.REQUIRED_COLUMNS].
Proof.
  intros H Hn Hp Hsrv Hstatus.
  apply bind_inv in H
    as [(store & w0 & Hstore & H) | [(e & Hstore & ->) | [Hstore _]]];
    apply get_store_frame in Hstore as (Hreq0 & _ & Hfuel0);
    [| rewrite Hreq0 in Hp; now destruct (nth_error_beyond _ _ _ Hp Hn)
     | congruence].
  apply bind_inv in H
    as [(cat & w1 & Hcat & H) | [(e & Hcat & ->) | [Hcat _]]].
  2:{ apply lift_world in Hcat as ->. rewrite Hreq0 in Hp.
      now destruct (nth_error_beyond _ _ _ Hp Hn). }
  2:{ now apply quiet_lift in Hcat as [_ ?]. }
  apply lift_world in Hcat as ->.
  rewrite <- Hreq0 in Hn.
  apply bind_inv in H
    as [(products & w2 & Hget & H) | [(e & Hget & ->) | [Hget _]]].
  - pose proof (write_products_frame _ _ _ _ _ H) as [Hreq _].
    rewrite Hreq in Hp.
    pose proof (proj2 (get_products_trace _ _ _ _ _ _ _ Hget) n p Hn Hp)
      as Htrace.
    cbn [main.session] in Htrace. rewrite Hsrv in Htrace.
    destruct (Htrace Hstatus) as [Hr _]. injection Hr as ->.
    destruct (write_products_file
                (main.new_CSVWriter
                   (pystr "lenta_" ++ main.replace_spaces (py_lower city)
                    ++ pystr ".csv")) [] w2 eq_refl)
      as (w3 & Hwrite & Hfile).
    rewrite Hwrite in H. pair_inv H. split; [reflexivity | exact Hfile].
  - pose proof (proj2 (get_products_trace _ _ _ _ _ _ _ Hget) n p Hn Hp)
      as Htrace.
    cbn [main.session] in Htrace. rewrite Hsrv in Htrace.
    now destruct (Htrace Hstatus) as [? _].
  - now apply get_products_total in Hget.
Qed.

(** X7. A listing request answered with a status other than 200 leaves
    the city with a file that holds the header row and nothing else: the
    empty result of [get_products] is written like any other. *)
Theorem main_city_status_failure srv city w r w' n p status json :
  main.main_city srv city w = (r, w') ->
  (List.length (requests w) <= n)%nat ->
  nth_error (requests w') n = Some p ->
  srv n p = Http status json ->
  status <> 200 ->
  r = Returns tt
  /\ files_get (files w')
       (pystr "lenta_" ++ main.replace_spaces (py_lower city)
        ++ pystr ".csv")
     = Some [map VStr config.REQUIRED_COLUMNS].
Proof.
  unfold main.main_city. intros H Hn Hp Hsrv Hstatus.
  apply try_except_inv in H
    as [(e0 & w1 & Hbody & Hhandler) | [Hbody _]].
  - unfold logger in Hhandler. pair_inv Hhandler. simpl_world_in Hp.
    now destruct (main_city_body_status _ _ _ _ _ _ _ _ _
                    Hbody Hn Hp Hsrv Hstatus).
  - exact (main_city_body_status _ _ _ _ _ _ _ _ _
             Hbody Hn Hp Hsrv Hstatus).
Qed.

End MainRun.

(** Moscow's six items: six rows under the header. *)
Lemma main_city_saves_every_record_six :
  exists store w0 products w1 w',
    main.get_store (moscow three_three_none) empty_world
    = (Returns store, w0)
    /\ @main.get_products latin_cyrillic (moscow three_three_none) store 2
         config.PRODUCTS_PER_STORE w0 = (Returns products, w1)
    /\ len products = 6
    /\ @main.main_city latin_cyrillic three_three_none (pystr "Москва")
         empty_world = (Returns tt, w')
    /\ files_get (files w')
         (pystr "lenta_"
          ++ main.replace_spaces (@py_lower latin_cyrillic (pystr "Москва"))
          ++ pystr ".csv")
       = Some (map VStr config.REQUIRED_COLUMNS
               :: map (fields_of config.REQUIRED_COLUMNS) products)
    /\ requests w' = requests w1.
Proof.
  assert (Hstore :
    main.get_store (moscow three_three_none) empty_world
    = (Returns moscow_store,
       set_log empty_world
         [(INFO, StoreCreated (pystr "Магазин Лента Москва (ID: 104)"))]))
    by (vm_compute; reflexivity).
  destruct (@get_products_exhausted latin_cyrillic (moscow three_three_none)
              moscow_store 2 config.PRODUCTS_PER_STORE
              [[item 1; item 2; item 3]; [item 4; item 5; item 6]] _
              (set_log empty_world
                 [(INFO,
                   StoreCreated (pystr "Магазин Лента Москва (ID: 104)"))])
              eq_refl
              ltac:(intros [|[|[|i]]] p Hi;
                    [reflexivity | reflexivity | reflexivity
                    | cbn in Hi; lia])
              eq_refl eq_refl eq_refl)
    as (w1 & Hget).
  destruct (@main_city_saves_every_record latin_cyrillic three_three_none
              (pystr "Москва") empty_world _ _ 2 _ w1 Hstore eq_refl Hget)
    as (w' & Hrun & Hfile & Hreq).
  eexists _, _, _, w1, w'. split; [exact Hstore|].
  split; [exact Hget|]. split; [reflexivity|].
  split; [exact Hrun|]. split; [exact Hfile | exact Hreq].
Defined.

(** A 500 on Moscow's second request: a file with the header only. *)
Lemma main_city_status_failure_500 :
  fst (@main.main_city latin_cyrillic page_then_500 (pystr "Москва")
         empty_world) = Returns tt
  /\ files_get
       (files (snd (@main.main_city latin_cyrillic page_then_500
                      (pystr "Москва") empty_world)))
       (pystr "lenta_"
        ++ main.replace_spaces (@py_lower latin_cyrillic (pystr "Москва"))
        ++ pystr ".csv")
     = Some [map VStr config.REQUIRED_COLUMNS].
Proof.
  destruct (@main.main_city latin_cyrillic page_then_500 (pystr "Москва")
              empty_world) as [r w'] eqn:Hrun.
  assert (Hp : nth_error (requests w') 1
               = Some {| categoryId := 2; limit := 97; offset := 3;
                         regionId := VInt 1; pickupStoreId := VInt 104 |}).
  { apply (f_equal snd) in Hrun. cbn [snd] in Hrun. rewrite <- Hrun.
    vm_compute. reflexivity. }
  exact (@main_city_status_failure latin_cyrillic page_then_500
           (pystr "Москва") empty_world r w' 1%nat _ 500
           (Raise ClientError) Hrun ltac:(cbn; lia) Hp eq_refl
           ltac:(discriminate)).
Defined.

(** ** The detail requests of the second pipeline (oop_test.py) *)


(** X10. With a pool of at least one worker, every record of the output
    has the identifier and the name of an item of the input. *)
Theorem process_products_parallel_provenance products parser max_workers
  order w :
  0 < max_workers ->
  Permutation order (seq 0 (List.length products)) ->
  exists results w',
    oop_test.process_products_parallel products parser max_workers order w
    = (Returns results, w')
    /\ forall p,
         In p results ->
         exists product,
           In product products
           /\ py_get product (pystr "id") VNone = Ok (oop_test.id p)
           /\ py_get product (pystr "name") (VStr []) = Ok (oop_test.name p).
Proof.
  intros Hpool Horder.
  destruct (process_products_parallel_account products parser max_workers
              order w Hpool Horder) as (results & w' & Hrun & _).
  exists results, w'. split; [exact Hrun|].
  rewrite process_products_parallel_eq in Hrun by assumption.
  apply bind_inv in Hrun
    as [([] & w1 & Hline & Hrun) | [(e & _ & ?) | [_ ?]]];
    try discriminate.
  apply bind_inv in Hrun
    as [(results1 & w2 & Hcollect & Hrun) | [(e & _ & ?) | [_ ?]]];
    try discriminate.
  unfold bind, logger, ret in Hrun. pair_inv Hrun.
  destruct (collect_results_detail _ _ _ _ _ _ _ _ Hcollect)
    as (ds & _ & _ & _ & Hres).
  destruct (Hres _ eq_refl) as [_ Hfrom].
  intros p Hp. now destruct (Hfrom p Hp) as [[] | [_ Hproduct]].
Qed.


Lemma process_products_parallel_provenance_example :
  exists results w',
    oop_test.process_products_parallel
      [product_with_id (Some (VInt 7)); product_with_id None;
       product_with_id (Some (VInt 8))]
      (parser_of down_for_7) 2 [2; 0; 1]%nat empty_world
    = (Returns results, w')
    /\ forall p,
         In p results ->
         exists product,
           In product [product_with_id (Some (VInt 7));
                       product_with_id None;
                       product_with_id (Some (VInt 8))]
           /\ py_get product (pystr "id") VNone = Ok (oop_test.id p)
           /\ py_get product (pystr "name") (VStr []) = Ok (oop_test.name p).
Proof.
  exact (process_products_parallel_provenance
           [product_with_id (Some (VInt 7)); product_with_id None;
            product_with_id (Some (VInt 8))]
           (parser_of down_for_7) 2 [2; 0; 1]%nat empty_world
           ltac:(lia) (Permutation_cons_append [0; 1]%nat 2%nat)).
Defined.

(** X11. The brand of a record comes from the answer to its own detail
    request and from nothing else: it is empty when the request fails or
    the answer has no attribute naming the brand, whatever the name of
    the item holds; the name heuristic of main.py has no counterpart. *)
Theorem parse_product_brand self product_data w p w' :
  oop_test.parse_product self product_data w = (Returns (Some p), w') ->
  match oop_test.session (oop_test.api self)
          (List.length (detail_requests w)) (oop_test.id p) with
  | Raise _ => oop_test.brand p = VStr []
  | Ok item_detail =>
      (exists brand,
          oop_test.extract_brand item_detail = Ok brand
          /\ oop_test.brand p = oop_test.py_or brand (VStr []))
      /\ forall attrs,
           py_get item_detail (pystr "attributes") (VList [])
           = Ok (VList attrs) ->
           forallb other_attribute attrs = true ->
           oop_test.brand p = VStr []
  end.
Proof.
  intros Hrun.
  destruct (parse_product_detail _ _ _ _ _ Hrun)
    as [[_ Hnone] | (product_id & _ & _ & _ & Hrecord)];
    [now destruct (Hnone p)|].
  destruct (Hrecord p eq_refl) as (-> & _ & Hbrand).
  destruct (oop_test.session _ _ _) as [item_detail|e]; [|exact Hbrand].
  split; [exact Hbrand|].
  intros attrs Hattrs Hother. destruct Hbrand as (brand & Hextract & ->).
  unfold oop_test.extract_brand in Hextract.
  destruct (negb (truthy item_detail));
    [now injection Hextract as <-|].
  rewrite Hattrs in Hextract. cbn [rbind py_iter] in Hextract.
  rewrite <- (app_nil_r attrs) in Hextract.
  rewrite oop_brand_from_attributes_skip in Hextract by assumption.
  now injection Hextract as <-.
Qed.

(** PEPSI MAX without a brand attribute in its detail: no brand. *)
Lemma parse_product_brand_pepsi_max :
  exists p w',
    oop_test.parse_product (parser_of no_brand_detail)
      (product_with_id (Some (VInt 2))) empty_world
    = (Returns (Some p), w')
    /\ oop_test.brand p = VStr [].
Proof.
  destruct (oop_test.parse_product (parser_of no_brand_detail)
              (product_with_id (Some (VInt 2))) empty_world)
    as [[[p|]|e|] w'] eqn:Hrun; try (vm_compute in Hrun; discriminate).
  exists p, w'. split; [reflexivity|].
  exact (proj2 (parse_product_brand _ _ _ _ _ Hrun) _ eq_refl eq_refl).
Defined.

(** ** What the writers do with records they cannot write *)

Lemma writerows_foreign_field self pre bad rest : forall w existing,
  forallb (only_fields (main.fieldnames self)) pre = true ->
  main.dict_to_list (main.fieldnames self) bad = Raise ValueError ->
  files_get (files w) (main.filename self) = Some existing ->
  exists w',
    main.writerows self (pre ++ bad :: rest) w = (Raises ValueError, w')
    /\ files_get (files w') (main.filename self)
       = Some (existing ++ map (fields_of (main.fieldnames self)) pre).
Proof.
  induction pre as [|row pre IH]; intros w existing Hpre Hbad Hfile;
    cbn [main.writerows map app].
  - unfold bind, lift. rewrite Hbad.
    exists w. split; [reflexivity | now rewrite app_nil_r].
  - cbn [forallb] in Hpre. apply andb_true_iff in Hpre as [Hrow Hpre].
    unfold bind at 1. unfold lift at 1.
    rewrite (dict_to_list_only_fields _ _ Hrow).
    unfold bind at 1. unfold file_append at 1. rewrite Hfile.
    match goal with
    | |- context [main.writerows self _ ?w1] =>
        destruct (IH w1 (existing ++ [fields_of (main.fieldnames self) row])
                    Hpre Hbad) as (w' & Hrun & Hfile')
    end.
    { simpl_world. apply files_get_set. }
    exists w'. split; [exact Hrun|].
    now rewrite Hfile', <- app_assoc.
Qed.

(** X8. [CSVWriter] refuses a record with a member outside its columns:
    [write_products] raises [ValueError], and the file is left with the
    header and the rows of the records before it. *)
Theorem write_products_foreign_field self pre bad post w :
  forallb (only_fields (main.fieldnames self)) pre = true ->
  (exists d, bad = VDict d) ->
  only_fields (main.fieldnames self) bad = false ->
  len pre < 100 ->
  exists w',
    main.write_products self (pre ++ bad :: post) w = (Raises ValueError, w')
    /\ files_get (files w') (main.filename self)
       = Some (map VStr (main.fieldnames self)
               :: map (fields_of (main.fieldnames self)) pre).
Proof.
  intros Hpre [d ->] Hbad Hlen.
  assert (Hraise : main.dict_to_list (main.fieldnames self) (VDict d)
                   = Raise ValueError).
  { cbn in *.
    destruct (existsb _ d) eqn:Hex; [reflexivity|]. exfalso.
    assert (Hall : forallb (fun kv => existsb (str_eqb (fst kv))
                                         (main.fieldnames self)) d = true).
    { clear - Hex. induction d as [|kv d IH]; cbn in *; [reflexivity|].
      apply orb_false_iff in Hex as [Hkv Hd].
      apply negb_false_iff in Hkv. now rewrite Hkv, IH. }
    congruence. }
  assert (Hslice : exists rest,
             slice_to (pre ++ VDict d :: post) 100
             = pre ++ VDict d :: rest).
  { rewrite slice_to_app by lia. unfold slice_to.
    replace (0 <=? 100 - len pre) with true
      by (symmetry; apply Z.leb_le; lia).
    pose proof (len_nonneg pre).
    destruct (Z.to_nat (100 - len pre)) as [|n] eqn:Hn; [lia|].
    cbn [firstn]. now eexists. }
  destruct Hslice as (rest & Hslice).
  unfold main.write_products, main.write_to_csv. rewrite Hslice.
  unfold bind at 1 2 3 4. unfold logger at 1, file_create at 1,
    file_append at 1.
  simpl_world. rewrite files_get_set. cbn [app].
  unfold bind at 1.
  match goal with
  | |- context [main.writerows self _ ?w1] =>
      destruct (writerows_foreign_field self pre (VDict d) rest w1
                  [map VStr (main.fieldnames self)] Hpre Hraise)
        as (w' & Hrun & Hfile)
  end.
  { simpl_world. apply files_get_set. }
  rewrite Hrun.
  exists w'. split; [reflexivity | exact Hfile].
Qed.

(** A record that still has the weight of the raw item. *)
Lemma write_products_foreign_field_weight :
  exists w',
    main.write_products (main.new_CSVWriter (pystr "lenta.csv"))
      ([pepsi_record] ++ item 1 :: [pepsi_record]) empty_world
    = (Raises ValueError, w')
    /\ files_get (files w') (pystr "lenta.csv")
       = Some (map VStr config.REQUIRED_COLUMNS
               :: map (fields_of config.REQUIRED_COLUMNS) [pepsi_record]).
Proof.
  apply (write_products_foreign_field
           (main.new_CSVWriter (pystr "lenta.csv"))
           [pepsi_record] (item 1) [pepsi_record] empty_world).
  - reflexivity.
  - eexists. reflexivity.
  - reflexivity.
  - unfold len; cbn; lia.
Defined.

Lemma write_rows_frame name rows : forall w r w',
  oop_test.write_rows name rows w = (r, w') ->
  requests w' = requests w /\ detail_requests w' = detail_requests w.
Proof.
  induction rows as [|row rows IH]; intros w r w' H;
    cbn [oop_test.write_rows] in H.
  - now pair_inv H.
  - unfold bind at 1 in H. unfold file_append at 1 in H.
    apply IH in H. now simpl_world_in H.
Qed.

(** [DataSaver.save_products] without its decorator, on names that can
    be opened. Given no product it writes no file and logs an error;
    given products it writes the header and one row per product and
    logs the success. *)
Lemma save_products_run self products w :
  exists w',
    oop_test.save_products self products w = (Returns tt, w')
    /\ requests w' = requests w
    /\ detail_requests w' = detail_requests w
    /\ match products with
       | [] =>
           files w' = files w
           /\ exists e, log w' = log w ++ [(ERROR, CsvFailed e)]
       | _ :: _ =>
           files_get (files w') (oop_test.filename self)
           = Some (map VStr oop_test.REQUIRED_COLUMNS
                   :: map product_row products)
           /\ log w' = log w ++ [(INFO, CsvSaved (oop_test.filename self))]
       end.
Proof.
  destruct products as [|p products].
  - unfold oop_test.save_products. unfold_M. cbn.
    eexists. split; [reflexivity|]. simpl_world.
    repeat split. eexists. reflexivity.
  - unfold oop_test.save_products, try_except.
    unfold bind at 1. unfold lift.
    assert (Hsel : oop_test.select_columns oop_test.REQUIRED_COLUMNS
                     (map oop_test.vars (p :: products))
                   = Ok (map product_row (p :: products))).
    { unfold oop_test.select_columns. cbn [map]. f_equal. f_equal.
      rewrite map_map. apply map_ext. intros q. reflexivity. }
    rewrite Hsel. unfold bind at 1 2. unfold file_create at 1,
      file_append at 1.
    simpl_world. rewrite files_get_set. cbn [app].
    unfold bind at 1.
    match goal with
    | |- context [oop_test.write_rows _ _ ?w1] =>
        destruct (write_rows_file (oop_test.filename self)
                    (map product_row (p :: products)) w1
                    [map VStr oop_test.REQUIRED_COLUMNS])
          as (w' & Hrun & Hfile & Hlog)
    end.
    { simpl_world. apply files_get_set. }
    rewrite Hrun. unfold logger. eexists; split; [reflexivity|].
    apply write_rows_frame in Hrun as [Hreq Hdetail].
    simpl_world. simpl_world_in Hreq. simpl_world_in Hdetail.
    simpl_world_in Hlog. rewrite Hlog.
    repeat split; assumption.
Qed.

(** ** The entry points *)

Lemma ebind_inv {A B} (m : E A) (k : A -> E B) s r s' :
  ebind m k s = (r, s') ->
  (exists a s1, m s = (Returns a, s1) /\ k a s1 = (r, s'))
  \/ (exists e, m s = (Raises e, s') /\ r = Raises e)
  \/ (m s = (OutOfFuel, s') /\ r = OutOfFuel).
Proof.
  unfold ebind. destruct (m s) as [[a|e|] s1]; intros H.
  - left. now exists a, s1.
  - right; left. pair_inv H. now exists e.
  - right; right. now pair_inv H.
Qed.

Lemma ebind_returns {A B} (m : E A) (k : A -> E B) s a s1 :
  m s = (Returns a, s1) -> ebind m k s = k a s1.
Proof. intros H. unfold ebind. now rewrite H. Qed.

Lemma ebind_raises {A B} (m : E A) (k : A -> E B) s e s1 :
  m s = (Raises e, s1) -> ebind m k s = (Raises e, s1).
Proof. intros H. unfold ebind. now rewrite H. Qed.

(** [LentaAPI.get_products] of oop_test.py, whatever the endpoint does. *)
Lemma oop_get_products_run self category_id limit s :
  exists items s',
    oop_entry.get_products self category_id limit s = (Returns items, s')
    /\ pipeline s' = pipeline s
    /\ posts s' = posts s ++ [Listing category_id limit]
    /\ match (data <- oop_entry.listing self (List.length (posts s))
                        (Listing category_id limit) ;;
              py_get data (pystr "items") (VList []))%res with
       | Ok found => items = found /\ journal s' = journal s
       | Raise e =>
           items = VList []
           /\ journal s'
              = journal s
                ++ [(List.length (log (pipeline s)),
                     (ERROR, ListingFailed e))]
       end.
Proof.
  unfold oop_entry.get_products, etry, ebind, epost, elift, elog, eret.
  cbn [posts pipeline journal rbind].
  destruct (oop_entry.listing self _ _) as [data|e]; cbn [rbind].
  - destruct (py_get data (pystr "items") (VList [])) as [found|e];
      eexists _, _; (split; [reflexivity|]); cbn; repeat split.
  - eexists _, _; (split; [reflexivity|]); cbn; repeat split.
Qed.

(** [parse_product] touches no file and sends no listing request. *)
Lemma parse_product_frame self product_data w r w' :
  oop_test.parse_product self product_data w = (r, w') ->
  files w' = files w /\ requests w' = requests w.
Proof.
  intros H. unfold oop_test.parse_product, oop_test.get_product_details in H.
  run_in H; pair_inv H; now simpl_world.
Qed.

(** The loop over the completed tasks ends for every order. *)
Lemma collect_results_returns parser products order :
  forall results completed w,
    exists results' w',
      oop_test.collect_results parser products order results completed w
      = (Returns results', w')
      /\ files w' = files w
      /\ requests w' = requests w
      /\ (forall p, In p results' ->
                    In p results \/ truthy (oop_test.id p) = true).
Proof.
  induction order as [|i order IH]; intros results completed w;
    cbn [oop_test.collect_results].
  - exists results, w. repeat split. now left.
  - destruct (nth_error products i) as [product|]; [|apply IH].
    destruct (oop_test.parse_product parser product w) as [r w1] eqn:Hparse.
    destruct (parse_product_account _ _ _ _ _ Hparse)
      as (result & -> & _ & Hid).
    destruct (parse_product_frame _ _ _ _ _ Hparse) as [Hfiles Hreq].
    unfold bind at 1. rewrite Hparse. unfold bind at 1.
    match goal with
    | |- context [oop_test.collect_results _ _ _ ?rs ?c] =>
        destruct ((completed + 1) mod 10 =? 0);
        [ destruct (IH rs c
                      (set_log w1
                         (log w1
                          ++ [(INFO, Progress (completed + 1)
                                       (len products))])))
            as (results' & w' & Hrun & Hf & Hr & Hin)
        | destruct (IH rs c w1) as (results' & w' & Hrun & Hf & Hr & Hin) ]
    end;
      exists results', w'; (split; [exact Hrun|]);
      simpl_world_in Hf; simpl_world_in Hr;
      (split; [congruence|]); (split; [congruence|]);
      intros p Hp; destruct (Hin p Hp) as [Hold | Hnew];
      try (now right);
      (destruct result as [q|]; [|now left]);
      (apply in_app_or in Hold as [Hold | [<- | []]];
       [now left | right; now destruct (Hid q eq_refl)]).
Qed.

Lemma process_products_parallel_returns products parser max_workers order w :
  0 < max_workers ->
  exists results w',
    oop_test.process_products_parallel products parser max_workers order w
    = (Returns results, w')
    /\ files w' = files w
    /\ requests w' = requests w
    /\ (forall p, In p results -> truthy (oop_test.id p) = true).
Proof.
  intros Hpool. rewrite process_products_parallel_eq by assumption.
  unfold bind at 1. unfold logger at 1. unfold bind at 1.
  match goal with
  | |- context [oop_test.collect_results _ _ _ _ _ ?w0] =>
      destruct (collect_results_returns parser products order [] 0 w0)
        as (results & w1 & Hrun & Hfiles & Hreq & Hin)
  end.
  rewrite Hrun. unfold bind, logger, ret.
  eexists _, _. split; [reflexivity|]. simpl_world.
  simpl_world_in Hfiles. simpl_world_in Hreq.
  repeat split; try assumption.
  intros p Hp. now destruct (Hin p Hp) as [[] | ?].
Qed.

(** X15. [LentaAPI.get_products] of oop_test.py never raises and sends
    one request: it returns what the document holds under "items", or
    the empty list after one ERROR line when the request, the status
    check, the decoding or the lookup raised. *)
Theorem oop_get_products_outcome self category_id limit s :
  exists items s',
    oop_entry.get_products self category_id limit s = (Returns items, s')
    /\ pipeline s' = pipeline s
    /\ posts s' = posts s ++ [Listing category_id limit]
    /\ match (data <- oop_entry.listing self (List.length (posts s))
                        (Listing category_id limit) ;;
              py_get data (pystr "items") (VList []))%res with
       | Ok found => items = found /\ journal s' = journal s
       | Raise e =>
           items = VList []
           /\ journal s'
              = journal s
                ++ [(List.length (log (pipeline s)),
                     (ERROR, ListingFailed e))]
       end.
Proof. exact (oop_get_products_run self category_id limit s). Qed.

(** [main] of oop_test.py after a listing that gave nothing. *)
Lemma oop_main_falsy api order s items s1 :
  oop_entry.get_products api oop_entry.DEFAULT_CATEGORY_ID
    oop_entry.DEFAULT_LIMIT s = (Returns items, s1) ->
  truthy items = false ->
  oop_entry.main api order s
  = (Returns tt,
     {| pipeline := pipeline s1;
        journal := (journal s1
                    ++ [(List.length (log (pipeline s1)),
                         (ERROR, NothingReceived))])
                   ++ [(List.length (log (pipeline s1)),
                        (INFO, Timed (pystr "main")))];
        posts := posts s1 |}).
Proof.
  intros Hrun Hfalsy. unfold oop_entry.main, oop_entry.process_products_parallel,
    oop_entry.save_products, timer_decorator.
  unfold ebind at 1. unfold ebind at 1. rewrite Hrun, Hfalsy.
  reflexivity.
Qed.

(** [main] of oop_test.py after a listing that gave something with a
    length: the items are parsed and the records saved. *)
Lemma oop_main_sized api order s items s1 n elements :
  oop_entry.get_products api oop_entry.DEFAULT_CATEGORY_ID
    oop_entry.DEFAULT_LIMIT s = (Returns items, s1) ->
  truthy items = true ->
  main.py_len items = Ok n ->
  py_iter items = Ok elements ->
  exists parsed w1 w2 s',
    oop_test.process_products_parallel elements
      {| oop_test.api := oop_entry.detail_api api |} oop_test.MAX_WORKERS
      order (pipeline s1) = (Returns parsed, w1)
    /\ oop_test.save_products
         {| oop_test.filename := oop_test.DEFAULT_FILENAME |} parsed w1
       = (Returns tt, w2)
    /\ oop_entry.main api order s = (Returns tt, s')
    /\ pipeline s' = w2
    /\ posts s' = posts s1
    /\ map snd (journal s')
       = map snd (journal s1)
         ++ [(INFO, ItemsReceived n);
             (INFO, Timed (pystr "process_products_parallel"));
             (INFO, Timed (pystr "save_products"));
             (INFO, AllCollected (len parsed));
             (INFO, TotalTime);
             (INFO, Timed (pystr "main"))].
Proof.
  intros Hrun Htruthy Hlen Hiter.
  destruct (process_products_parallel_returns elements
              {| oop_test.api := oop_entry.detail_api api |}
              oop_test.MAX_WORKERS order (pipeline s1) max_workers_positive)
    as (parsed & w1 & Hprocess & _).
  destruct (save_products_run
              {| oop_test.filename := oop_test.DEFAULT_FILENAME |} parsed w1)
    as (w2 & Hsave & _).
  exists parsed, w1, w2.
  unfold oop_entry.main, oop_entry.process_products_parallel,
    oop_entry.save_products, timer_decorator.
  unfold ebind at 1. unfold ebind at 1. rewrite Hrun, Htruthy.
  unfold ebind at 1. unfold elift at 1. rewrite Hlen.
  unfold ebind at 1. unfold elog at 1.
  unfold ebind at 1. unfold elift at 1. rewrite Hiter.
  unfold ebind at 1. unfold ebind at 1. unfold of_M at 1.
  cbn [pipeline journal posts]. rewrite Hprocess.
  unfold ebind at 1. unfold elog at 1. unfold eret at 1.
  unfold ebind at 1. unfold ebind at 1. unfold of_M at 1.
  cbn [pipeline journal posts]. rewrite Hsave.
  unfold ebind, elog, eret. cbn [pipeline journal posts].
  eexists. split; [exact eq_refl|]. split; [exact eq_refl|].
  split; [reflexivity|]. cbn [pipeline journal posts].
  repeat split.
  rewrite !map_app. cbn [map snd]. rewrite <- !app_assoc. reflexivity.
Qed.

(** X12. [DataSaver.save_products], decorated as it is, never raises and
    sends nothing, and its timing line is the last line of the call.
    Given no product it writes no file: the selection of the columns
    raises, the error is logged, and the timing line follows. *)
Theorem save_products_outcome self products s :
  exists s',
    oop_entry.save_products self products s = (Returns tt, s')
    /\ posts s' = posts s
    /\ requests (pipeline s') = requests (pipeline s)
    /\ detail_requests (pipeline s') = detail_requests (pipeline s)
    /\ journal s'
       = journal s
         ++ [(List.length (log (pipeline s')),
              (INFO, Timed (pystr "save_products")))]
    /\ (products = [] ->
        files (pipeline s') = files (pipeline s)
        /\ exists e,
             log (pipeline s') = log (pipeline s) ++ [(ERROR, CsvFailed e)]).
Proof.
  destruct (save_products_run self products (pipeline s))
    as (w' & Hsave & Hreq & Hdetail & Hcase).
  unfold oop_entry.save_products, timer_decorator.
  unfold ebind at 1. unfold of_M at 1. rewrite Hsave.
  unfold ebind, elog, eret. cbn [pipeline journal posts].
  eexists. split; [reflexivity|]. cbn [pipeline journal posts].
  split; [reflexivity|]. split; [assumption|]. split; [assumption|].
  split; [reflexivity|]. intros ->. exact Hcase.
Qed.

(** X16. When the listing fails or holds nothing, [main] of oop_test.py
    ends normally after its one request: no detail request is sent, no
    file is written and the pipeline logs nothing; [main] reports that
    nothing was received. *)
Theorem oop_main_nothing_received api order s :
  (forall items, listed api s = Ok items -> truthy items = false) ->
  exists s',
    oop_entry.main api order s = (Returns tt, s')
    /\ pipeline s' = pipeline s
    /\ posts s'
       = posts s
         ++ [Listing oop_entry.DEFAULT_CATEGORY_ID oop_entry.DEFAULT_LIMIT]
    /\ map snd (journal s')
       = map snd (journal s)
         ++ match listed api s with
            | Raise e => [(ERROR, ListingFailed e)]
            | Ok _ => []
            end
         ++ [(ERROR, NothingReceived); (INFO, Timed (pystr "main"))].
Proof.
  intros Hnothing.
  destruct (oop_get_products_run api oop_entry.DEFAULT_CATEGORY_ID
              oop_entry.DEFAULT_LIMIT s)
    as (items & s1 & Hrun & Hpipeline & Hposts & Hcase).
  fold (listed api s) in Hcase.
  assert (Hfalsy : truthy items = false).
  { destruct (listed api s) as [found|e].
    - destruct Hcase as [-> _]. now apply Hnothing.
    - now destruct Hcase as [-> _]. }
  rewrite (oop_main_falsy api order s items s1 Hrun Hfalsy).
  eexists. split; [reflexivity|]. cbn [pipeline journal posts].
  repeat split; try assumption.
  rewrite !map_app. cbn [map snd].
  destruct (listed api s) as [found|e]; destruct Hcase as [_ ->].
  - now rewrite <- app_assoc.
  - rewrite map_app, <- !app_assoc. reflexivity.
Qed.

Lemma filename_eta name :
  oop_test.filename {| oop_test.filename := name |} = name.
Proof. reflexivity. Qed.

(** X17. From a listing that holds a non-empty list of items, [main] of
    oop_test.py ends normally; the records it saves are as many as the
    items minus those reported as dropped, each with a true identifier;
    the file holds the header and one row per record, and is not written
    at all when every item was dropped. *)
Theorem oop_main_saves_records api order s items :
  listed api s = Ok (VList items) ->
  nonempty items = true ->
  Permutation order (seq 0 (List.length items)) ->
  exists parsed s',
    oop_entry.main api order s = (Returns tt, s')
    /\ (List.length parsed + drops (log (pipeline s'))
        = List.length items + drops (log (pipeline s)))%nat
    /\ (forall p, In p parsed -> truthy (oop_test.id p) = true)
    /\ match parsed with
       | [] => files (pipeline s') = files (pipeline s)
       | _ :: _ =>
           files_get (files (pipeline s')) oop_test.DEFAULT_FILENAME
           = Some (map VStr oop_test.REQUIRED_COLUMNS
                   :: map product_row parsed)
       end
    /\ map snd (journal s')
       = map snd (journal s)
         ++ [(INFO, ItemsReceived (len items));
             (INFO, Timed (pystr "process_products_parallel"));
             (INFO, Timed (pystr "save_products"));
             (INFO, AllCollected (len parsed));
             (INFO, TotalTime);
             (INFO, Timed (pystr "main"))].
Proof.
  intros Hlisted Hne Horder.
  destruct (oop_get_products_run api oop_entry.DEFAULT_CATEGORY_ID
              oop_entry.DEFAULT_LIMIT s)
    as (found & s1 & Hrun & Hpipeline & Hposts & Hcase).
  fold (listed api s) in Hcase. rewrite Hlisted in Hcase.
  destruct Hcase as [-> Hjournal].
  destruct (oop_main_sized api order s (VList items) s1 (len items) items
              Hrun)
    as (parsed & w1 & w2 & s' & Hprocess & Hsave & Hmain & Hw2 & _ & Hlines);
    [now destruct items | reflexivity | reflexivity |].
  rewrite Hpipeline in Hprocess.
  destruct (process_products_parallel_account items
              {| oop_test.api := oop_entry.detail_api api |}
              oop_test.MAX_WORKERS order (pipeline s) max_workers_positive
              Horder)
    as (parsed' & w1' & Hprocess' & Hcount & Hids).
  rewrite Hprocess in Hprocess'. pair_inv Hprocess'.
  destruct (process_products_parallel_returns items
              {| oop_test.api := oop_entry.detail_api api |}
              oop_test.MAX_WORKERS order (pipeline s) max_workers_positive)
    as (parsed & w1 & Hprocess' & Hfiles & _).
  rewrite Hprocess in Hprocess'. pair_inv Hprocess'.
  destruct (save_products_run
              {| oop_test.filename := oop_test.DEFAULT_FILENAME |} parsed w1)
    as (w2' & Hsave' & _ & _ & Hsaved).
  rewrite Hsave in Hsave'. pair_inv Hsave'.
  exists parsed, s'. split; [exact Hmain|].
  rewrite Hjournal in Hlines. rewrite !filename_eta in Hsaved.
  repeat split; try assumption.
  - clear - Hsaved Hcount. destruct parsed as [|p parsed].
    + destruct Hsaved as (_ & e & ->). rewrite drops_app.
      cbn [List.length] in Hcount |- *.
      replace (drops [(ERROR, CsvFailed e)]) with 0%nat by reflexivity.
      lia.
    + destruct Hsaved as (_ & ->). rewrite drops_app.
      replace (drops [(INFO, CsvSaved oop_test.DEFAULT_FILENAME)])
        with 0%nat by reflexivity.
      lia.
  - clear - Hsaved Hfiles. destruct parsed as [|p parsed].
    + destruct Hsaved as (-> & _). exact Hfiles.
    + now destruct Hsaved as (-> & _).
Qed.

(** X18. [main] of oop_test.py sends one listing request and no request
    of the first pipeline. It raises exactly when the document holds
    under "items" a true value without a length (a number or [True]):
    then [len(products)] raises [TypeError] out of [main], and nothing
    was parsed or written. In every other case [main] ends normally. *)
Theorem oop_main_outcome api order s :
  exists r s',
    oop_entry.main api order s = (r, s')
    /\ posts s'
       = posts s
         ++ [Listing oop_entry.DEFAULT_CATEGORY_ID oop_entry.DEFAULT_LIMIT]
    /\ requests (pipeline s') = requests (pipeline s)
    /\ r = match listed api s with
           | Ok items =>
               if unsized items then Raises TypeError else Returns tt
           | Raise _ => Returns tt
           end
    /\ (r = Raises TypeError -> pipeline s' = pipeline s).
Proof.
  destruct (oop_get_products_run api oop_entry.DEFAULT_CATEGORY_ID
              oop_entry.DEFAULT_LIMIT s)
    as (items & s1 & Hrun & Hpipeline & Hposts & Hcase).
  fold (listed api s) in Hcase.
  destruct (truthy items) eqn:Htruthy.
  - assert (Hlisted : listed api s = Ok items).
    { destruct (listed api s) as [found|e]; destruct Hcase as [-> _];
        [reflexivity | discriminate]. }
    rewrite Hlisted. unfold unsized. rewrite Htruthy. cbn [andb].
    destruct (main.py_len items) as [n|e] eqn:Hlen.
    + assert (Hiter : exists elements, py_iter items = Ok elements)
        by (destruct items; try discriminate; eexists; reflexivity).
      destruct Hiter as (elements & Hiter).
      destruct (oop_main_sized api order s items s1 n elements
                  Hrun Htruthy Hlen Hiter)
        as (parsed & w1 & w2 & s' & Hprocess & Hsave & Hmain & Hw2
            & Hposts' & _).
      destruct (process_products_parallel_returns elements
                  {| oop_test.api := oop_entry.detail_api api |}
                  oop_test.MAX_WORKERS order (pipeline s1)
                  max_workers_positive)
        as (parsed' & w1' & Hprocess' & _ & Hreq & _).
      rewrite Hprocess in Hprocess'. pair_inv Hprocess'.
      destruct (save_products_run
                  {| oop_test.filename := oop_test.DEFAULT_FILENAME |}
                  parsed' w1')
        as (w2' & Hsave' & Hreq' & _).
      rewrite Hsave in Hsave'. pair_inv Hsave'.
      exists (Returns tt), s'. split; [exact Hmain|].
      split; [congruence|]. split; [congruence|].
      split; [reflexivity | discriminate].
    + exists (Raises TypeError), s1.
      assert (He : e = TypeError)
        by (destruct items; try discriminate; cbn in Hlen; congruence).
      subst e. split.
      { unfold oop_entry.main, timer_decorator.
        unfold ebind at 1. unfold ebind at 1. rewrite Hrun, Htruthy.
        unfold ebind at 1. unfold elift at 1. now rewrite Hlen. }
      split; [assumption|]. split; [congruence|].
      split; [reflexivity | now intros _].
  - rewrite (oop_main_falsy api order s items s1 Hrun Htruthy).
    eexists _, _. split; [reflexivity|]. cbn [pipeline posts].
    split; [assumption|]. split; [congruence|].
    split; [|discriminate].
    destruct (listed api s) as [found|e]; [|reflexivity].
    destruct Hcase as [-> _]. unfold unsized. now rewrite Htruthy.
Qed.

(** The listing holds the number 5 under "items": [TypeError], and the
    pipeline has done nothing. *)
Lemma oop_main_outcome_number :
  exists s',
    oop_entry.main api_number [] (new_entry_state empty_world)
    = (Raises TypeError, s')
    /\ pipeline s' = empty_world.
Proof.
  destruct (oop_main_outcome api_number [] (new_entry_state empty_world))
    as (r & s' & Hrun & _ & _ & Hr & Hpipeline).
  assert (Hraises : r = Raises TypeError) by (rewrite Hr; reflexivity).
  exists s'. split; [now rewrite <- Hraises|].
  exact (Hpipeline Hraises).
Defined.

(** The listing is down: one request, one ERROR line of the API, one of
    [main], and nothing else. *)
Lemma oop_main_nothing_received_down :
  exists s',
    oop_entry.main api_down [] (new_entry_state empty_world)
    = (Returns tt, s')
    /\ pipeline s' = pipeline (new_entry_state empty_world)
    /\ posts s'
       = posts (new_entry_state empty_world)
         ++ [Listing oop_entry.DEFAULT_CATEGORY_ID oop_entry.DEFAULT_LIMIT]
    /\ map snd (journal s')
       = map snd (journal (new_entry_state empty_world))
         ++ match listed api_down (new_entry_state empty_world) with
            | Raise e => [(ERROR, ListingFailed e)]
            | Ok _ => []
            end
         ++ [(ERROR, NothingReceived); (INFO, Timed (pystr "main"))].
Proof.
  apply (oop_main_nothing_received api_down []
           (new_entry_state empty_world)).
  intros items Hlisted. discriminate Hlisted.
Defined.

(** Three items listed, one of them without an identifier. *)
Lemma oop_main_saves_records_example :
  exists parsed s',
    oop_entry.main
      (api_listing [product_with_id (Some (VInt 7)); product_with_id None;
                    product_with_id (Some (VInt 8))])
      [2; 0; 1]%nat (new_entry_state empty_world)
    = (Returns tt, s')
    /\ (List.length parsed + drops (log (pipeline s'))
        = List.length [product_with_id (Some (VInt 7)); product_with_id None;
                       product_with_id (Some (VInt 8))]
          + drops (log (pipeline (new_entry_state empty_world))))%nat
    /\ (forall p, In p parsed -> truthy (oop_test.id p) = true)
    /\ match parsed with
       | [] =>
           files (pipeline s')
           = files (pipeline (new_entry_state empty_world))
       | _ :: _ =>
           files_get (files (pipeline s')) oop_test.DEFAULT_FILENAME
           = Some (map VStr oop_test.REQUIRED_COLUMNS
                   :: map product_row parsed)
       end
    /\ map snd (journal s')
       = map snd (journal (new_entry_state empty_world))
         ++ [(INFO,
              ItemsReceived
                (len [product_with_id (Some (VInt 7)); product_with_id None;
                      product_with_id (Some (VInt 8))]));
             (INFO, Timed (pystr "process_products_parallel"));
             (INFO, Timed (pystr "save_products"));
             (INFO, AllCollected (len parsed));
             (INFO, TotalTime);
             (INFO, Timed (pystr "main"))].
Proof.
  apply (oop_main_saves_records
           (api_listing [product_with_id (Some (VInt 7));
                         product_with_id None;
                         product_with_id (Some (VInt 8))])
           [2; 0; 1]%nat (new_entry_state empty_world)).
  - reflexivity.
  - reflexivity.
  - exact (Permutation_cons_append [0; 1]%nat 2%nat).
Defined.

(** ** store_fetcher.py *)

Lemma dict_get_set d k v k' :
  dict_get (store_fetcher.dict_set d k v) k'
  = if str_eqb k k' then Some v else dict_get d k'.
Proof.
  induction d as [|[k0 v0] d IH]; cbn [store_fetcher.dict_set dict_get].
  - reflexivity.
  - destruct (str_eqb k0 k) eqn:Hk0; cbn [dict_get].
    + apply str_eqb_eq in Hk0 as ->. now destruct (str_eqb k k').
    + rewrite IH. destruct (str_eqb k k') eqn:Hk; [|reflexivity].
      apply str_eqb_eq in Hk as <-. now rewrite Hk0.
Qed.

(** The loop over the cities leaves the pipeline's world alone. *)
Lemma keeps_pipeline_ebind {A B} (m : E A) (k : A -> E B) :
  keeps_pipeline m -> (forall a, keeps_pipeline (k a)) ->
  keeps_pipeline (ebind m k).
Proof.
  intros Hm Hk s r s' H.
  apply ebind_inv in H
    as [(a & s1 & Hrun & H) | [(e & Hrun & _) | [Hrun _]]].
  - apply Hm in Hrun. apply Hk in H. congruence.
  - now apply Hm in Hrun.
  - now apply Hm in Hrun.
Qed.

Lemma keeps_pipeline_eret {A} (a : A) : keeps_pipeline (eret a).
Proof. intros s r s' H. now pair_inv H. Qed.

Lemma keeps_pipeline_elift {A} (x : result A) : keeps_pipeline (elift x).
Proof. intros s r s' H. unfold elift in H. destruct x; now pair_inv H. Qed.

Lemma keeps_pipeline_elog l m : keeps_pipeline (elog l m).
Proof. intros s r s' H. now pair_inv H. Qed.

Lemma keeps_pipeline_epost srv p : keeps_pipeline (epost srv p).
Proof.
  intros s r s' H. unfold epost in H.
  now apply keeps_pipeline_elift in H.
Qed.

Create HintDb entry.
#[local] Hint Resolve keeps_pipeline_eret keeps_pipeline_elift
  keeps_pipeline_elog keeps_pipeline_epost : entry.

Lemma fetch_frame srv cities : forall all_stores,
  keeps_pipeline (store_fetcher.fetch srv cities all_stores).
Proof.
  induction cities as [|city cities IH]; intros all_stores;
    cbn [store_fetcher.fetch]; auto with entry.
  repeat (apply keeps_pipeline_ebind; [auto with entry|]; intros ?).
  apply IH.
Qed.

(** The rows built for [writerows] hold the three columns only. *)
Lemma rows_only_fields all_stores : forall rows,
  store_fetcher.rows all_stores = Ok rows ->
  forallb (only_fields store_fetcher.FIELDNAMES) rows = true.
Proof.
  induction all_stores as [|s all_stores IH]; intros rows H;
    cbn [store_fetcher.rows] in H.
  - now injection H as <-.
  - unfold store_fetcher.row in H. unfold rbind in H.
    destruct (py_getitem s (pystr "id")) as [id|]; [|discriminate].
    destruct (py_getitem s (pystr "title")) as [title|]; [|discriminate].
    destruct (py_getitem s (pystr "city")) as [city|]; [|discriminate].
    destruct (store_fetcher.rows all_stores) as [rs|]; [|discriminate].
    injection H as <-. cbn [forallb]. rewrite (IH rs eq_refl).
    reflexivity.
Qed.

Lemma set_cities_tagged city stores :
  forallb store_like stores = true ->
  store_fetcher.set_cities city stores = Ok (map (tagged city) stores).
Proof.
  induction stores as [|s stores IH]; intros H;
    cbn [store_fetcher.set_cities map forallb] in *; [reflexivity|].
  apply andb_true_iff in H as [Hs H]. rewrite (IH H).
  destruct s; try discriminate. reflexivity.
Qed.

Lemma city_is_not_id : str_eqb (pystr "city") (pystr "id") = false.
Proof. vm_compute. reflexivity. Qed.

Lemma city_is_not_title : str_eqb (pystr "city") (pystr "title") = false.
Proof. vm_compute. reflexivity. Qed.

(** The row of a store listed for [city]. *)
Lemma row_tagged city s :
  store_like s = true ->
  exists r,
    store_fetcher.row (tagged city s) = Ok r
    /\ only_fields store_fetcher.FIELDNAMES r = true
    /\ fields_of store_fetcher.FIELDNAMES r = store_cells city s.
Proof.
  destruct s as [| | | | | |d]; try discriminate. cbn [store_like].
  destruct (dict_get d (pystr "id")) as [id|] eqn:Hid; [|discriminate].
  destruct (dict_get d (pystr "title")) as [title|] eqn:Htitle;
    [|discriminate].
  intros _. unfold store_fetcher.row, tagged, py_getitem.
  rewrite !dict_get_set, city_is_not_id, city_is_not_title, str_eqb_refl.
  rewrite Hid, Htitle. cbn [rbind store_cells]. rewrite Hid, Htitle.
  eexists. split; [reflexivity|].
  split; vm_compute; reflexivity.
Qed.

Lemma rows_tagged city stores :
  forallb store_like stores = true ->
  exists rs,
    store_fetcher.rows (map (tagged city) stores) = Ok rs
    /\ map (fields_of store_fetcher.FIELDNAMES) rs
       = map (store_cells city) stores.
Proof.
  induction stores as [|s stores IH]; intros H;
    cbn [store_fetcher.rows map forallb] in *.
  - now exists [].
  - apply andb_true_iff in H as [Hs H].
    destruct (row_tagged city s Hs) as (r & -> & _ & Hcells).
    destruct (IH H) as (rs & -> & Hrows).
    exists (r :: rs). split; [reflexivity|].
    cbn [map]. now rewrite Hcells, Hrows.
Qed.

Lemma rows_app l1 l2 r1 r2 :
  store_fetcher.rows l1 = Ok r1 ->
  store_fetcher.rows l2 = Ok r2 ->
  store_fetcher.rows (l1 ++ l2) = Ok (r1 ++ r2).
Proof.
  revert r1; induction l1 as [|s l1 IH]; intros r1 H1 H2;
    cbn [store_fetcher.rows app] in *.
  - now injection H1 as <-.
  - destruct (store_fetcher.row s) as [r|]; [|discriminate].
    cbn [rbind] in *.
    destruct (store_fetcher.rows l1) as [rs|]; [|discriminate].
    injection H1 as <-. now rewrite (IH rs eq_refl H2).
Qed.

(** The loop over cities whose endpoints list stores. *)
Lemma fetch_lists srv stores_of : forall cities regions all_stores s,
  Forall2 (fun city region => config_getitem config.CITIES city = Ok region)
    cities regions ->
  (forall city, In city cities ->
     lists_stores (srv city) (stores_of city)
     /\ forallb store_like (stores_of city) = true) ->
  exists s',
    store_fetcher.fetch srv cities all_stores s
    = (Returns (all_stores
                ++ flat_map (fun city => map (tagged city) (stores_of city))
                     cities), s')
    /\ posts s' = posts s ++ map StoreSearch regions.
Proof.
  induction cities as [|city cities IH]; intros regions all_stores s Hconf
    Hsrv; inversion Hconf as [|? region ? regions' Hregion Hrest]; subst;
    cbn [store_fetcher.fetch flat_map map].
  - exists s. now rewrite !app_nil_r.
  - destruct (Hsrv city (or_introl eq_refl)) as [Hlists Hlike].
    unfold ebind at 1. unfold elog at 1.
    unfold ebind at 1. unfold elift at 1. rewrite Hregion.
    unfold ebind at 1. unfold epost at 1. cbn [pipeline journal posts].
    destruct (Hlists (List.length (posts s)) region) as (data & -> & Hitems).
    unfold elift at 1.
    unfold ebind at 1. unfold elift at 1. rewrite Hitems.
    unfold ebind at 1. unfold elift at 1. cbn [py_iter].
    unfold ebind at 1. unfold elift at 1.
    rewrite (set_cities_tagged city _ Hlike).
    unfold ebind at 1. unfold elog at 1. cbn [pipeline journal posts].
    match goal with
    | |- context [store_fetcher.fetch srv cities ?all ?s1] =>
        destruct (IH regions' all s1 Hrest) as (s' & Hrun & Hposts)
    end.
    { intros c Hc. apply Hsrv. now right. }
    exists s'. rewrite Hrun. cbn [posts] in Hposts.
    rewrite Hposts, <- !app_assoc. now split.
Qed.

Lemma rows_flat_map stores_of : forall cities,
  (forall city, In city cities ->
     forallb store_like (stores_of city) = true) ->
  exists rs,
    store_fetcher.rows
      (flat_map (fun city => map (tagged city) (stores_of city)) cities)
    = Ok rs
    /\ map (fields_of store_fetcher.FIELDNAMES) rs
       = flat_map (fun city => map (store_cells city) (stores_of city))
           cities.
Proof.
  induction cities as [|city cities IH]; intros Hlike; cbn [flat_map].
  - now exists [].
  - destruct (rows_tagged city (stores_of city) (Hlike city (or_introl eq_refl)))
      as (r1 & Hr1 & Hcells1).
    destruct IH as (r2 & Hr2 & Hcells2);
      [intros c Hc; apply Hlike; now right|].
    exists (r1 ++ r2). split; [now apply rows_app|].
    now rewrite map_app, Hcells1, Hcells2.
Qed.

Lemma cities_configured :
  Forall2 (fun city region => config_getitem config.CITIES city = Ok region)
    (map fst config.CITIES) (map snd config.CITIES).
Proof. repeat constructor; vm_compute; reflexivity. Qed.

Lemma csvwriter_filename_eta name columns :
  main.filename {| main.filename := name; main.fieldnames := columns |}
  = name.
Proof. reflexivity. Qed.

Lemma csvwriter_fieldnames_eta name columns :
  main.fieldnames {| main.filename := name; main.fieldnames := columns |}
  = columns.
Proof. reflexivity. Qed.

(** [main] of store_fetcher.py after its loop. *)
Lemma store_fetcher_after_fetch srv now s all_stores s1 :
  store_fetcher.fetch srv (map fst config.CITIES) [] s
  = (Returns all_stores, s1) ->
  exists w1,
    files_get (files w1) (pystr "lenta_stores_" ++ now ++ pystr ".csv")
    = Some [map VStr store_fetcher.FIELDNAMES]
    /\ match store_fetcher.rows all_stores with
       | Raise e =>
           store_fetcher.main srv now s
           = (Raises e,
              {| pipeline := w1; journal := journal s1; posts := posts s1 |})
       | Ok rows =>
           exists s',
             store_fetcher.main srv now s = (Returns tt, s')
             /\ posts s' = posts s1
             /\ files_get (files (pipeline s'))
                  (pystr "lenta_stores_" ++ now ++ pystr ".csv")
                = Some (map VStr store_fetcher.FIELDNAMES
                        :: map (fields_of store_fetcher.FIELDNAMES) rows)
       end.
Proof.
  intros Hfetch.
  exists {| log := log (pipeline s1);
            requests := requests (pipeline s1);
            detail_requests := detail_requests (pipeline s1);
            files :=
              files_set
                (files_set (files (pipeline s1))
                   (pystr "lenta_stores_" ++ now ++ pystr ".csv") [])
                (pystr "lenta_stores_" ++ now ++ pystr ".csv")
                [map VStr store_fetcher.FIELDNAMES] |}.
  split; [cbn [files]; apply files_get_set|].
  assert (Hmain :
    store_fetcher.main srv now s
    = (rows <- elift (store_fetcher.rows all_stores) ;;
       of_M (main.writerows
               {| main.filename :=
                    pystr "lenta_stores_" ++ now ++ pystr ".csv";
                  main.fieldnames := store_fetcher.FIELDNAMES |} rows) ;;
       elog INFO (StoresSaved (len all_stores)
                    (pystr "lenta_stores_" ++ now ++ pystr ".csv")))%E
        {| pipeline :=
             {| log := log (pipeline s1);
                requests := requests (pipeline s1);
                detail_requests := detail_requests (pipeline s1);
                files :=
                  files_set
                    (files_set (files (pipeline s1))
                       (pystr "lenta_stores_" ++ now ++ pystr ".csv") [])
                    (pystr "lenta_stores_" ++ now ++ pystr ".csv")
                    [map VStr store_fetcher.FIELDNAMES] |};
           journal := journal s1;
           posts := posts s1 |}).
  { unfold store_fetcher.main.
    unfold ebind at 1. rewrite Hfetch.
    unfold ebind at 1. unfold of_M at 1, file_create at 1.
    unfold ebind at 1. unfold of_M at 1, file_append at 1.
    cbn [pipeline journal posts]. simpl_world. rewrite files_get_set.
    reflexivity. }
  rewrite Hmain. clear Hmain.
  unfold ebind at 1. unfold elift at 1.
  destruct (store_fetcher.rows all_stores) as [rows|e] eqn:Hrows;
    [|reflexivity].
  unfold ebind at 1. unfold of_M at 1. cbn [pipeline journal posts].
  match goal with
  | |- context [main.writerows ?writer rows ?w1] =>
      destruct (writerows_file writer rows w1
                  [map VStr store_fetcher.FIELDNAMES])
        as (w2 & Hwrite & Hfile)
  end.
  { exact (rows_only_fields _ _ Hrows). }
  { rewrite csvwriter_filename_eta. apply files_get_set. }
  rewrite Hwrite. unfold elog. eexists. split; [reflexivity|].
  cbn [pipeline journal posts]. split; [reflexivity|].
  now rewrite csvwriter_filename_eta, csvwriter_fieldnames_eta in Hfile.
Qed.

(** X19. When the endpoint of every configured city lists stores that
    have an id and a title, [main] of store_fetcher.py sends one search
    per city, in the order of the configuration and with the city's
    region, and writes the header followed by one row per store, city by
    city in that order; the city cell is the configured city, whatever
    the store held under "city". *)
Theorem store_fetcher_saves srv now s stores_of :
  (forall city, In city (map fst config.CITIES) ->
     lists_stores (srv city) (stores_of city)
     /\ forallb store_like (stores_of city) = true) ->
  exists s',
    store_fetcher.main srv now s = (Returns tt, s')
    /\ posts s' = posts s ++ map StoreSearch (map snd config.CITIES)
    /\ files_get (files (pipeline s'))
         (pystr "lenta_stores_" ++ now ++ pystr ".csv")
       = Some (map VStr store_fetcher.FIELDNAMES
               :: flat_map
                    (fun city => map (store_cells city) (stores_of city))
                    (map fst config.CITIES)).
Proof.
  intros Hsrv.
  destruct (fetch_lists srv stores_of _ _ [] s cities_configured Hsrv)
    as (s1 & Hfetch & Hposts).
  cbn [app] in Hfetch.
  destruct (store_fetcher_after_fetch srv now s _ s1 Hfetch)
    as (w1 & _ & Hmain).
  destruct (rows_flat_map stores_of (map fst config.CITIES))
    as (rows & Hrows & Hcells); [intros c Hc; now apply Hsrv|].
  rewrite Hrows in Hmain. destruct Hmain as (s' & Hmain & Hposts' & Hfile).
  exists s'. split; [exact Hmain|]. split; [congruence|].
  now rewrite Hfile, Hcells.
Qed.


(** Two stores in Moscow and one in Saint Petersburg: three rows. *)
Lemma store_fetcher_saves_two_cities :
  exists s',
    store_fetcher.main two_cities (pystr "20250101_120000")
      (new_entry_state empty_world) = (Returns tt, s')
    /\ posts s'
       = posts (new_entry_state empty_world)
         ++ map StoreSearch (map snd config.CITIES)
    /\ files_get (files (pipeline s'))
         (pystr "lenta_stores_" ++ pystr "20250101_120000" ++ pystr ".csv")
       = Some (map VStr store_fetcher.FIELDNAMES
               :: flat_map
                    (fun city => map (store_cells city) (stores_of_city city))
                    (map fst config.CITIES)).
Proof.
  apply (store_fetcher_saves two_cities (pystr "20250101_120000")
           (new_entry_state empty_world) stores_of_city).
  intros city _. split.
  - intros n region. eexists. split; reflexivity.
  - unfold stores_of_city. now destruct (str_eqb city (pystr "Москва")).
Defined.


(** The loop over the cities stops at the first city whose search
    fails. *)
Lemma fetch_fails srv stores_of city region post e :
  forall pre regions all_stores s,
    Forall2 (fun city region => config_getitem config.CITIES city = Ok region)
      pre regions ->
    (forall c, In c pre ->
       lists_stores (srv c) (stores_of c)
       /\ forallb store_like (stores_of c) = true) ->
    config_getitem config.CITIES city = Ok region ->
    (forall n, srv city n (StoreSearch region) = Raise e) ->
    exists s',
      store_fetcher.fetch srv (pre ++ city :: post) all_stores s
      = (Raises e, s')
      /\ posts s' = posts s ++ map StoreSearch (regions ++ [region]).
Proof.
  induction pre as [|c pre IH]; intros regions all_stores s Hconf Hsrv
    Hregion Hdown;
    inversion Hconf as [|? r ? regions' Hr Hrest]; subst;
    cbn [app store_fetcher.fetch map].
  - unfold ebind at 1. unfold elog at 1.
    unfold ebind at 1. unfold elift at 1. rewrite Hregion.
    unfold ebind at 1. unfold epost at 1. cbn [pipeline journal posts].
    rewrite Hdown. unfold elift. eexists. split; reflexivity.
  - destruct (Hsrv c (or_introl eq_refl)) as [Hlists Hlike].
    unfold ebind at 1. unfold elog at 1.
    unfold ebind at 1. unfold elift at 1. rewrite Hr.
    unfold ebind at 1. unfold epost at 1. cbn [pipeline journal posts].
    destruct (Hlists (List.length (posts s)) r) as (data & -> & Hitems).
    unfold elift at 1.
    unfold ebind at 1. unfold elift at 1. rewrite Hitems.
    unfold ebind at 1. unfold elift at 1. cbn [py_iter].
    unfold ebind at 1. unfold elift at 1.
    rewrite (set_cities_tagged c _ Hlike).
    unfold ebind at 1. unfold elog at 1. cbn [pipeline journal posts].
    match goal with
    | |- context [store_fetcher.fetch srv _ ?all ?s1] =>
        destruct (IH regions' all s1 Hrest) as (s' & Hrun & Hposts);
          try assumption
    end.
    { intros c' Hc'. apply Hsrv. now right. }
    exists s'. rewrite Hrun. cbn [posts] in Hposts.
    rewrite Hposts, <- !app_assoc. now split.
Qed.

(** X21. [store_fetcher.main] does not isolate the cities: when the
    search of one configured city fails after the cities before it listed
    their stores, [main] raises that exception and writes no file, so the
    stores already fetched are lost. *)
Theorem store_fetcher_no_isolation srv now s stores_of pre city post e :
  map fst config.CITIES = pre ++ city :: post ->
  (forall c, In c pre ->
     lists_stores (srv c) (stores_of c)
     /\ forallb store_like (stores_of c) = true) ->
  (forall n region, srv city n (StoreSearch region) = Raise e) ->
  exists s',
    store_fetcher.main srv now s = (Raises e, s')
    /\ files (pipeline s') = files (pipeline s)
    /\ List.length (posts s') = (List.length (posts s) + S (List.length pre))%nat.
Proof.
  intros Hcities Hsrv Hdown.
  pose proof cities_configured as Hconf. rewrite Hcities in Hconf.
  apply Forall2_app_inv_l in Hconf
    as (regions & rest & Hpre & Hrest & _).
  inversion Hrest as [|? region ? ? Hregion _]; subst.
  destruct (fetch_fails srv stores_of city region post e pre regions [] s
              Hpre Hsrv Hregion (fun n => Hdown n region))
    as (s' & Hfetch & Hposts).
  exists s'. unfold store_fetcher.main. rewrite Hcities.
  rewrite (ebind_raises _ _ _ _ _ Hfetch).
  split; [reflexivity|]. split.
  - apply fetch_frame in Hfetch. now rewrite Hfetch.
  - rewrite Hposts, length_app, length_map, length_app.
    apply Forall2_length in Hpre. cbn. lia.
Qed.

(** Moscow lists two stores, Saint Petersburg is down: no file. *)
Lemma store_fetcher_no_isolation_second_city :
  exists s',
    store_fetcher.main moscow_then_down (pystr "20250101_120000")
      (new_entry_state empty_world) = (Raises ClientError, s')
    /\ files (pipeline s') = files (pipeline (new_entry_state empty_world))
    /\ List.length (posts s')
       = (List.length (posts (new_entry_state empty_world))
          + S (List.length [pystr "Москва"]))%nat.
Proof.
  apply (store_fetcher_no_isolation moscow_then_down
           (pystr "20250101_120000") (new_entry_state empty_world)
           stores_of_city [pystr "Москва"] (pystr "Санкт-Петербург") []
           ClientError).
  - reflexivity.
  - intros c [<- | []]. split.
    + intros n region. eexists. split; reflexivity.
    + reflexivity.
  - intros n region. reflexivity.
Defined.

(** ** logger.py *)

Lemma emit_all_snoc h records record fs :
  emit_all h (records ++ [record]) fs
  = json_logger.emit (fst (emit_all h records fs)) record
      (snd (emit_all h records fs)).
Proof. unfold emit_all. now rewrite fold_left_app. Qed.

(** After a [JSONHandler] has emitted records, its document holds the
    whole history of the handler, every emission having rewritten it in
    full; no other document is touched. *)
Lemma emit_all_history h records fs :
  json_logger.logs (fst (emit_all h records fs))
  = json_logger.logs h ++ map entry_of records
  /\ json_logger.filename (fst (emit_all h records fs))
     = json_logger.filename h
  /\ snd (emit_all h records fs) (document_of h)
     = match records with
       | [] => fs (document_of h)
       | _ :: _ => Some (json_logger.logs h ++ map entry_of records)
       end
  /\ forall path,
       str_eqb path (document_of h) = false ->
       snd (emit_all h records fs) path = fs path.
Proof.
  induction records as [|record records IH] using rev_ind.
  - cbn. rewrite app_nil_r. repeat split.
  - destruct IH as (Hlogs & Hname & _ & Hother).
    rewrite emit_all_snoc. unfold json_logger.emit.
    cbn [fst snd json_logger.logs json_logger.filename].
    rewrite Hlogs, Hname, map_app, <- app_assoc. cbn [map].
    repeat split.
    + unfold json_logger.json_dump. fold (document_of h).
      rewrite str_eqb_refl. now destruct records.
    + intros path Hpath. unfold json_logger.json_dump.
      fold (document_of h). rewrite Hpath. now apply Hother.
Qed.

Lemma constructions_set n : forall now st,
  json_logger._instance st = true -> constructions n now st = st.
Proof.
  induction n as [|n IH]; intros now st Hset; cbn [constructions];
    [reflexivity|].
  unfold json_logger.new_LoggerSingleton. rewrite Hset. now apply IH.
Qed.

(** X22. However often [LoggerSingleton] is constructed, only the first
    construction initialises the logger: it sets the level and adds one
    console handler and one JSON handler, named after the time of that
    construction, and every later construction changes nothing. *)
Theorem singleton_once n now st :
  constructions (S n) now st = json_logger.new_LoggerSingleton (now O) st
  /\ json_logger._instance (json_logger.new_LoggerSingleton (now O) st)
     = true
  /\ json_logger.handlers (json_logger.new_LoggerSingleton (now O) st)
     = if json_logger._instance st then json_logger.handlers st
       else json_logger.handlers st
            ++ [json_logger.StreamHandler json_logger.LOG_FORMAT;
                json_logger.JSON
                  (json_logger.new_JSONHandler
                     (pystr "lenta_parser_" ++ now O ++ pystr ".json"))].
Proof.
  assert (Hset : json_logger._instance
                   (json_logger.new_LoggerSingleton (now O) st) = true).
  { unfold json_logger.new_LoggerSingleton.
    destruct (json_logger._instance st) eqn:Hst; [exact Hst | reflexivity]. }
  split; [|split; [exact Hset|]].
  - cbn [constructions]. now apply constructions_set.
  - unfold json_logger.new_LoggerSingleton.
    destruct (json_logger._instance st); [reflexivity|].
    cbn [json_logger._initialize_logger json_logger.handlers].
    now rewrite <- app_assoc.
Qed.

Lemma singleton_once_fresh n now :
  constructions (S n) now json_logger.fresh
  = json_logger.new_LoggerSingleton (now O) json_logger.fresh
  /\ json_logger.handlers
       (json_logger.new_LoggerSingleton (now O) json_logger.fresh)
     = [json_logger.StreamHandler json_logger.LOG_FORMAT;
        json_logger.JSON
          (json_logger.new_JSONHandler
             (pystr "lenta_parser_" ++ now O ++ pystr ".json"))].
Proof.
  split; [|reflexivity].
  cbn [constructions]. now apply constructions_set.
Qed.

Lemma document_of_new name :
  document_of (json_logger.new_JSONHandler name)
  = json_logger.LOG_DIR ++ pystr "/" ++ name.
Proof. reflexivity. Qed.

Lemma logs_new name : json_logger.logs (json_logger.new_JSONHandler name) = [].
Proof. reflexivity. Qed.

Lemma files_after_first_construction now :
  json_logger.files (json_logger.new_LoggerSingleton now json_logger.fresh)
  = json_logger.no_document.
Proof. reflexivity. Qed.

(** The two handlers of the logger at work. *)
Lemma handle_all_two_handlers format records : forall st h,
  json_logger.handlers st
  = [json_logger.StreamHandler format; json_logger.JSON h] ->
  json_logger.handlers (handle_all records st)
  = [json_logger.StreamHandler format;
     json_logger.JSON
       (fst (emit_all h records (json_logger.files st)))]
  /\ json_logger.console (handle_all records st)
     = json_logger.console st ++ map (pair format) records
  /\ json_logger.files (handle_all records st)
     = snd (emit_all h records (json_logger.files st)).
Proof.
  induction records as [|record records IH]; intros st h Hhandlers;
    cbn [handle_all emit_all fold_left map fst snd].
  - rewrite app_nil_r. now repeat split.
  - fold (handle_all records (json_logger.handle record st)).
    fold (emit_all (fst (json_logger.emit h record (json_logger.files st)))
            records
            (snd (json_logger.emit h record (json_logger.files st)))).
    destruct (IH (json_logger.handle record st)
                (fst (json_logger.emit h record (json_logger.files st))))
      as (Hh & Hconsole & Hfiles).
    { unfold json_logger.handle. rewrite Hhandlers. reflexivity. }
    rewrite Hh, Hconsole, Hfiles.
    unfold json_logger.handle. rewrite Hhandlers.
    cbn [json_logger.callHandlers json_logger.emit json_logger.console
         json_logger.files fst snd].
    rewrite <- app_assoc. now repeat split.
Qed.

(** X23. In a program that starts without a logger and constructs
    [LoggerSingleton] at least once, every record logged reaches the
    console once and the JSON document once: the document holds the
    entries of all the records logged so far, in their order, and does
    not exist before the first. *)
Theorem logged_once n now records :
  json_logger.console
    (handle_all records (constructions (S n) now json_logger.fresh))
  = map (pair json_logger.LOG_FORMAT) records
  /\ json_logger.files
       (handle_all records (constructions (S n) now json_logger.fresh))
       (json_logger.LOG_DIR ++ pystr "/"
        ++ pystr "lenta_parser_" ++ now O ++ pystr ".json")
     = match records with
       | [] => None
       | _ :: _ => Some (map entry_of records)
       end.
Proof.
  destruct (singleton_once_fresh n now) as [Hstate Hhandlers].
  rewrite Hstate.
  destruct (handle_all_two_handlers json_logger.LOG_FORMAT records _ _
              Hhandlers) as (_ & Hconsole & Hfiles).
  rewrite Hconsole, Hfiles. split; [reflexivity|].
  destruct (emit_all_history
              (json_logger.new_JSONHandler
                 (pystr "lenta_parser_" ++ now O ++ pystr ".json"))
              records json_logger.no_document) as (_ & _ & Hdoc & _).
  rewrite document_of_new, logs_new in Hdoc.
  rewrite files_after_first_construction. exact Hdoc.
Qed.

(** ** Documents with a null member *)

(** X13. An item whose "attributes" member is null has no brand in
    either pipeline: [_extract_brand] of main.py raises [TypeError], and
    so the formatting of the item raises; in oop_test.py, where the
    member is read from the detail document, [parse_product] drops the
    item with one ERROR line instead of building a record without a
    brand. *)
Theorem null_attributes `{U : UnicodeData} :
  (forall d,
      dict_get d (pystr "attributes") = Some VNone ->
      main._extract_brand (VDict d) = Raise TypeError
      /\ exists e, main.format_product (VDict d) = Raise e)
  /\ (forall self product_data w product_id detail,
        py_get product_data (pystr "id") VNone = Ok product_id ->
        oop_test.session (oop_test.api self)
          (List.length (detail_requests w)) product_id = Ok (VDict detail) ->
        dict_get detail (pystr "attributes") = Some VNone ->
        exists w',
          oop_test.parse_product self product_data w = (Returns None, w')
          /\ (drops (log w') = drops (log w) + 1)%nat).
Proof.
  split.
  - intros d Hnull.
    assert (Hbrand : main._extract_brand (VDict d) = Raise TypeError).
    { unfold main._extract_brand, py_get. now rewrite Hnull. }
    split; [exact Hbrand|].
    unfold main.format_product. rewrite Hbrand. unfold rbind.
    repeat match goal with
      | |- exists e, match ?x with Ok _ => _ | Raise _ => _ end = Raise e =>
          destruct x; [|eexists; reflexivity]
      end.
    eexists; reflexivity.
  - intros self product_data w product_id detail Hid Hdetail Hnull.
    destruct (oop_test.parse_product self product_data w) as [r w'] eqn:Hrun.
    destruct (parse_product_account _ _ _ _ _ Hrun)
      as (result & -> & Hdrops & _).
    destruct (parse_product_detail _ _ _ _ _ Hrun)
      as [[Hsame Hnone] | (pid & Hid' & _ & Hasked & Hrecord)].
    + exists w'. destruct result as [p|]; [now destruct (Hnone p)|].
      split; [reflexivity | lia].
    + rewrite Hid in Hid'. injection Hid' as <-.
      exists w'. destruct result as [p|].
      * exfalso. destruct (Hrecord p eq_refl) as (_ & _ & Hbrand).
        rewrite Hdetail in Hbrand. destruct Hbrand as (brand & Hbrand & _).
        unfold oop_test.extract_brand, py_get in Hbrand.
        rewrite Hnull in Hbrand.
        destruct detail; discriminate.
      * split; [reflexivity | lia].
Qed.

Lemma null_attributes_examples :
  (@main._extract_brand latin_cyrillic item_null_attributes = Raise TypeError
   /\ exists e,
        @main.format_product latin_cyrillic item_null_attributes = Raise e)
  /\ exists w',
       oop_test.parse_product (parser_of null_detail)
         (product_with_id (Some (VInt 2))) empty_world = (Returns None, w')
       /\ (drops (log w') = drops (log empty_world) + 1)%nat.
Proof.
  pose proof (@null_attributes latin_cyrillic) as [Hmain Hoop].
  split.
  - exact (Hmain members_null_attributes eq_refl).
  - exact (Hoop (parser_of null_detail) (product_with_id (Some (VInt 2)))
             empty_world (VInt 2) _ eq_refl eq_refl eq_refl).
Defined.

(** ** get_store *)

Lemma str_eqb_sym (s t : str) : str_eqb s t = str_eqb t s.
Proof.
  destruct (str_eqb s t) eqn:Hst.
  - apply str_eqb_eq in Hst as ->. now rewrite str_eqb_refl.
  - destruct (str_eqb t s) eqn:Hts; [|reflexivity].
    apply str_eqb_eq in Hts as ->. now rewrite str_eqb_refl in Hst.
Qed.

Lemma config_getitem_known (table : list (str * Z)) (k : str) :
  match config_getitem table k with
  | Ok _ => existsb (str_eqb k) (map fst table) = true
  | Raise e => e = KeyError k /\ existsb (str_eqb k) (map fst table) = false
  end.
Proof.
  induction table as [|[k' v] table IH]; cbn [config_getitem map fst existsb].
  - now split.
  - rewrite (str_eqb_sym k k'). destruct (str_eqb k' k); [reflexivity|].
    exact IH.
Qed.

(** X14. [get_store] builds the store object, with the three members
    [get_products] reads, exactly for the cities that the configuration
    knows: for any other city it raises [KeyError] with the city, before
    anything is logged. It sends no request. *)
Theorem get_store_outcome self w :
  exists r w',
    main.get_store self w = (r, w')
    /\ requests w' = requests w
    /\ if existsb (str_eqb (main.city self)) (map fst config.STORE_IDS)
          && existsb (str_eqb (main.city self)) (map fst config.CITIES)
       then exists store, r = Returns store /\ store_ok store = true
       else r = Raises (KeyError (main.city self)) /\ w' = w.
Proof.
  unfold main.get_store, bind, lift, logger, ret.
  pose proof (config_getitem_known config.STORE_IDS (main.city self)) as H1.
  pose proof (config_getitem_known config.CITIES (main.city self)) as H2.
  destruct (config_getitem config.STORE_IDS (main.city self)) as [sid|e1].
  - rewrite H1.
    destruct (config_getitem config.CITIES (main.city self)) as [rid|e2].
    + rewrite H2. eexists _, _. split; [reflexivity|].
      split; [reflexivity|]. eexists. split; reflexivity.
    + destruct H2 as [-> ->]. eexists _, _. now repeat split.
  - destruct H1 as [-> ->]. eexists _, _. now repeat split.
Qed.
